(** * History API: a shallow embedding of the request handlers

    The development follows the layout of the repository:

    - [JS]: the language built-ins the handlers call ([parseInt],
      [String.prototype.split], [Math.max]/[Math.min], [Date]);
    - the storage tables of [db/schema.ts] and the statements the handlers
      issue against them;
    - the part of the Hono dispatcher the application relies on;
    - [lib/serializers.ts], [middleware/firebaseAuth.ts], the routers of
      [routes/] and the application entry point;
    - the properties of the specification, one theorem each.

    Conventions.  A JavaScript string is kept as the [string] of its UTF-8
    bytes, so that [===] on strings is [String.eqb].  An integer-valued
    number is a [Z]; [NaN] is [None].  A number that comes from a JSON body
    is the rational that its decimal rendering denotes.  A [Date] is its time
    value, the milliseconds since the epoch, and an invalid [Date] is [None]. *)

From Stdlib Require Import ZArith QArith Qround Qabs List String Ascii Bool Lia Lqa.
From Stdlib Require Import Sorted Permutation DecimalString DecimalPos DecimalZ.
Import ListNotations.

Open Scope string_scope.
Open Scope Z_scope.

(* ================================================================== *)
(** ** JavaScript built-ins *)
(* ================================================================== *)

Module JS.

Definition byte (c : ascii) : Z := Z.of_N (N_of_ascii c).

(** White space and line terminators that are one byte long:
    TAB, LF, VT, FF, CR, SP. *)
Definition ws1 (a : Z) : bool :=
  ((9 <=? a) && (a <=? 13)) || (a =? 32).

(** U+00A0 (no-break space). *)
Definition ws2 (a b : Z) : bool :=
  (a =? 194) && (b =? 160).

(** U+1680, U+2000..U+200A, U+2028, U+2029, U+202F, U+205F, U+3000 and
    U+FEFF. *)
Definition ws3 (a b c : Z) : bool :=
  ((a =? 225) && (b =? 154) && (c =? 128))
  || ((a =? 226) && (b =? 128)
      && (((128 <=? c) && (c <=? 138)) || (c =? 168) || (c =? 169) || (c =? 175)))
  || ((a =? 226) && (b =? 129) && (c =? 159))
  || ((a =? 227) && (b =? 128) && (c =? 128))
  || ((a =? 239) && (b =? 187) && (c =? 191)).

(** [TrimString(s, start)]: drops leading white space. *)
Fixpoint trimStart (s : string) : string :=
  match s with
  | String a r1 =>
      if ws1 (byte a) then trimStart r1
      else match r1 with
           | String b r2 =>
               if ws2 (byte a) (byte b) then trimStart r2
               else match r2 with
                    | String c r3 =>
                        if ws3 (byte a) (byte b) (byte c) then trimStart r3 else s
                    | EmptyString => s
                    end
           | EmptyString => s
           end
  | EmptyString => s
  end.

Definition digit (c : ascii) : option Z :=
  let n := byte c in
  if (48 <=? n) && (n <=? 57) then Some (n - 48) else None.

(** The value of the longest prefix of decimal digits, [None] when that
    prefix is empty. *)
Fixpoint digits (s : string) (acc : option Z) : option Z :=
  match s with
  | String c r =>
      match digit c with
      | Some d =>
          digits r (Some (10 * (match acc with Some a => a | None => 0 end) + d))
      | None => acc
      end
  | EmptyString => acc
  end.

(** Division to the nearest integer, ties to the even one. *)
Definition div_even (a b : Z) : Z :=
  let q := a / b in
  let r := a mod b in
  if 2 * r <? b then q
  else if b <? 2 * r then q + 1
  else if Z.even q then q else q + 1.

(** The Number value of an integer: the integer up to 2^53, beyond it the
    nearest multiple of the spacing of the doubles there, ties to the even
    significand. *)
Definition to_double (n : Z) : Z :=
  let a := Z.abs n in
  if a <? 2 ^ 53 then n
  else
    let e := Z.log2 a - 52 in
    Z.sgn n * (div_even a (2 ^ e) * 2 ^ e).

(** [parseInt(s, 10)]: the Number value of the integer that the digits
    denote.  Beyond the largest double the built-in gives [Infinity], where
    this goes on rounding; the two callers below do the same with both, the
    limit being capped at 200 and the offset refused by the engine. *)
Definition parseInt (s : string) : option Z :=
  let t := trimStart s in
  let '(sign, t) :=
    match t with
    | String "-" r => (-1, r)
    | String "+" r => (1, r)
    | _ => (1, t)
    end in
  match digits t None with
  | Some m => Some (to_double (sign * m))
  | None => None
  end.

(** [String(n)] for an integer [n] up to 2^53 in magnitude, whose digits
    are the shortest that read back as [n]. *)
Definition String_of_int (n : Z) : string :=
  NilZero.string_of_int (Z.to_int n).

(** [s || d] on an optional string: [undefined] and [""] are falsy. *)
Definition str_or (s : option string) (d : string) : string :=
  match s with
  | Some (String a r) => String a r
  | _ => d
  end.

(** [n || d] on a number: [NaN] and [0] are falsy. *)
Definition num_or (n : option Z) (d : Z) : Z :=
  match n with
  | Some v => if v =? 0 then d else v
  | None => d
  end.


(** *** Date: the Date Time String Format of ECMA-262 *)

Definition msPerDay : Z := 86400000.

(** Largest magnitude of a time value ([TimeClip]). *)
Definition maxTime : Z := 8640000000000000.

Definition InLeapYear (y : Z) : bool :=
  ((y mod 4 =? 0) && negb (y mod 100 =? 0)) || (y mod 400 =? 0).

Definition DayFromYear (y : Z) : Z :=
  365 * (y - 1970) + (y - 1969) / 4 - (y - 1901) / 100 + (y - 1601) / 400.

Definition DaysInMonth (y m : Z) : Z :=
  if m =? 2 then (if InLeapYear y then 29 else 28)
  else if (m =? 4) || (m =? 6) || (m =? 9) || (m =? 11) then 30
  else 31.

(** Days of the year that precede month [m] (1..12). *)
Fixpoint daysBefore (y : Z) (m : nat) : Z :=
  match m with
  | O => 0
  | S O => 0
  | S m' => daysBefore y m' + DaysInMonth y (Z.of_nat m')
  end.

(** [MakeDay(year, month - 1, date)] for a month in 1..12. *)
Definition MakeDay (y m d : Z) : Z :=
  DayFromYear y + daysBefore y (Z.to_nat m) + (d - 1).

Definition MakeTime (h mi sec ms : Z) : Z :=
  h * 3600000 + mi * 60000 + sec * 1000 + ms.

Definition MakeDate (day time : Z) : Z := day * msPerDay + time.

Definition TimeClip (t : Z) : option Z :=
  if Z.abs t <=? maxTime then Some t else None.

(** Reads exactly [n] decimal digits. *)
Fixpoint read_digits (n : nat) (s : string) (acc : Z) : option (Z * string) :=
  match n with
  | O => Some (acc, s)
  | S n' =>
      match s with
      | String c r =>
          match digit c with
          | Some d => read_digits n' r (10 * acc + d)
          | None => None
          end
      | EmptyString => None
      end
  end.

(** [YYYY], or a sign and six digits; ["-000000"] is not a year. *)
Definition read_year (s : string) : option (Z * string) :=
  match s with
  | String "+" r => read_digits 6 r 0
  | String "-" r =>
      match read_digits 6 r 0 with
      | Some (y, r') => if y =? 0 then None else Some (- y, r')
      | None => None
      end
  | _ => read_digits 4 s 0
  end.

(** The zone of a date-time form. *)
Inductive Zone := LocalTime | Offset (minutes : Z).

(** ["Z"], [+HH:mm], [-HH:mm] or nothing, up to the end of the string. *)
Definition read_zone (s : string) : option Zone :=
  match s with
  | EmptyString => Some LocalTime
  | String "Z" EmptyString => Some (Offset 0)
  | String sg r =>
      let sign := if Ascii.eqb sg "+" then Some 1
                  else if Ascii.eqb sg "-" then Some (-1) else None in
      match sign, read_digits 2 r 0 with
      | Some k, Some (h, String ":" r1) =>
          match read_digits 2 r1 0 with
          | Some (mi, EmptyString) =>
              if (h <=? 23) && (mi <=? 59) then Some (Offset (k * (h * 60 + mi)))
              else None
          | _ => None
          end
      | _, _ => None
      end
  end.

(** [HH:mm], [HH:mm:ss] or [HH:mm:ss.sss], then the zone. *)
Definition read_time (s : string) : option (Z * Zone) :=
  match read_digits 2 s 0 with
  | Some (h, String ":" r1) =>
      match read_digits 2 r1 0 with
      | Some (mi, r2) =>
          let '(sec, ms, r5, ok) :=
            match r2 with
            | String ":" r3 =>
                match read_digits 2 r3 0 with
                | Some (sec, String "." r4) =>
                    match read_digits 3 r4 0 with
                    | Some (ms, r5) => (sec, ms, r5, true)
                    | None => (0, 0, r2, false)
                    end
                | Some (sec, r4) => (sec, 0, r4, true)
                | None => (0, 0, r2, false)
                end
            | _ => (0, 0, r2, true)
            end in
          let in_range :=
            ((h <=? 23) && (mi <=? 59) && (sec <=? 59))
            || ((h =? 24) && (mi =? 0) && (sec =? 0) && (ms =? 0)) in
          if ok && in_range then
            match read_zone r5 with
            | Some z => Some (MakeTime h mi sec ms, z)
            | None => None
            end
          else None
      | None => None
      end
  | _ => None
  end.

(** [YYYY], [YYYY-MM] or [YYYY-MM-DD]: year, month, day and the rest. *)
Definition read_date (s : string) : option (Z * Z * Z * string) :=
  match read_year s with
  | Some (y, String "-" r1) =>
      match read_digits 2 r1 0 with
      | Some (m, String "-" r2) =>
          match read_digits 2 r2 0 with
          | Some (d, r3) => Some (y, m, d, r3)
          | None => None
          end
      | Some (m, r2) => Some (y, m, 1, r2)
      | None => None
      end
  | Some (y, r1) => Some (y, 1, 1, r1)
  | None => None
  end.

(** A string of the Date Time String Format and the time value it denotes
    ([Some None] when that value is out of range); [None] for a string that
    is not of the format.  A date-only form is UTC, a date-time form
    without zone is local time; [UTC] turns a local time value into UTC. *)
Definition parse_format (UTC : Z -> Z) (s : string) : option (option Z) :=
  match read_date s with
  | Some (y, m, d, rest) =>
      if (1 <=? m) && (m <=? 12) && (1 <=? d) && (d <=? DaysInMonth y m) then
        let day := MakeDay y m d in
        match rest with
        | EmptyString => Some (TimeClip (MakeDate day 0))
        | String "T" r =>
            match read_time r with
            | Some (time, LocalTime) => Some (TimeClip (UTC (MakeDate day time)))
            | Some (time, Offset mins) =>
                Some (TimeClip (MakeDate day time - mins * 60000))
            | None => None
            end
        | _ => None
        end
      else None
  | None => None
  end.

(** [Date.parse(s)].  What a string outside the format parses to is left
    to the engine ([legacy]). *)
Definition Date_parse (legacy : string -> option Z) (UTC : Z -> Z) (s : string)
  : option Z :=
  match parse_format UTC s with
  | Some t => t
  | None => legacy s
  end.

(** A [Date] object: its time value, [None] when the date is invalid. *)
Definition Date := option Z.

(** *** Date.prototype.toISOString *)

(** Year, month and day of a day number. *)
Definition civil (day : Z) : Z * Z * Z :=
  let z := day + 719468 in
  let era := z / 146097 in
  let doe := z - era * 146097 in
  let yoe := (doe - doe / 1460 + doe / 36524 - doe / 146096) / 365 in
  let doy := doe - (365 * yoe + yoe / 4 - yoe / 100) in
  let mp := (5 * doy + 2) / 153 in
  let d := doy - (153 * mp + 2) / 5 + 1 in
  let m := if mp <? 10 then mp + 3 else mp - 9 in
  let y := yoe + era * 400 + (if m <=? 2 then 1 else 0) in
  (y, m, d).

(** The last [w] decimal digits of [n]. *)
Fixpoint pad (w : nat) (n : Z) : string :=
  match w with
  | O => ""
  | S w' => pad w' (n / 10) ++ String (ascii_of_N (Z.to_N (48 + n mod 10))) ""
  end.

Definition toISOString (t : Z) : string :=
  let '(y, m, d) := civil (t / msPerDay) in
  let time := t mod msPerDay in
  let year :=
    if (0 <=? y) && (y <=? 9999) then pad 4 y
    else (if y <? 0 then "-" else "+") ++ pad 6 (Z.abs y) in
  year ++ "-" ++ pad 2 m ++ "-" ++ pad 2 d ++ "T"
    ++ pad 2 (time / 3600000) ++ ":" ++ pad 2 (time / 60000 mod 60) ++ ":"
    ++ pad 2 (time / 1000 mod 60) ++ "." ++ pad 3 (time mod 1000) ++ "Z".

(** *** Truthiness and splitting *)

(** [s.split(sep)] for a one-character separator. *)
Fixpoint split (sep : ascii) (s : string) : list string :=
  match s with
  | EmptyString => [""]
  | String c r =>
      if Ascii.eqb c sep then "" :: split sep r
      else match split sep r with
           | w :: ws => String c w :: ws
           | [] => [String c ""]
           end
  end.


(** *** Values read from a JSON body *)

#[local] Set Warnings "-register-all".
Inductive json :=
| JNull
| JBool (b : bool)
| JNum (q : Q)
| JStr (s : string)
| JArr (l : list json)
| JObj (fields : list (string * json)).

(** An [Error] instance. *)
Record Error := { name : string; message : string }.

Fixpoint lookup (k : string) (fields : list (string * json)) : option json :=
  match fields with
  | [] => None
  | (k', v) :: rest => if String.eqb k k' then Some v else lookup k rest
  end.

(** [body.k]: [None] is [undefined]; reading a property of [null] throws.
    The [fields] of an object are its own properties. *)
Definition prop (body : json) (k : string) : Error + option json :=
  match body with
  | JNull =>
      inl {| name := "TypeError";
             message := "null is not an object (evaluating 'body." ++ k ++ "')" |}
  | JObj fields => inr (lookup k fields)
  | _ => inr None
  end.

(** [!v] *)
Definition falsy (v : option json) : bool :=
  match v with
  | None => true
  | Some JNull => true
  | Some (JBool b) => negb b
  | Some (JNum q) => Qeq_bool q 0
  | Some (JStr s) => String.eqb s ""
  | Some (JArr _) => false
  | Some (JObj _) => false
  end.

(** A decimal text, kept as the rational it denotes. *)
Definition Decimal := Q.

(** [String(v)] for a number [v]: a number being kept as the rational that
    its decimal rendering denotes, the text denotes the same rational. *)
Definition String_of_number (v : Q) : Decimal := v.

(** *** Number: from a decimal text to a double and to its rendering *)

(** The exponent [e] of the double nearest to [n / d], with
    [2 ^ 52 <= n / d / 2 ^ e < 2 ^ 53], and [-1074] for a subnormal. *)
Definition binade (n d : Z) : Z :=
  Z.max (Z.log2 (n * 2 ^ 1200 / d) - 1252) (-1074).

Definition pow2 (e : Z) : Q :=
  if 0 <=? e then inject_Z (2 ^ e) else 1 # Z.to_pos (2 ^ (- e)).

Definition pow10 (k : Z) : Q :=
  if 0 <=? k then inject_Z (10 ^ k) else 1 # Z.to_pos (10 ^ (- k)).

(** The Number value of a rational: the nearest double, ties to the even
    significand.  (No sum of stored values comes near the largest double,
    beyond which the built-in gives [Infinity].) *)
Definition nearest_double (q : Q) : Q :=
  let r := Qred q in
  let n := Qnum r in
  let d := Zpos (Qden r) in
  if n =? 0 then 0%Q
  else
    let a := Z.abs n in
    let e := binade a d in
    let m := div_even (a * 2 ^ Z.max 0 (- e)) (d * 2 ^ Z.max 0 e) in
    let x := (inject_Z m * pow2 e)%Q in
    if n <? 0 then Qopp x else x.

(** [Number::toString]: the decimal of fewest digits that reads back as
    [x], the closest to [x] when there are two, the even one on a tie.  The
    search goes down the powers of ten [p]; a decimal whose last digit
    stands at [10 ^ p] is a multiple of [10 ^ p] next to [x]. *)
Fixpoint shortest (fuel : nat) (p : Z) (x : Q) : Q :=
  match fuel with
  | O => x
  | S fuel' =>
      let scale := pow10 p in
      let s := Qfloor (x / scale) in
      let lo := (inject_Z s * scale)%Q in
      let hi := (inject_Z (s + 1) * scale)%Q in
      let ok_lo := Qeq_bool (nearest_double lo) x in
      let ok_hi := Qeq_bool (nearest_double hi) x in
      if ok_lo && ok_hi then
        match ((x - lo) ?= (hi - x))%Q with
        | Lt => lo
        | Gt => hi
        | Eq => if Z.even s then lo else hi
        end
      else if ok_lo then lo
      else if ok_hi then hi
      else shortest fuel' (p - 1) x
  end.

(** The exponent of a power of ten above [x]. *)
Definition above (x : Q) : Z :=
  (Z.log2 (Qnum x) - Z.log2 (Zpos (Qden x)) + 2) * 30103 / 100000 + 2.

(** A double as the rational that its rendering denotes. *)
Definition render (x : Q) : Q :=
  if Qnum x =? 0 then x
  else if Qnum x <? 0 then Qopp (shortest 40 (above (Qopp x)) (Qopp x))
  else shortest 40 (above x) x.

(** [Number(s)] for a decimal text [s]: the double nearest to what the text
    denotes, as the rational that its rendering denotes.  When that is the
    rational of the text, the fraction of the text is kept as it stands. *)
Definition Number (s : Decimal) : Q :=
  let v := render (nearest_double s) in
  if Qeq_bool v s then s else v.

(** *** String.prototype methods *)

(** [s.trimEnd()].  The string is UTF-8: a byte inside a character starts
    no white space, so that the white space a suffix consists of is looked
    for at every byte. *)
Fixpoint trimEnd (s : string) : string :=
  match s with
  | EmptyString => EmptyString
  | String a r =>
      match trimStart s with
      | EmptyString => EmptyString
      | String _ _ => String a (trimEnd r)
      end
  end.

(** [s.trim()] *)
Definition trim (s : string) : string := trimEnd (trimStart s).

(** [s.startsWith(c)] for a one-character [c]. *)
Definition startsWith (c : ascii) (s : string) : bool :=
  match s with
  | String a _ => Ascii.eqb a c
  | EmptyString => false
  end.

(** [s.indexOf(c)] for a one-character [c].  The index counts bytes; the
    caller hands it to [slice] only, which cuts at the same place as the
    index in UTF-16 units does. *)
Fixpoint indexOf (c : ascii) (s : string) : Z :=
  match s with
  | EmptyString => -1
  | String a r =>
      if Ascii.eqb a c then 0
      else let i := indexOf c r in if i =? -1 then -1 else i + 1
  end.

(** [s.slice(start, end)]; [None] is an [end] that was not given. *)
Definition slice (s : string) (start : Z) (end_ : option Z) : string :=
  let len := Z.of_nat (String.length s) in
  let relative i := if i <? 0 then Z.max (len + i) 0 else Z.min i len in
  let from := relative start in
  let to := match end_ with Some e => relative e | None => len end in
  String.substring (Z.to_nat from) (Z.to_nat (Z.max (to - from) 0)) s.

(** A double or a single quotation mark. *)
Definition quotation (c : ascii) : bool :=
  Ascii.eqb c "034" || Ascii.eqb c "'".

(** Without the quotation mark at its end, when there is one: the second
    alternative of the pattern below. *)
Fixpoint unquoteEnd (s : string) : string :=
  match s with
  | EmptyString => EmptyString
  | String c EmptyString => if quotation c then EmptyString else s
  | String c r => String c (unquoteEnd r)
  end.

(** [value.replace(re, empty)] for the global pattern [re] of two
    alternatives, a quotation mark at the start or a quotation mark at the
    end: a mark at the start is removed, and a mark at the end of what
    follows it. *)
Definition unquote (s : string) : string :=
  match s with
  | String c r => if quotation c then unquoteEnd r else unquoteEnd s
  | EmptyString => EmptyString
  end.

(** *** Objects with string properties *)

(** The properties every object inherits from [Object.prototype]. *)
Definition Object_prototype : list string :=
  ["constructor"; "hasOwnProperty"; "isPrototypeOf"; "propertyIsEnumerable";
   "toLocaleString"; "toString"; "valueOf"; "__proto__";
   "__defineGetter__"; "__defineSetter__"; "__lookupGetter__"; "__lookupSetter__"].

(** An object literal [{}] and the string properties assigned to it: its own
    properties, the latest first. *)
Definition Obj := list (string * string).

(** What reading a property gives: a string, or a member of
    [Object.prototype]; [None] is [undefined]. *)
Inductive Value :=
| VString (s : string)
| VInherited (name : string).

Fixpoint own (k : string) (o : Obj) : option string :=
  match o with
  | [] => None
  | (k', v) :: rest => if String.eqb k k' then Some v else own k rest
  end.

(** [o[k]] *)
Definition get (o : Obj) (k : string) : option Value :=
  match own k o with
  | Some v => Some (VString v)
  | None =>
      if existsb (String.eqb k) Object_prototype then Some (VInherited k) else None
  end.

(** [o[k] = v] for a string [v]: the setter of [__proto__] ignores a
    string. *)
Definition set (o : Obj) (k v : string) : Obj :=
  if String.eqb k "__proto__" then o else (k, v) :: o.

(** [v !== undefined && v !== ""] *)
Definition given (v : option Value) : bool :=
  match v with
  | None => false
  | Some (VString s) => negb (String.eqb s "")
  | Some (VInherited _) => true
  end.

(** [v === s] for a string [s]. *)
Definition equals (v : option Value) (s : string) : bool :=
  match v with
  | Some (VString x) => String.eqb x s
  | _ => false
  end.

End JS.

(* ================================================================== *)
(** ** routes/histories.ts: pagination *)
(* ================================================================== *)

(** Default number of history records returned per page *)
Definition DEFAULT_LIMIT : Z := 50.

(** Maximum number of history records that can be requested in a single page *)
Definition MAX_LIMIT : Z := 200.

Inductive Direction := asc | desc.

Definition limit_of (limitParam : option string) : Z :=
  Z.min
    (Z.max 1 (JS.num_or (JS.parseInt (JS.str_or limitParam (JS.String_of_int DEFAULT_LIMIT)))
                        DEFAULT_LIMIT))
    MAX_LIMIT.

Definition offset_of (offsetParam : option string) : Z :=
  Z.max 0 (JS.num_or (JS.parseInt (JS.str_or offsetParam "0")) 0).

Definition orderDirection_of (orderByParam : option string) : Direction :=
  match orderByParam with
  | Some "asc" => asc
  | _ => desc
  end.

(* ================================================================== *)
(** ** db/schema.ts: the tables *)
(* ================================================================== *)

(** [superguide.users] *)
Module users.
Record Row := {
  firebase_uid : string;            (* VARCHAR(128), primary key *)
  email : option string;
  display_name : option string;
  created_at : option Z;            (* TIMESTAMP DEFAULT NOW() *)
  updated_at : option Z;
}.
End users.

(** [superguide.histories].  The [value] column is NUMERIC(12, 2): the row
    keeps the count of hundredths, so that the text the driver hands back,
    with its two fractional digits, denotes [value / 100]. *)
Module histories.
Record Row := {
  id : string;                      (* UUID, primary key, gen_random_uuid():
                                       the text the engine prints it as *)
  user_id : string;                 (* NOT NULL, references users.firebase_uid *)
  datetime : Z;                     (* TIMESTAMP NOT NULL *)
  value : Z;                        (* NUMERIC(12, 2) NOT NULL, in hundredths *)
  created_at : option Z;            (* TIMESTAMP DEFAULT NOW() *)
  updated_at : option Z;
}.

(** The driver's text of the [value] column. *)
Definition value_text (r : Row) : JS.Decimal := value r # 100.
End histories.

Record Store := {
  users_table : list users.Row;
  histories_table : list histories.Row;
}.

(* ================================================================== *)
(** ** What the program takes from its environment *)
(* ================================================================== *)

(** The decoded Firebase ID token. *)
Module DecodedIdToken.
Record t := {
  uid : string;
  email : option string;
  sign_in_provider : string;
}.
End DecodedIdToken.

(** The JavaScript engine, the [@sudobility/auth_service] package and the
    storage engine. *)
Record Runtime := {
  (** [Date.parse] on a string outside the Date Time String Format *)
  legacy_parse : string -> option Z;
  (** local time value to UTC *)
  UTC : Z -> Z;
  (** [NODE_ENV] or [BUN_ENV] is ["test"] *)
  isTestMode : bool;
  (** [createCachedVerifier(300000).verify] *)
  cachedVerifier_verify : string -> JS.Error + DecodedIdToken.t;
  isAnonymousUser : DecodedIdToken.t -> bool;
  isSiteAdmin : option string -> bool;
  (** the UUID that the engine reads from a text, as the text it prints it
      as; no UUID for a text that is not of its input syntax *)
  uuid_in : string -> option string;
  (** the instants the engine stores in a TIMESTAMP column *)
  timestamp_in : Z -> bool;
  (** [gen_random_uuid()], by the number of identifiers drawn so far *)
  gen_random_uuid : nat -> string;
}.

(* ================================================================== *)
(** ** lib/env-helper.ts and the configuration of services/firebase.ts *)
(* ================================================================== *)

Module env_helper.

(** What the module reads: the file system and the process environment. *)
Record Env := {
  (** [readFileSync(join(process.cwd(), ".env.local"), "utf8")] *)
  readFileSync : JS.Error + string;
  (** [process.env[key]] *)
  process_env : string -> option JS.Value;
}.

(** [envLocalCache]: [None] is [null]. *)
Definition Cache := option JS.Obj.

(** The body of the loop over the lines. *)
Definition parseLine (envLocalCache : JS.Obj) (line : string) : JS.Obj :=
  let trimmedLine := JS.trim line in
  if String.eqb trimmedLine "" || JS.startsWith "#" trimmedLine then envLocalCache
  else
    let equalIndex := JS.indexOf "=" trimmedLine in
    if equalIndex =? -1 then envLocalCache
    else
      let key := JS.trim (JS.slice trimmedLine 0 (Some equalIndex)) in
      let value := JS.trim (JS.slice trimmedLine (equalIndex + 1) None) in
      let unquotedValue := JS.unquote value in
      JS.set envLocalCache key unquotedValue.

(** Parse .env.local file and cache the result *)
Definition parseEnvLocal (env : Env) (envLocalCache : Cache) : JS.Obj * Cache :=
  match envLocalCache with
  | Some cache => (cache, envLocalCache)
  | None =>
      let cache :=
        match readFileSync env with
        | inr envLocalContent =>
            let lines := JS.split "010" envLocalContent in
            fold_left parseLine lines []
        | inl _ => []
        end in
      (cache, Some cache)
  end.

(** Get environment variable with .env.local priority *)
Definition getEnv (env : Env) (key : string) (defaultValue : option string)
    (cache : Cache) : option JS.Value * Cache :=
  let '(envLocal, cache) := parseEnvLocal env cache in
  if JS.given (JS.get envLocal key) then (JS.get envLocal key, cache)
  else if JS.given (process_env env key) then (process_env env key, cache)
  else (option_map JS.VString defaultValue, cache).

(** Get required environment variable with .env.local fallback *)
Definition getRequiredEnv (env : Env) (key : string) (cache : Cache)
  : (JS.Error + JS.Value) * Cache :=
  let '(value, cache) := getEnv env key None cache in
  match value with
  | None | Some (JS.VString "") =>
      (inl {| JS.name := "Error";
              JS.message := "Required environment variable " ++ key ++ " is not set" |},
       cache)
  | Some v => (inr v, cache)
  end.

(** services/firebase.ts:
    [getEnv("NODE_ENV") === "test" || getEnv("BUN_ENV") === "test"] *)
Definition isTestMode (env : Env) (cache : Cache) : bool * Cache :=
  let '(node_env, cache) := getEnv env "NODE_ENV" None cache in
  if JS.equals node_env "test" then (true, cache)
  else
    let '(bun_env, cache) := getEnv env "BUN_ENV" None cache in
    (JS.equals bun_env "test", cache).

(** services/firebase.ts: the configuration handed to [initializeAuth]. *)
Record AuthConfig := {
  projectId : JS.Value;
  clientEmail : JS.Value;
  privateKey : JS.Value;
  siteAdminEmails : option JS.Value;
}.

(** The top level of services/firebase.ts up to the call of
    [initializeAuth]: the configuration of that call, [None] in test mode
    where the call is not made, or the error that stops the module from
    loading. *)
Definition firebase_load (env : Env) (cache : Cache)
  : (JS.Error + option AuthConfig) * Cache :=
  let '(testMode, cache) := isTestMode env cache in
  if testMode then (inr None, cache)
  else
    let '(p, cache) := getRequiredEnv env "FIREBASE_PROJECT_ID" cache in
    match p with
    | inl e => (inl e, cache)
    | inr p =>
        let '(c, cache) := getRequiredEnv env "FIREBASE_CLIENT_EMAIL" cache in
        match c with
        | inl e => (inl e, cache)
        | inr c =>
            let '(k, cache) := getRequiredEnv env "FIREBASE_PRIVATE_KEY" cache in
            match k with
            | inl e => (inl e, cache)
            | inr k =>
                let '(a, cache) := getEnv env "SITEADMIN_EMAILS" None cache in
                (inr (Some {| projectId := p; clientEmail := c; privateKey := k;
                              siteAdminEmails := a |}), cache)
            end
        end
    end.

End env_helper.

(* ================================================================== *)
(** ** Responses *)
(* ================================================================== *)

(** [History] and [User] of [@sudobility/superguide_types]. *)
Module History.
Record t := {
  id : string;
  user_id : string;
  datetime : string;
  value : Q;
  created_at : option string;
  updated_at : option string;
}.
End History.

Module User.
Record t := {
  firebase_uid : string;
  email : option string;
  display_name : option string;
  created_at : option string;
  updated_at : option string;
}.
End User.

Inductive Data :=
| DHistories (l : list History.t)
| DHistory (h : History.t)
| DUser (u : User.t)
| DTotal (total : Q)
| DInfo (fields : list (string * string))
| DNull.

(** The uniform envelope of every response body. *)
Record Envelope := {
  success : bool;
  data : option Data;
  error : option string;
  timestamp : string;
}.

Inductive Body :=
| Json (e : Envelope)
| Text (s : string).

Record Response := {
  status : Z;
  body : Body;
}.

(* ================================================================== *)
(** ** Requests, the Hono context and the world around a request *)
(* ================================================================== *)

Record Request := {
  (** [c.req.header("Authorization")] *)
  authorization : option string;
  (** [c.req.param("userId")] and [c.req.param("historyId")] *)
  param_userId : string;
  param_historyId : string;
  (** [c.req.query(name)] *)
  query : string -> option string;
  (** [c.req.json()]: the parsed body, or the error it rejects with *)
  json : JS.Error + JS.json;
}.

(** [ContextVariableMap]: a variable that was never set reads [undefined]. *)
Record Vars := {
  firebaseUser : option DecodedIdToken.t;
  userId : option string;
  userEmail : option (option string);
  siteAdmin : option bool;
}.

Record Context := {
  req : Request;
  var : Vars;
  (** [c.res], once a response was set ([c.finalized]) *)
  res : option Response;
  (** [c.error] *)
  err : option JS.Error;
}.

(** Storage statements, as a log of what was sent to the engine. *)
Inductive Statement :=
| Select (table : string)
| Insert (table : string)
| Update (table : string)
| Delete (table : string).

Record World := {
  store : Store;
  (** what [new Date()] and [NOW()] read *)
  now : Z;
  (** identifiers drawn from [gen_random_uuid()] so far *)
  drawn : nat;
  (** statements sent to the engine, the latest first *)
  statements : list Statement;
  (** [console.error] lines, the latest first *)
  console : list (string * JS.Error);
  (** [ensureUserExists(uid, email)] calls started and not awaited *)
  detached : list (string * option string);
}.

Record State := {
  ctx : Context;
  world : World;
}.

(** An [async] computation: it returns or throws, and either way leaves the
    state it reached. *)
Inductive Outcome (A : Type) :=
| Returned (a : A) (s : State)
| Thrown (e : JS.Error) (s : State).
Arguments Returned {A} a s.
Arguments Thrown {A} e s.

Definition M (A : Type) := State -> Outcome A.

Definition ret {A} (a : A) : M A := fun s => Returned a s.

Definition bind {A B} (m : M A) (k : A -> M B) : M B :=
  fun s =>
    match m s with
    | Returned a s' => k a s'
    | Thrown e s' => Thrown e s'
    end.

Definition throw {A} (e : JS.Error) : M A := fun s => Thrown e s.

(** [try { m } catch (e) { h e }] *)
Definition try_catch {A} (m : M A) (h : JS.Error -> M A) : M A :=
  fun s =>
    match m s with
    | Returned a s' => Returned a s'
    | Thrown e s' => h e s'
    end.

(** A value or the error to throw. *)
Definition lift {A} (r : JS.Error + A) : M A :=
  match r with
  | inl e => throw e
  | inr a => ret a
  end.

Declare Scope monad_scope.
Delimit Scope monad_scope with monad.
Notation "x <- m ;; k" := (bind m (fun x => k))
  (at level 100, m at next level, right associativity) : monad_scope.
Notation "m ;;; k" := (bind m (fun _ => k))
  (at level 100, right associativity) : monad_scope.
Open Scope monad_scope.

Definition context : M Context := fun s => Returned (ctx s) s.
Definition get_world : M World := fun s => Returned (world s) s.
Definition set_context (c : Context) : M unit :=
  fun s => Returned tt {| ctx := c; world := world s |}.
Definition set_world (w : World) : M unit :=
  fun s => Returned tt {| ctx := ctx s; world := w |}.

(** [new Date()] *)
Definition new_Date : M Z := fun s => Returned (now (world s)) s.

(** [console.error(label, e)] *)
Definition console_error (label : string) (e : JS.Error) : M unit :=
  fun s =>
    let w := world s in
    Returned tt
      {| ctx := ctx s;
         world := {| store := store w; now := now w; drawn := drawn w;
                     statements := statements w;
                     console := (label, e) :: console w;
                     detached := detached w |} |}.

Definition with_store (w : World) (st : Store) : World :=
  {| store := st; now := now w; drawn := drawn w; statements := statements w;
     console := console w; detached := detached w |}.

(** Sends a statement to the engine. *)
Definition send (q : Statement) : M unit :=
  fun s =>
    let w := world s in
    Returned tt
      {| ctx := ctx s;
         world := {| store := store w; now := now w; drawn := drawn w;
                     statements := q :: statements w;
                     console := console w; detached := detached w |} |}.

(** [c.json(body, status)] *)
Definition c_json (b : Envelope) (st : Z) : Response :=
  {| status := st; body := Json b |}.

(** [c.set(...)] of the four context variables. *)
Definition c_set (v : Vars) : M unit :=
  fun s =>
    Returned tt
      {| ctx := {| req := req (ctx s); var := v; res := res (ctx s); err := err (ctx s) |};
         world := world s |}.

(** Starts [ensureUserExists(uid, email)] without awaiting it.  Its SELECT
    and its INSERT reach the engine when the scheduler and the driver let
    them, during the request or after it: the store and the statement log of
    a state are those of the awaited computation, and what the calls in
    [detached] do to the users table comes on top of them.  The histories
    are out of their reach. *)
Definition detach (uid : string) (email : option string) : M unit :=
  fun s =>
    let w := world s in
    Returned tt
      {| ctx := ctx s;
         world := {| store := store w; now := now w; drawn := drawn w;
                     statements := statements w; console := console w;
                     detached := (uid, email) :: detached w |} |}.

(** Modelled from the spec: [successResponse] and [errorResponse] belong to
    the package [@sudobility/superguide_types]; the envelope is
    [{success: true, data, timestamp}] or [{success: false, error, timestamp}]. *)
Definition successResponse (d : Data) : M Envelope :=
  t <- new_Date ;;
  ret {| success := true; data := Some d; error := None;
         timestamp := JS.toISOString t |}.

Definition errorResponse (msg : string) : M Envelope :=
  t <- new_Date ;;
  ret {| success := false; data := None; error := Some msg;
         timestamp := JS.toISOString t |}.

(** [return c.json(errorResponse(msg), status)] *)
Definition fail (msg : string) (st : Z) : M (option Response) :=
  e <- errorResponse msg ;;
  ret (Some (c_json e st)).

(** [return c.json(successResponse(d), status)] *)
Definition succeed (d : Data) (st : Z) : M (option Response) :=
  e <- successResponse d ;;
  ret (Some (c_json e st)).

(* ================================================================== *)
(** ** The dispatcher of the framework *)
(* ================================================================== *)

(** A handler or middleware [(c, next) => ...]; the context [c] is the one of
    the state.  [None] is a handler that returns no response. *)
Definition Handler := M unit -> M (option Response).

Module Hono.

(** The context of a request that no handler has seen yet. *)
Definition new_Context (rq : Request) : Context :=
  {| req := rq;
     var := {| firebaseUser := None; userId := None; userEmail := None;
               siteAdmin := None |};
     res := None;
     err := None |}.

(** [c.finalized] *)
Definition finalized (c : Context) : bool :=
  match res c with Some _ => true | None => false end.

Definition set_res (r : Response) : M unit :=
  fun s =>
    Returned tt
      {| ctx := {| req := req (ctx s); var := var (ctx s); res := Some r;
                   err := err (ctx s) |};
         world := world s |}.

Definition set_error (e : JS.Error) : M unit :=
  fun s =>
    Returned tt
      {| ctx := {| req := req (ctx s); var := var (ctx s); res := res (ctx s);
                   err := Some e |};
         world := world s |}.

(** [compose(middleware, onError, onNotFound)]: [dispatch(i)] runs the
    [i]-th handler with [next = () => dispatch(i + 1)].  An error thrown by
    a handler is caught where that handler was called: it is kept in
    [c.error] and the response of [onError] becomes [c.res]. *)
Fixpoint compose (onError : JS.Error -> M Response) (onNotFound : M Response)
    (middleware : list Handler) : M unit :=
  match middleware with
  | handler :: rest =>
      r <- try_catch
             (r <- handler (compose onError onNotFound rest) ;; ret (r, false))
             (fun e => set_error e ;;; r <- onError e ;; ret (Some r, true)) ;;
      c <- context ;;
      match r with
      | (Some r, isError) =>
          if negb (finalized c) || isError then set_res r else ret tt
      | (None, _) => ret tt
      end
  | [] =>
      c <- context ;;
      if negb (finalized c) then r <- onNotFound ;; set_res r else ret tt
  end.

(** The default not-found handler. *)
Definition notFoundHandler : M Response :=
  ret {| status := 404; body := Text "404 Not Found" |}.

(** The request dispatch of an application whose router matched the
    handlers [middleware], in the order of their registration. *)
Definition dispatch (onError : JS.Error -> M Response) (middleware : list Handler)
  : M Response :=
  try_catch
    (compose onError notFoundHandler middleware ;;;
     c <- context ;;
     match res c with
     | Some r => ret r
     | None =>
         throw {| JS.name := "Error";
                  JS.message := "Context is not finalized. Did you forget to return a Response object or `await next()`?" |}
     end)
    onError.

(** [logger()] and [cors()] as far as a response of status and body goes,
    for the methods of the routes below: they await [next()]. *)
Definition logger : Handler := fun next => next ;;; ret None.
Definition cors : Handler := fun next => next ;;; ret None.

End Hono.

(* ================================================================== *)
(** ** The storage engine *)
(* ================================================================== *)

Module Engine.

Definition error (msg : string) : JS.Error :=
  {| JS.name := "PostgresError"; JS.message := msg |}.

(** Rounding to the nearest integer, ties away from zero. *)
Definition round (q : Q) : Z :=
  if Qle_bool 0 q then Qfloor (q + (1 # 2)) else - Qfloor (- q + (1 # 2)).

(** The cast of a decimal text to NUMERIC(12, 2): rounded to two fractional
    digits, refused from 10^10 on. *)
Definition numeric_12_2 (d : JS.Decimal) : option Z :=
  let c := round (d * 100) in
  if Z.abs c <? 10 ^ 12 then Some c else None.

Definition has_user (st : Store) (uid : string) : bool :=
  existsb (fun u => String.eqb (users.firebase_uid u) uid) (users_table st).

Definition has_history (st : Store) (hid : string) : bool :=
  existsb (fun h => String.eqb (histories.id h) hid) (histories_table st).

(** [WHERE id = hid AND user_id = uid], for the UUID [hid] that the engine
    read from the text of the request: a comparison of UUIDs, whatever the
    case, hyphens or braces of that text. *)
Definition matches (hid uid : string) (h : histories.Row) : bool :=
  String.eqb (histories.id h) hid && String.eqb (histories.user_id h) uid.

(** The largest OFFSET, a bigint. *)
Definition max_bigint : Z := 2 ^ 63 - 1.

(** [ORDER BY datetime]: insertion into a list in the given order. *)
Fixpoint insert_by (le : Z -> Z -> bool) (h : histories.Row) (l : list histories.Row)
  : list histories.Row :=
  match l with
  | [] => [h]
  | x :: rest =>
      if le (histories.datetime h) (histories.datetime x) then h :: x :: rest
      else x :: insert_by le h rest
  end.

Definition order_by (d : Direction) (l : list histories.Row) : list histories.Row :=
  fold_right (insert_by (match d with asc => Z.leb | desc => Z.geb end)) [] l.

(** The columns of [UPDATE ... SET]. *)
Record Assignments := {
  set_datetime : option Z;
  set_value : option Z;
  set_updated_at : option Z;
}.

Definition assign (a : Assignments) (h : histories.Row) : histories.Row :=
  {| histories.id := histories.id h;
     histories.user_id := histories.user_id h;
     histories.datetime :=
       match set_datetime a with Some t => t | None => histories.datetime h end;
     histories.value :=
       match set_value a with Some v => v | None => histories.value h end;
     histories.created_at := histories.created_at h;
     histories.updated_at :=
       match set_updated_at a with Some t => Some t | None => histories.updated_at h end |}.

End Engine.

(** The [updates] object of the PUT handler: the keys that were set. *)
Record Updates := {
  updates_datetime : option JS.Date;
  updates_value : option JS.Decimal;
  updates_updated_at : option Z;
}.

(** [Object.keys(updates).length] *)
Definition keys_length (u : Updates) : nat :=
  (match updates_datetime u with Some _ => 1 | None => 0 end)
  + (match updates_value u with Some _ => 1 | None => 0 end)
  + (match updates_updated_at u with Some _ => 1 | None => 0 end).

Section Application.

Variable rt : Runtime.

(** *** The statements of the handlers *)

(** The ORM renders a [Date] with [toISOString], which throws on an
    invalid date. *)
Definition driver_date (d : JS.Date) : JS.Error + Z :=
  match d with
  | Some t => inr t
  | None => inl {| JS.name := "RangeError"; JS.message := "Invalid time value" |}
  end.

(** [db.select().from(users).where(eq(users.firebase_uid, uid))] *)
Definition select_user (uid : string) : M (list users.Row) :=
  send (Select "users") ;;;
  w <- get_world ;;
  ret (filter (fun u => String.eqb (users.firebase_uid u) uid) (users_table (store w))).

(** [db.insert(users).values({ firebase_uid, email })] *)
Definition insert_user (uid : string) (email : option string) : M unit :=
  send (Insert "users") ;;;
  w <- get_world ;;
  if Engine.has_user (store w) uid then
    throw (Engine.error "duplicate key value violates unique constraint")
  else
    set_world
      (with_store w
         {| users_table :=
              users_table (store w)
              ++ [{| users.firebase_uid := uid; users.email := email;
                     users.display_name := None;
                     users.created_at := Some (now w);
                     users.updated_at := Some (now w) |}];
            histories_table := histories_table (store w) |}).

(** [db.select().from(histories).where(eq(histories.user_id, uid))
       .orderBy(...).limit(limit).offset(offset)].  The driver sends the
    offset as the text of the number, which the engine reads as a bigint: it
    refuses a number from 2^63 on.  (Up to 2^53 that text has the digits of
    the number; beyond, it denotes a number that is beyond 2^53 as well.)
    Rows of equal [datetime] come in an order that the engine chooses; here
    it is the order of the table. *)
Definition select_histories (uid : string) (d : Direction) (limit offset : Z)
  : M (list histories.Row) :=
  send (Select "histories") ;;;
  w <- get_world ;;
  if Engine.max_bigint <? offset then
    throw (Engine.error "value is out of range for type bigint")
  else
    ret (firstn (Z.to_nat limit)
           (skipn (Z.to_nat offset)
              (Engine.order_by d
                 (filter (fun h => String.eqb (histories.user_id h) uid)
                    (histories_table (store w)))))).

(** [db.insert(histories).values({ user_id, datetime, value }).returning()] *)
Definition insert_history (uid : string) (date : JS.Date) (v : JS.Decimal)
  : M (list histories.Row) :=
  t <- lift (driver_date date) ;;
  send (Insert "histories") ;;;
  w <- get_world ;;
  if negb (timestamp_in rt t) then
    throw (Engine.error "date/time field value out of range")
  else
    match Engine.numeric_12_2 v with
    | None => throw (Engine.error "numeric field overflow")
    | Some cents =>
        let hid := gen_random_uuid rt (drawn w) in
        if negb (Engine.has_user (store w) uid) then
          throw (Engine.error "insert or update on table violates foreign key constraint")
        else if Engine.has_history (store w) hid then
          throw (Engine.error "duplicate key value violates unique constraint")
        else
          let h := {| histories.id := hid; histories.user_id := uid;
                      histories.datetime := t; histories.value := cents;
                      histories.created_at := Some (now w);
                      histories.updated_at := Some (now w) |} in
          set_world
            {| store := {| users_table := users_table (store w);
                           histories_table := histories_table (store w) ++ [h] |};
               now := now w; drawn := S (drawn w); statements := statements w;
               console := console w; detached := detached w |} ;;;
          ret [h]
    end.

(** The values of [updates] as the engine reads them into the columns, or
    the error of the first one it refuses. *)
Definition read_updates (datetime : option Z) (u : Updates)
  : JS.Error + Engine.Assignments :=
  let ok_time (t : option Z) :=
    match t with Some t => timestamp_in rt t | None => true end in
  if negb (ok_time datetime && ok_time (updates_updated_at u)) then
    inl (Engine.error "date/time field value out of range")
  else
    match updates_value u with
    | None =>
        inr {| Engine.set_datetime := datetime;
               Engine.set_value := None;
               Engine.set_updated_at := updates_updated_at u |}
    | Some v =>
        match Engine.numeric_12_2 v with
        | None => inl (Engine.error "numeric field overflow")
        | Some cents =>
            inr {| Engine.set_datetime := datetime;
                   Engine.set_value := Some cents;
                   Engine.set_updated_at := updates_updated_at u |}
        end
    end.

(** [db.update(histories).set(updates)
       .where(and(eq(histories.id, hid), eq(histories.user_id, uid))).returning()] *)
Definition update_history (u : Updates) (hid uid : string) : M (list histories.Row) :=
  datetime <- match updates_datetime u with
              | Some d => t <- lift (driver_date d) ;; ret (Some t)
              | None => ret None
              end ;;
  send (Update "histories") ;;;
  w <- get_world ;;
  match uuid_in rt hid with
  | None => throw (Engine.error "invalid input syntax for type uuid")
  | Some id =>
      a <- lift (read_updates datetime u) ;;
      let touch h := if Engine.matches id uid h then Engine.assign a h else h in
      set_world
        (with_store w
           {| users_table := users_table (store w);
              histories_table := map touch (histories_table (store w)) |}) ;;;
      ret (map (Engine.assign a)
             (filter (Engine.matches id uid) (histories_table (store w))))
  end.

(** [db.delete(histories)
       .where(and(eq(histories.id, hid), eq(histories.user_id, uid))).returning()] *)
Definition delete_history (hid uid : string) : M (list histories.Row) :=
  send (Delete "histories") ;;;
  w <- get_world ;;
  match uuid_in rt hid with
  | None => throw (Engine.error "invalid input syntax for type uuid")
  | Some id =>
      set_world
        (with_store w
           {| users_table := users_table (store w);
              histories_table :=
                filter (fun h => negb (Engine.matches id uid h))
                  (histories_table (store w)) |}) ;;;
      ret (filter (Engine.matches id uid) (histories_table (store w)))
  end.

(** [db.select({ total: sql`COALESCE(SUM(value), 0)` }).from(histories)]:
    the one row of the result, as the text of its [total]. *)
Definition select_total : M JS.Decimal :=
  send (Select "histories") ;;;
  w <- get_world ;;
  ret (fold_right (fun h acc => histories.value h + acc) 0
         (histories_table (store w)) # 100).

(* ---------------------------------------------------------------- *)
(** *** lib/serializers.ts *)
(* ---------------------------------------------------------------- *)

(** [new Date(s)] *)
Definition new_Date_of (s : string) : JS.Date :=
  JS.Date_parse (legacy_parse rt) (UTC rt) s.

(** [date.getTime()]: the time value, [None] being [NaN]. *)
Definition getTime (date : JS.Date) : option Z := date.

Definition isNaN (t : option Z) : bool :=
  match t with Some _ => false | None => true end.

Definition serializeHistory (h : histories.Row) : History.t :=
  {| History.id := histories.id h;
     History.user_id := histories.user_id h;
     History.datetime := JS.toISOString (histories.datetime h);
     History.value := JS.Number (histories.value_text h);
     History.created_at := option_map JS.toISOString (histories.created_at h);
     History.updated_at := option_map JS.toISOString (histories.updated_at h) |}.

Definition serializeUser (u : users.Row) : User.t :=
  {| User.firebase_uid := users.firebase_uid u;
     User.email := users.email u;
     User.display_name := users.display_name u;
     User.created_at := option_map JS.toISOString (users.created_at u);
     User.updated_at := option_map JS.toISOString (users.updated_at u) |}.

Definition isValidDatetime (datetime : string) : bool :=
  let date := new_Date_of datetime in
  negb (isNaN (getTime date)).

(* ---------------------------------------------------------------- *)
(** *** services/firebase.ts and middleware/firebaseAuth.ts *)
(* ---------------------------------------------------------------- *)

Definition verifyIdToken (token : string) : M DecodedIdToken.t :=
  if isTestMode rt then
    throw {| JS.name := "Error";
             JS.message := "Firebase verification not available in test mode" |}
  else lift (cachedVerifier_verify rt token).

Definition ensureUserExists (firebaseUid : string) (email : option string) : M unit :=
  existing <- select_user firebaseUid ;;
  match existing with
  | [] => insert_user firebaseUid email
  | _ :: _ => ret tt
  end.

(** What a detached [ensureUserExists(...).catch(...)] does when it runs;
    when it runs is the scheduler's choice. *)
Definition ensureUserExists_detached (firebaseUid : string) (email : option string)
  : M unit :=
  try_catch (ensureUserExists firebaseUid email)
    (fun e => console_error "Failed to ensure user exists:" e).

Definition firebaseAuthMiddleware : Handler := fun next =>
  c <- context ;;
  match authorization (req c) with
  | None | Some "" => fail "Authorization header required" 401
  | Some authHeader =>
      let parts := JS.split " " authHeader in
      let type := nth_error parts 0 in
      let token := nth_error parts 1 in
      match type, token with
      | Some type, Some token =>
          if negb (String.eqb type "Bearer") || String.eqb token "" then
            fail "Invalid authorization format. Use: Bearer <token>" 401
          else
            try_catch
              (decodedToken <- verifyIdToken token ;;
               if isAnonymousUser rt decodedToken then
                 fail "Anonymous users cannot access this resource" 403
               else
                 let userId := DecodedIdToken.uid decodedToken in
                 let userEmail := DecodedIdToken.email decodedToken in
                 c_set {| firebaseUser := Some decodedToken;
                          userId := Some userId;
                          userEmail := Some userEmail;
                          siteAdmin := Some (isSiteAdmin rt userEmail) |} ;;;
                 detach userId userEmail ;;;
                 next ;;;
                 ret None)
              (fun _ => fail "Invalid or expired Firebase token" 401)
      | _, _ => fail "Invalid authorization format. Use: Bearer <token>" 401
      end
  end.

(* ---------------------------------------------------------------- *)
(** *** routes/histories.ts *)
(* ---------------------------------------------------------------- *)

(** [userId !== tokenUserId && !c.get("siteAdmin")] *)
Definition notAuthorized (c : Context) : bool :=
  let tokenUserId := userId (var c) in
  let userId := param_userId (req c) in
  negb (match tokenUserId with Some t => String.eqb userId t | None => false end)
  && negb (match siteAdmin (var c) with Some b => b | None => false end).

(** GET / - List all histories for the authenticated user. *)
Definition historiesRouter_get : Handler := fun _ =>
  c <- context ;;
  let userId := param_userId (req c) in
  if notAuthorized c then fail "Not authorized" 403
  else
    let limitParam := query (req c) "limit" in
    let offsetParam := query (req c) "offset" in
    let orderByParam := query (req c) "orderBy" in
    let limit := limit_of limitParam in
    let offset := offset_of offsetParam in
    let orderDirection := orderDirection_of orderByParam in
    result <- select_histories userId orderDirection limit offset ;;
    let data := map serializeHistory result in
    succeed (DHistories data) 200.

(** POST / - Create a new history record for the authenticated user. *)
Definition historiesRouter_post : Handler := fun _ =>
  c <- context ;;
  let userId := param_userId (req c) in
  if notAuthorized c then fail "Not authorized" 403
  else
    body <- lift (json (req c)) ;;
    datetime <- lift (JS.prop body "datetime") ;;
    value <- lift (JS.prop body "value") ;;
    if JS.falsy datetime
       || match value with None | Some JS.JNull => true | Some _ => false end
    then fail "datetime and value are required" 400
    else
      match value with
      | Some (JS.JNum value) =>
          if Qle_bool value 0 then fail "value must be a positive number" 400
          else
            match datetime with
            | Some (JS.JStr datetime) =>
                if negb (isValidDatetime datetime) then
                  fail "datetime must be a valid ISO 8601 date string" 400
                else
                  result <- insert_history userId (new_Date_of datetime)
                              (JS.String_of_number value) ;;
                  match result with
                  | h :: _ => succeed (DHistory (serializeHistory h)) 201
                  | [] =>
                      throw {| JS.name := "TypeError";
                               JS.message := "undefined is not an object (evaluating 'h.id')" |}
                  end
            | _ => fail "datetime must be a valid ISO 8601 date string" 400
            end
      | _ => fail "value must be a positive number" 400
      end.

(** PUT /:historyId - Update an existing history record. *)
Definition historiesRouter_put : Handler := fun _ =>
  c <- context ;;
  let userId := param_userId (req c) in
  let historyId := param_historyId (req c) in
  if notAuthorized c then fail "Not authorized" 403
  else
    body <- lift (json (req c)) ;;
    body_datetime <- lift (JS.prop body "datetime") ;;
    let datetime_checked : string + option JS.Date :=
      match body_datetime with
      | None => inr None
      | Some (JS.JStr s) =>
          if negb (isValidDatetime s) then
            inl "datetime must be a valid ISO 8601 date string"
          else inr (Some (new_Date_of s))
      | Some _ => inl "datetime must be a valid ISO 8601 date string"
      end in
    match datetime_checked with
    | inl msg => fail msg 400
    | inr updates_datetime =>
        body_value <- lift (JS.prop body "value") ;;
        let value_checked : string + option JS.Decimal :=
          match body_value with
          | None => inr None
          | Some (JS.JNum v) =>
              if Qle_bool v 0 then inl "value must be a positive number"
              else inr (Some (JS.String_of_number v))
          | Some _ => inl "value must be a positive number"
          end in
        match value_checked with
        | inl msg => fail msg 400
        | inr updates_value =>
            let updates := {| updates_datetime := updates_datetime;
                              updates_value := updates_value;
                              updates_updated_at := None |} in
            if Nat.eqb (keys_length updates) 0 then fail "No fields to update" 400
            else
              t <- new_Date ;;
              let updates := {| updates_datetime := updates_datetime;
                                updates_value := updates_value;
                                updates_updated_at := Some t |} in
              result <- update_history updates historyId userId ;;
              match result with
              | [] => fail "History not found" 404
              | h :: _ => succeed (DHistory (serializeHistory h)) 200
              end
        end
    end.

(** DELETE /:historyId - Delete a history record. *)
Definition historiesRouter_delete : Handler := fun _ =>
  c <- context ;;
  let userId := param_userId (req c) in
  let historyId := param_historyId (req c) in
  if notAuthorized c then fail "Not authorized" 403
  else
    result <- delete_history historyId userId ;;
    match result with
    | [] => fail "History not found" 404
    | _ :: _ => succeed DNull 200
    end.

(* ---------------------------------------------------------------- *)
(** *** routes/historiesTotal.ts and routes/users.ts *)
(* ---------------------------------------------------------------- *)

(** GET /total - Get the global total of all history values. *)
Definition historiesTotalRouter_get : Handler := fun _ =>
  result_total <- select_total ;;
  let total := JS.Number result_total in
  succeed (DTotal total) 200.

(** GET / - Get user profile information. *)
Definition usersRouter_get : Handler := fun _ =>
  c <- context ;;
  let userId := param_userId (req c) in
  if notAuthorized c then fail "Not authorized to view this user" 403
  else
    result <- select_user userId ;;
    match result with
    | [] => fail "User not found" 404
    | u :: _ => succeed (DUser (serializeUser u)) 200
    end.

(* ---------------------------------------------------------------- *)
(** *** index.ts and routes/index.ts *)
(* ---------------------------------------------------------------- *)

(** Global error handler for unhandled exceptions. *)
Definition onError (e : JS.Error) : M Response :=
  console_error "Unhandled error:" e ;;;
  b <- errorResponse "Internal server error" ;;
  ret (c_json b 500).

Definition root : Handler := fun _ =>
  succeed (DInfo [("name", "Starter API"); ("version", "1.0.0"); ("status", "healthy")]) 200.

Definition health : Handler := fun _ =>
  succeed (DInfo [("status", "ok"); ("version", "1.0.0")]) 200.

(** The state in which the authentication middleware calls [next()] for the
    decoded token [d]: the four context variables are set and the user
    provisioning is under way. *)
Definition admitted (d : DecodedIdToken.t) (s : State) : State :=
  let w := world s in
  {| ctx := {| req := req (ctx s);
               var := {| firebaseUser := Some d;
                         userId := Some (DecodedIdToken.uid d);
                         userEmail := Some (DecodedIdToken.email d);
                         siteAdmin := Some (isSiteAdmin rt (DecodedIdToken.email d)) |};
               res := res (ctx s);
               err := err (ctx s) |};
     world := {| store := store w; now := now w; drawn := drawn w;
                 statements := statements w; console := console w;
                 detached :=
                   (DecodedIdToken.uid d, DecodedIdToken.email d) :: detached w |} |}.

(** [app.fetch].  The router hands the dispatcher the handlers whose path and
    method match the request, in the order of their registration.  index.ts
    registers [logger()] and [cors()] on every path before anything else;
    [found] is what the router finds after them.  routes/index.ts registers,
    under [/api/v1] and in this order: the total route, the authentication
    middleware on every path, the user route, the history routes.  The
    handlers run on a fresh context. *)
Definition fetch (found : list Handler) (rq : Request) (w : World) : Outcome Response :=
  Hono.dispatch onError ([Hono.logger; Hono.cors] ++ found)
    {| ctx := Hono.new_Context rq; world := w |}.

(** What the router finds for [GET /api/v1/histories/total]: the handler of
    the public route, then the middleware that was registered after it. *)
Definition total_route : list Handler :=
  [historiesTotalRouter_get; firebaseAuthMiddleware].

(** The four handlers of routes/histories.ts. *)
Definition history_handlers : list Handler :=
  [historiesRouter_get; historiesRouter_post; historiesRouter_put; historiesRouter_delete].

(** The request carries [Bearer] and a token as the first two parts of its
    Authorization header. *)
Definition bearer (rq : Request) (token : string) : Prop :=
  exists h,
    authorization rq = Some h
    /\ nth_error (JS.split " " h) 0 = Some "Bearer"
    /\ nth_error (JS.split " " h) 1 = Some token
    /\ token <> "".

(** The verifier decodes the token to [d]. *)
Definition verified (token : string) (d : DecodedIdToken.t) : Prop :=
  isTestMode rt = false /\ cachedVerifier_verify rt token = inr d.

(** The [datetime] property of a body as the PUT handler accepts it: absent,
    or a string from which [new Date] reads the instant [t]. *)
Definition datetime_field (body : JS.json) (t : option Z) : Prop :=
  match t with
  | None => JS.prop body "datetime" = inr None
  | Some t =>
      exists s, JS.prop body "datetime" = inr (Some (JS.JStr s)) /\ new_Date_of s = Some t
  end.

(** The [value] property of a body as the handlers accept it: absent, or a
    number above zero. *)
Definition value_field (body : JS.json) (v : option Q) : Prop :=
  match v with
  | None => JS.prop body "value" = inr None
  | Some q => JS.prop body "value" = inr (Some (JS.JNum q)) /\ (0 < q)%Q
  end.

(** The row that [INSERT] adds for the owner [uid]. *)
Definition inserted (w : World) (uid : string) (t cents : Z) : histories.Row :=
  {| histories.id := gen_random_uuid rt (drawn w);
     histories.user_id := uid;
     histories.datetime := t;
     histories.value := cents;
     histories.created_at := Some (now w);
     histories.updated_at := Some (now w) |}.

(** The engine takes a row of owner [uid] and instant [t]: the instant is in
    its range, the owner has a user row, the identifier it draws is new. *)
Definition storable (w : World) (uid : string) (t : Z) : Prop :=
  timestamp_in rt t = true
  /\ Engine.has_user (store w) uid = true
  /\ Engine.has_history (store w) (gen_random_uuid rt (drawn w)) = false.

(** The world after that row was inserted. *)
Definition after_insert (w : World) (h : histories.Row) : World :=
  {| store := {| users_table := users_table (store w);
                 histories_table := histories_table (store w) ++ [h] |};
     now := now w;
     drawn := S (drawn w);
     statements := Insert "histories" :: statements w;
     console := console w;
     detached := detached w |}.

(** The page that the list handler selects. *)
Definition page (c : Context) (w : World) : list histories.Row :=
  firstn (Z.to_nat (limit_of (query (req c) "limit")))
    (skipn (Z.to_nat (offset_of (query (req c) "offset")))
       (Engine.order_by (orderDirection_of (query (req c) "orderBy"))
          (filter (fun h => String.eqb (histories.user_id h) (param_userId (req c)))
             (histories_table (store w))))).



(** The row that [UPDATE] leaves in place of [h]. *)
Definition touched (a : Engine.Assignments) (hid uid : string) (h : histories.Row)
  : histories.Row :=
  if Engine.matches hid uid h then Engine.assign a h else h.

End Application.

(* ================================================================== *)
(** ** A concrete environment, for running the model *)
(* ================================================================== *)

Module Sample.

Definition alice : DecodedIdToken.t :=
  {| DecodedIdToken.uid := "alice";
     DecodedIdToken.email := Some "alice@example.com";
     DecodedIdToken.sign_in_provider := "password" |}.

Definition guest : DecodedIdToken.t :=
  {| DecodedIdToken.uid := "guest";
     DecodedIdToken.email := None;
     DecodedIdToken.sign_in_provider := "anonymous" |}.

Definition root_user : DecodedIdToken.t :=
  {| DecodedIdToken.uid := "root";
     DecodedIdToken.email := Some "root@example.com";
     DecodedIdToken.sign_in_provider := "password" |}.

(** The lower-case form of a hexadecimal digit. *)
Definition xdigit (c : ascii) : option ascii :=
  let n := JS.byte c in
  if ((48 <=? n) && (n <=? 57)) || ((97 <=? n) && (n <=? 102)) then Some c
  else if (65 <=? n) && (n <=? 70) then Some (ascii_of_N (Z.to_N (n + 32)))
  else None.

(** The sixteen bytes of a UUID text, two hexadecimal digits each, from byte
    [i] on: a hyphen may follow every second byte but the last. *)
Fixpoint uuid_bytes (n i : nat) (s : string) : option (string * string) :=
  match n with
  | O => Some ("", s)
  | S n' =>
      match s with
      | String a (String b r) =>
          match xdigit a, xdigit b with
          | Some a', Some b' =>
              let r' :=
                match r with
                | String "-" r2 => if Nat.odd i && (i <? 15)%nat then r2 else r
                | _ => r
                end in
              match uuid_bytes n' (S i) r' with
              | Some (ds, rest) => Some (String a' (String b' ds), rest)
              | None => None
              end
          | _, _ => None
          end
      | _ => None
      end
  end.

(** The input syntax of PostgreSQL's [uuid] type and the text it prints:
    thirty-two hexadecimal digits of either case, a hyphen allowed after
    each group of four, the whole allowed in braces; printed in lower case
    in groups of 8, 4, 4, 4 and 12. *)
Definition read_uuid (s : string) : option string :=
  let '(braces, src) :=
    match s with
    | String "{" r => (true, r)
    | _ => (false, s)
    end in
  match uuid_bytes 16 0 src with
  | Some (ds, rest) =>
      if String.eqb rest (if braces : bool then "}" else "") then
        Some (substring 0 8 ds ++ "-" ++ substring 8 4 ds ++ "-" ++ substring 12 4 ds
              ++ "-" ++ substring 16 4 ds ++ "-" ++ substring 20 12 ds)
      else None
  | None => None
  end.

(** An engine in the UTC zone whose [Date.parse] reads nothing outside the
    Date Time String Format, a verifier that knows three tokens, one site
    administrator, and a storage engine with the UUID syntax of PostgreSQL
    that takes every instant. *)
Definition runtime : Runtime :=
  {| legacy_parse := fun _ => None;
     UTC := fun t => t;
     isTestMode := false;
     cachedVerifier_verify := fun token =>
       if String.eqb token "alice-token" then inr alice
       else if String.eqb token "guest-token" then inr guest
       else if String.eqb token "root-token" then inr root_user
       else inl {| JS.name := "Error"; JS.message := "Decoding Firebase ID token failed" |};
     isAnonymousUser := fun d =>
       String.eqb (DecodedIdToken.sign_in_provider d) "anonymous";
     isSiteAdmin := fun e =>
       match e with Some e => String.eqb e "root@example.com" | None => false end;
     uuid_in := read_uuid;
     timestamp_in := fun _ => true;
     gen_random_uuid := fun n =>
       "00000000-0000-4000-8000-" ++ JS.pad 12 (Z.of_nat n) |}.

(** The same, with an engine whose [Date.parse] reads the empty string as
    the epoch. *)
Definition lenient_runtime : Runtime :=
  {| legacy_parse := fun s => if String.eqb s "" then Some 0 else None;
     UTC := UTC runtime;
     isTestMode := false;
     cachedVerifier_verify := cachedVerifier_verify runtime;
     isAnonymousUser := isAnonymousUser runtime;
     isSiteAdmin := isSiteAdmin runtime;
     uuid_in := read_uuid;
     timestamp_in := timestamp_in runtime;
     gen_random_uuid := gen_random_uuid runtime |}.

Definition alice_row : users.Row :=
  {| users.firebase_uid := "alice"; users.email := Some "alice@example.com";
     users.display_name := None; users.created_at := Some 1700000000000;
     users.updated_at := Some 1700000000000 |}.

Definition bob_row : users.Row :=
  {| users.firebase_uid := "bob"; users.email := Some "bob@example.com";
     users.display_name := None; users.created_at := Some 1700000000000;
     users.updated_at := Some 1700000000000 |}.

Definition alice_id : string := "a1a1a1a1-0000-4000-8000-000000000001".
Definition bob_id : string := "b1b1b1b1-0000-4000-8000-000000000001".

Definition bob_history : histories.Row :=
  {| histories.id := bob_id; histories.user_id := "bob";
     histories.datetime := 1704067200000; histories.value := 10000;
     histories.created_at := Some 1704067200000;
     histories.updated_at := Some 1704067200000 |}.

Definition alice_history : histories.Row :=
  {| histories.id := alice_id; histories.user_id := "alice";
     histories.datetime := 1705314600000; histories.value := 4250;
     histories.created_at := Some 1705314600000;
     histories.updated_at := Some 1705314600000 |}.

Definition world_of (hs : list histories.Row) : World :=
  {| store := {| users_table := [alice_row; bob_row]; histories_table := hs |};
     now := 1717243200000;
     drawn := 0;
     statements := [];
     console := [];
     detached := [] |}.

Definition world : World := world_of [bob_history; alice_history].

Definition request (auth : option string) (uid hid : string)
    (q : string -> option string) (b : JS.json) : Request :=
  {| authorization := auth; param_userId := uid; param_historyId := hid;
     query := q; json := inr b |}.

Definition no_query : string -> option string := fun _ => None.

(** The context the authentication middleware leaves for [alice]. *)
Definition alice_context (rq : Request) : Context :=
  {| req := rq;
     var := {| firebaseUser := Some alice; userId := Some "alice";
               userEmail := Some (Some "alice@example.com");
               siteAdmin := Some false |};
     res := None;
     err := None |}.

Definition fields (datetime value : option JS.json) : JS.json :=
  JS.JObj
    ((match datetime with Some d => [("datetime", d)] | None => [] end)
     ++ (match value with Some v => [("value", v)] | None => [] end)).

End Sample.

(** The responses of the handlers, by status, message or data, and clock. *)
Definition failure (msg : string) (st : Z) (t : Z) : Response :=
  c_json {| success := false; data := None; error := Some msg;
            timestamp := JS.toISOString t |} st.

Definition answer (d : Data) (st : Z) (t : Z) : Response :=
  c_json {| success := true; data := Some d; error := None;
            timestamp := JS.toISOString t |} st.

(** The state after the dispatcher took the response [r] of a handler. *)
Definition responded (r : Response) (s : State) : State :=
  {| ctx := {| req := req (ctx s); var := var (ctx s); res := Some r; err := err (ctx s) |};
     world := world s |}.

(** The state after the dispatcher caught the error [e] of a handler: the
    error is kept and logged, the response is the one of [onError]. *)
Definition caught (e : JS.Error) (s : State) : State :=
  let w := world s in
  {| ctx := {| req := req (ctx s); var := var (ctx s);
               res := Some (failure "Internal server error" 500 (now w));
               err := Some e |};
     world := {| store := store w; now := now w; drawn := drawn w;
                 statements := statements w;
                 console := ("Unhandled error:", e) :: console w;
                 detached := detached w |} |}.

(** The world after the statement [q] left the store [st]. *)
Definition after (q : Statement) (st : Store) (w : World) : World :=
  {| store := st; now := now w; drawn := drawn w; statements := q :: statements w;
     console := console w; detached := detached w |}.

(** [COALESCE(SUM(value), 0)] over the whole table, in hundredths. *)
Definition sum_of_values (st : Store) : Z :=
  fold_right (fun h acc => histories.value h + acc) 0 (histories_table st).

Arguments JS.toISOString : simpl never.

(** [f] holds of the [n] days from [day] on. *)
Fixpoint every_day (n : nat) (day : Z) (f : Z -> bool) : bool :=
  match n with
  | O => true
  | S n' => f day && every_day n' (day + 1) f
  end.

(** [parts.join(sep)] *)
Fixpoint join (sep : ascii) (parts : list string) : string :=
  match parts with
  | [] => ""
  | [w] => w
  | w :: rest => w ++ String sep (join sep rest)
  end.

(** *** What the properties below speak of *)

(** The record has the identifier [id] and the owner [uid]. *)
Definition addressed (id uid : string) (h : histories.Row) : bool :=
  String.eqb (histories.id h) id && String.eqb (histories.user_id h) uid.

(** The state an [async] computation ends in, whether it returned or threw,
    and the store of that state. *)
Definition final {A} (o : Outcome A) : State :=
  match o with
  | Returned _ s => s
  | Thrown _ s => s
  end.

Definition store_after {A} (o : Outcome A) : Store := store (world (final o)).

(** The records that do not belong to [uid], in table order. *)
Definition others (uid : string) (st : Store) : list histories.Row :=
  filter (fun h => negb (String.eqb (histories.user_id h) uid)) (histories_table st).

(** What the constraints of the tables and the validation of the handlers
    maintain: identifiers are unique, every record has its user, every value
    is a count of hundredths from 0 up to the twelve digits of the column. *)
Definition consistent (st : Store) : Prop :=
  NoDup (map histories.id (histories_table st))
  /\ (forall h, In h (histories_table st) ->
                Engine.has_user st (histories.user_id h) = true)
  /\ (forall h, In h (histories_table st) -> 0 <= histories.value h < 10 ^ 12).


(** Year, month and day of a day number within the 400 years from
    0000-03-01 on, checked against [MakeDay]. *)
Definition civil_ok (day : Z) : bool :=
  let '(y, m, d) := JS.civil day in
  (0 <=? y) && (y <=? 400) && (1 <=? m) && (m <=? 12) && (1 <=? d)
  && (d <=? JS.DaysInMonth y m) && (JS.MakeDay y m d =? day).

(** What a caller sees of an [async] computation: the value it returned or
    the error it threw. *)
Definition result {A} (o : Outcome A) : JS.Error + A :=
  match o with
  | Returned a _ => inr a
  | Thrown e _ => inl e
  end.

(** The query of a list request with a [limit] and an [offset]. *)
Definition paging (limit offset : string) : string -> option string :=
  fun name =>
    if String.eqb name "limit" then Some limit
    else if String.eqb name "offset" then Some offset
    else None.

(** Spaces and tabs only. *)
Fixpoint blank (s : string) : bool :=
  match s with
  | EmptyString => true
  | String c r => (Ascii.eqb c " " || Ascii.eqb c "009") && blank r
  end.

(** A visible ASCII character. *)
Definition printable (c : ascii) : bool := (32 <? JS.byte c) && (JS.byte c <? 127).

Fixpoint last_char (s : string) : option ascii :=
  match s with
  | EmptyString => None
  | String c EmptyString => Some c
  | String _ r => last_char r
  end.

(** A string that starts and ends with a visible ASCII character. *)
Definition word (s : string) : bool :=
  match s, last_char s with
  | String a _, Some z => printable a && printable z
  | _, _ => false
  end.

(* ================================================================== *)
(** ** Properties *)
(* ================================================================== *)

(** *** Splitting a header *)

Lemma split_not_nil (sep : ascii) (s : string) : JS.split sep s <> [].
Proof.
  destruct s as [|c r]; simpl; [discriminate|].
  destruct (Ascii.eqb c sep); [discriminate|].
  destruct (JS.split sep r); discriminate.
Qed.

Lemma join_split (sep : ascii) (s : string) : join sep (JS.split sep s) = s.
Proof.
  induction s as [|c r IH]; [reflexivity|].
  simpl. destruct (Ascii.eqb_spec c sep) as [->|Hc].
  - destruct (JS.split sep r) as [|w ws] eqn:E.
    + now destruct (split_not_nil sep r).
    + simpl in *. now rewrite IH.
  - destruct (JS.split sep r) as [|w ws] eqn:E.
    + now destruct (split_not_nil sep r).
    + destruct ws as [|w' ws']; simpl in *; now rewrite <- IH.
Qed.

Lemma join_cons_nonempty (sep : ascii) (w : string) (ws : list string) :
  w <> "" -> join sep (w :: ws) <> "".
Proof.
  intros Hw. destruct w as [|a r]; [congruence|].
  destruct ws; simpl; discriminate.
Qed.

(** A header whose first part is [Bearer] and whose second part is not
    empty is [Bearer], a space and a non-empty rest. *)
Lemma bearer_form (h token : string) :
  nth_error (JS.split " " h) 0 = Some "Bearer" ->
  nth_error (JS.split " " h) 1 = Some token ->
  token <> "" ->
  exists rest, rest <> "" /\ h = "Bearer " ++ rest.
Proof.
  intros H0 H1 Ht.
  pose proof (join_split " " h) as J.
  destruct (JS.split " " h) as [|p0 [|p1 ps]]; try discriminate.
  injection H0 as ->. injection H1 as ->.
  exists (join " " (token :: ps)). split.
  - now apply join_cons_nonempty.
  - rewrite <- J. reflexivity.
Qed.

(** *** Pagination *)

Lemma str_or_nonempty (s d : string) :
  s <> "" -> JS.str_or (Some s) d = s.
Proof. destruct s; [congruence | reflexivity]. Qed.

Lemma parseInt_nonempty (s : string) (n : Z) :
  JS.parseInt s = Some n -> s <> "".
Proof. intros H E; subst s; discriminate H. Qed.

Lemma limit_of_parsed (s : string) (n : Z) :
  JS.parseInt s = Some n ->
  limit_of (Some s) = Z.min (Z.max 1 (if n =? 0 then DEFAULT_LIMIT else n)) MAX_LIMIT.
Proof.
  intros H. unfold limit_of.
  rewrite (str_or_nonempty s _ (parseInt_nonempty s n H)), H. reflexivity.
Qed.

Lemma limit_of_unparsed (s : string) :
  JS.parseInt s = None -> limit_of (Some s) = DEFAULT_LIMIT.
Proof.
  intros H. destruct s as [|a r]; [reflexivity|].
  unfold limit_of. rewrite str_or_nonempty by discriminate. rewrite H. reflexivity.
Qed.

(** C1, as the code has it.  An absent limit and a limit that does not parse
    resolve to 50; a limit that parses to a negative integer resolves to 1; a
    limit that parses to 0 is falsy and resolves to the default 50; a limit
    that parses to 200 or more resolves to 200.  ["-5"] gives 1 and ["abc"]
    gives 50. *)
Theorem limit_resolution :
  limit_of None = 50
  /\ (forall s, JS.parseInt s = None -> limit_of (Some s) = 50)
  /\ (forall s n, JS.parseInt s = Some n -> n < 0 -> limit_of (Some s) = 1)
  /\ (forall s, JS.parseInt s = Some 0 -> limit_of (Some s) = 50)
  /\ (forall s n, JS.parseInt s = Some n -> 200 <= n -> limit_of (Some s) = 200)
  /\ limit_of (Some "-5") = 1
  /\ limit_of (Some "abc") = 50.
Proof.
  split; [reflexivity|].
  split; [intros s H; now apply limit_of_unparsed|].
  split.
  { intros s n H Hn. rewrite (limit_of_parsed s n H).
    destruct (Z.eqb_spec n 0); unfold MAX_LIMIT, DEFAULT_LIMIT; lia. }
  split; [intros s H; now rewrite (limit_of_parsed s 0 H)|].
  split.
  { intros s n H Hn. rewrite (limit_of_parsed s n H).
    destruct (Z.eqb_spec n 0); unfold MAX_LIMIT, DEFAULT_LIMIT; lia. }
  split; reflexivity.
Qed.

Lemma limit_resolution_witness :
  JS.parseInt "-7" = Some (-7) /\ -7 < 0 /\ limit_of (Some "-7") = 1.
Proof.
  split; [reflexivity|]. split; [lia|].
  apply (proj1 (proj2 (proj2 limit_resolution)) "-7" (-7)); [reflexivity | lia].
Defined.

(** C1 as stated fails at the limit ["0"]: it parses to the integer 0, which
    is not greater than 0, and the effective limit is 50, not 1. *)
Lemma limit_zero_counterexample :
  JS.parseInt "0" = Some 0 /\ 0 <= 0 /\ limit_of (Some "0") = 50
  /\ ~ (forall s n, JS.parseInt s = Some n -> n <= 0 -> limit_of (Some s) = 1).
Proof.
  split; [reflexivity|]. split; [lia|]. split; [reflexivity|].
  intros H. specialize (H "0" 0 eq_refl (Z.le_refl 0)). discriminate H.
Qed.

Ltac run :=
  unfold fail, succeed, errorResponse, successResponse, new_Date, bind, ret, throw,
    try_catch, lift, context, get_world, set_world, set_context, send, c_set, detach,
    console_error, Hono.set_res, Hono.set_error, Hono.finalized;
  cbn.

(** *** Decimal values and ordering *)

Lemma Qle_bool_pos (q : Q) : (0 < q)%Q <-> Qle_bool q 0 = false.
Proof.
  split.
  - intros H. destruct (Qle_bool q 0) eqn:E; [|reflexivity].
    apply Qle_bool_iff in E. now apply Qle_not_lt in E.
  - intros H. apply Qnot_le_lt. intros E. apply Qle_bool_iff in E. congruence.
Qed.

Lemma round_half (c : Z) : Qfloor (inject_Z c + (1 # 2)) = c.
Proof.
  unfold Qfloor, Qplus, inject_Z. cbn [Qnum Qden].
  replace (c * 2 + 1 * 1) with (1 + c * 2) by lia.
  rewrite Z.div_add by lia. reflexivity.
Qed.

(** A value with two fractional digits is stored as it is. *)
Lemma round_hundredths (q : Q) (cents : Z) :
  (0 < q)%Q -> (q == cents # 100)%Q -> Engine.round (q * 100) = cents.
Proof.
  intros Hpos Hq.
  assert (Hx : (q * 100 == inject_Z cents)%Q).
  { rewrite Hq. unfold Qeq, Qmult, inject_Z. cbn [Qnum Qden]. lia. }
  unfold Engine.round.
  assert (H0 : Qle_bool 0 (q * 100) = true).
  { apply Qle_bool_iff. apply Qmult_le_0_compat; [now apply Qlt_le_weak | discriminate]. }
  rewrite H0. rewrite Hx. apply round_half.
Qed.

Lemma numeric_hundredths (q : Q) (cents : Z) :
  (0 < q)%Q -> (q == cents # 100)%Q -> cents < 10 ^ 12 ->
  Engine.numeric_12_2 (JS.String_of_number q) = Some cents.
Proof.
  intros Hpos Hq Hc. unfold Engine.numeric_12_2, JS.String_of_number.
  rewrite (round_hundredths q cents Hpos Hq).
  assert (0 < cents).
  { rewrite Hq in Hpos. unfold Qlt in Hpos. cbn in Hpos. lia. }
  destruct (Z.ltb_spec (Z.abs cents) (10 ^ 12)); [reflexivity|lia].
Qed.

(** *** The round trip of a text of two fractional digits *)

Lemma div_even_near (a b : Z) :
  0 < b -> Z.abs (2 * (JS.div_even a b * b - a)) <= b.
Proof.
  intros Hb. unfold JS.div_even.
  pose proof (Z.div_mod a b ltac:(lia)) as E.
  pose proof (Z.mod_pos_bound a b Hb) as R.
  destruct (Z.ltb_spec (2 * (a mod b)) b); [nia|].
  destruct (Z.ltb_spec b (2 * (a mod b))); [nia|].
  destruct (Z.even (a / b)); nia.
Qed.

Lemma div_even_nonneg (a b : Z) : 0 <= a -> 0 < b -> 0 <= JS.div_even a b.
Proof.
  intros Ha Hb. unfold JS.div_even.
  pose proof (Z.div_pos a b Ha Hb).
  repeat match goal with |- context [if ?c then _ else _] => destruct c end; lia.
Qed.

(** The JS.binade of a ratio below [2 ^ 52] that is no subnormal. *)
Lemma binade_bounds (n d : Z) :
  0 < n -> 0 < d ->
  2 ^ 200 * n < 2 ^ 252 * d ->
  d <= 2 ^ 100 * n ->
  let e := JS.binade n d in
  -1074 < e < 0 /\ 2 ^ 52 * d <= n * 2 ^ (- e) < 2 ^ 53 * d.
Proof.
  intros Hn Hd Hhi Hlo. unfold JS.binade.
  set (y := n * 2 ^ 1200 / d).
  assert (Hy : y * d <= n * 2 ^ 1200 < (y + 1) * d).
  { unfold y. pose proof (Z.div_mod (n * 2 ^ 1200) d ltac:(lia)) as E.
    pose proof (Z.mod_pos_bound (n * 2 ^ 1200) d Hd). nia. }
  assert (Hy1 : 2 ^ 1100 <= y).
  { unfold y. apply Z.div_le_lower_bound; [lia|].
    replace (2 ^ 1200) with (2 ^ 1100 * 2 ^ 100) by (rewrite <- Z.pow_add_r; [reflexivity|lia|lia]).
    pose proof (Z.pow_pos_nonneg 2 1100 ltac:(lia) ltac:(lia)). nia. }
  assert (Hy2 : y < 2 ^ 1252).
  { unfold y. apply Z.div_lt_upper_bound; [lia|].
    replace (2 ^ 1200) with (2 ^ 1000 * 2 ^ 200) by (rewrite <- Z.pow_add_r; [reflexivity|lia|lia]).
    replace (2 ^ 1252) with (2 ^ 1000 * 2 ^ 252) by (rewrite <- Z.pow_add_r; [reflexivity|lia|lia]).
    pose proof (Z.pow_pos_nonneg 2 1000 ltac:(lia) ltac:(lia)). nia. }
  assert (Hy0 : 0 < y) by (pose proof (Z.pow_pos_nonneg 2 1100 ltac:(lia) ltac:(lia)); lia).
  pose proof (Z.log2_spec y Hy0) as [L1 L2].
  set (L := Z.log2 y) in *.
  assert (HL1 : 1100 <= L).
  { apply Z.log2_le_pow2; [lia|exact Hy1]. }
  assert (HL2 : L < 1252).
  { apply Z.log2_lt_pow2; [lia|exact Hy2]. }
  rewrite Z.max_l by lia.
  split; [lia|].
  replace (- (L - 1252)) with (1252 - L) by lia.
  (* 2^L <= y < 2^(L+1), y d <= n 2^1200 < (y+1) d *)
  assert (E1 : 2 ^ 1200 = 2 ^ (1252 - L) * 2 ^ (L - 52))
    by (rewrite <- Z.pow_add_r by lia; f_equal; lia).
  assert (E2 : 2 ^ L = 2 ^ 52 * 2 ^ (L - 52))
    by (rewrite <- Z.pow_add_r by lia; f_equal; lia).
  assert (E3 : 2 ^ Z.succ L = 2 ^ 53 * 2 ^ (L - 52))
    by (rewrite <- Z.pow_add_r by lia; f_equal; lia).
  pose proof (Z.pow_pos_nonneg 2 (L - 52) ltac:(lia) ltac:(lia)) as P1.
  pose proof (Z.pow_pos_nonneg 2 (1252 - L) ltac:(lia) ltac:(lia)) as P2.
  set (A := 2 ^ (L - 52)) in *. set (B := 2 ^ (1252 - L)) in *.
  rewrite E1 in Hy. rewrite E2 in L1. rewrite E3 in L2.
  split.
  - (* 2^52 d A <= y d <= n B A *)
    apply (Z.mul_le_mono_pos_r _ _ A P1). nia.
  - (* n B A < (y+1) d <= 2^53 A d *)
    apply (Z.mul_lt_mono_pos_r A _ _ P1). nia.
Qed.

Lemma Qred_again (q : Q) : Qred (Qred q) = Qred q.
Proof. apply Qred_complete, Qred_correct. Qed.

Lemma nearest_double_compat (p q : Q) : (p == q)%Q -> JS.nearest_double p = JS.nearest_double q.
Proof. intros H. unfold JS.nearest_double. now rewrite (Qred_complete p q H). Qed.

Lemma nearest_double_form (n : Z) (d : positive) :
  0 < n ->
  Qred (n # d) = n # d ->
  2 ^ 200 * n < 2 ^ 252 * Zpos d ->
  Zpos d <= 2 ^ 100 * n ->
  exists m E,
    JS.nearest_double (n # d) = (inject_Z m * (1 # E))%Q
    /\ 0 <= m
    /\ Z.abs (2 * (m * Zpos d - n * Zpos E)) <= Zpos d
    /\ 2 ^ 52 * Zpos d <= n * Zpos E.
Proof.
  intros Hn Hred Hhi Hlo.
  destruct (binade_bounds n (Zpos d) Hn ltac:(lia) Hhi Hlo) as [He Hb].
  unfold JS.nearest_double. rewrite Hred. cbn [Qnum Qden].
  destruct (Z.eqb_spec n 0) as [->|_]; [lia|].
  destruct (Z.ltb_spec n 0) as [?|_]; [lia|].
  rewrite (Z.abs_eq n) by lia.
  set (e := JS.binade n (Zpos d)) in *.
  rewrite (Z.max_r 0 (- e)) by lia. rewrite (Z.max_l 0 e) by lia.
  rewrite Z.pow_0_r, Z.mul_1_r.
  pose proof (Z.pow_pos_nonneg 2 (- e) ltac:(lia) ltac:(lia)) as HE.
  exists (JS.div_even (n * 2 ^ (- e)) (Zpos d)), (Z.to_pos (2 ^ (- e))).
  rewrite Z2Pos.id by exact HE.
  split.
  - unfold JS.pow2. destruct (Z.leb_spec 0 e); [lia|reflexivity].
  - split; [apply div_even_nonneg; nia|].
    split; [apply div_even_near; lia | apply Hb].
Qed.

(** The double nearest to [q] is within [q / 2 ^ 53] of it. *)
Lemma nearest_double_error (q : Q) :
  (0 < q)%Q ->
  (q < 4503599627370496)%Q ->
  (1 # 1000 <= q)%Q ->
  ((JS.nearest_double q - q) * 9007199254740992 <= q
   /\ (q - JS.nearest_double q) * 9007199254740992 <= q)%Q.
Proof.
  intros Hq Hhi Hlo.
  pose proof (Qred_correct q) as Hr.
  pose proof (Qred_again q) as Hred.
  rewrite (nearest_double_compat q (Qred q)) by (symmetry; exact Hr).
  set (r := Qred q) in *. clearbody r.
  rewrite <- Hr in Hq, Hhi, Hlo. rewrite <- Hr. clear Hr q.
  destruct r as [n d].
  assert (Hn : 0 < n) by (unfold Qlt in Hq; cbn in Hq; lia).
  assert (H1 : 2 ^ 200 * n < 2 ^ 252 * Zpos d).
  { unfold Qlt in Hhi. cbn [Qnum Qden] in Hhi.
    change 4503599627370496 with (2 ^ 52) in Hhi.
    replace (2 ^ 252) with (2 ^ 200 * 2 ^ 52) by (rewrite <- Z.pow_add_r; [reflexivity|lia|lia]).
    pose proof (Z.pow_pos_nonneg 2 200 ltac:(lia) ltac:(lia)). nia. }
  assert (H2 : Zpos d <= 2 ^ 100 * n).
  { unfold Qle in Hlo. cbn [Qnum Qden] in Hlo.
    assert (1000 < 2 ^ 100) by reflexivity.
    nia. }
  destruct (nearest_double_form n d Hn Hred H1 H2) as (m & E & -> & Hm & Hnear & Hbin).
  unfold Qle, Qminus, Qplus, Qmult, Qopp, inject_Z. cbn [Qnum Qden].
  rewrite !Pos2Z.inj_mul. change 9007199254740992 with (2 ^ 53).

  set (D := Zpos d) in *. set (F := Zpos E) in *.
  assert (HD : 0 < D) by (unfold D; lia). assert (HF : 0 < F) by (unfold F; lia).
  assert (P53 : 2 ^ 53 = 2 * 2 ^ 52) by reflexivity.
  rewrite P53. set (T := 2 ^ 52) in *. assert (HT : 0 < T) by (unfold T; lia).
  split; nia.
Qed.

Lemma pow10_pos (p : Z) : (0 < JS.pow10 p)%Q.
Proof.
  unfold JS.pow10. destruct (Z.leb_spec 0 p).
  - unfold Qlt. cbn. pose proof (Z.pow_pos_nonneg 10 p ltac:(lia) ltac:(lia)). lia.
  - reflexivity.
Qed.

(** Around a double [x] that a text [c / 100] is read as, the search stops
    at a multiple of a hundredth that is read as [x] too. *)
Lemma shortest_grid (fuel : nat) :
  forall (p : Z) (x : Q) (c : Z),
    (JS.nearest_double (c # 100) == x)%Q ->
    (x - (c # 100) < 1 # 100)%Q ->
    ((c # 100) - x < 1 # 100)%Q ->
    -2 <= p ->
    p + 2 < Z.of_nat fuel ->
    exists s p',
      -2 <= p' <= p
      /\ JS.shortest fuel p x = (inject_Z s * JS.pow10 p')%Q
      /\ (JS.nearest_double (inject_Z s * JS.pow10 p') == x)%Q
      /\ (s = Qfloor (x / JS.pow10 p') \/ s = Qfloor (x / JS.pow10 p') + 1).
Proof.
  induction fuel as [|fuel IH]; intros p x c Hc H1 H2 Hp Hf; [lia|].
  cbn [JS.shortest].
  set (s := Qfloor (x / JS.pow10 p)).
  destruct (Qeq_bool (JS.nearest_double (inject_Z s * JS.pow10 p)) x) eqn:Elo;
    destruct (Qeq_bool (JS.nearest_double (inject_Z (s + 1) * JS.pow10 p)) x) eqn:Ehi;
    cbn [andb].
  - apply Qeq_bool_iff in Elo, Ehi.
    destruct (_ ?= _)%Q; [destruct (Z.even s)| |];
      first [exists s, p; repeat split; auto; lia
            |exists (s + 1), p; repeat split; auto; lia].
  - apply Qeq_bool_iff in Elo. exists s, p. repeat split; auto; lia.
  - apply Qeq_bool_iff in Ehi. exists (s + 1), p. repeat split; auto; lia.
  - assert (Hp2 : p <> -2).
    { intros ->. 
      assert (Hs : c = s \/ c = s + 1).
      { pose proof (Qfloor_le (x / JS.pow10 (-2))) as F1.
        pose proof (Qlt_floor (x / JS.pow10 (-2))) as F2.
        fold s in F1, F2.
        assert (E : (x / JS.pow10 (-2) == x * 100)%Q).
        { unfold JS.pow10. cbn. unfold Qdiv. apply Qmult_comp; [reflexivity|reflexivity]. }
        rewrite E in F1, F2.
        assert (E2 : (c # 100 == inject_Z c * (1 # 100))%Q).
        { unfold Qeq, Qmult, inject_Z. cbn. lia. }
        rewrite E2 in H1, H2.
        assert (B1 : (inject_Z s < inject_Z (c + 1))%Q)
          by (rewrite inject_Z_plus; change (inject_Z 1) with 1%Q; lra).
        assert (B2 : (inject_Z (c + -1) < inject_Z (s + 1))%Q)
          by (rewrite (inject_Z_plus c); change (inject_Z (-1)) with (-1 # 1)%Q; lra).
        rewrite <- Zlt_Qlt in B1, B2. lia. }
      assert (E3 : forall k, (inject_Z k * JS.pow10 (-2) == k # 100)%Q).
      { intros k. unfold Qeq, Qmult, inject_Z, JS.pow10. cbn. lia. }
      destruct Hs as [<-| ->].
      - rewrite (nearest_double_compat _ _ (E3 c)) in Elo.
        apply Qeq_bool_iff in Hc. congruence.
      - rewrite (nearest_double_compat _ _ (E3 (s + 1))) in Ehi.
        apply Qeq_bool_iff in Hc. congruence. }
    destruct (IH (p - 1) x c Hc H1 H2 ltac:(lia) ltac:(lia)) as (s' & p' & Hp' & E & Hn & Hs).
    exists s', p'. repeat split; auto; lia.
Qed.

Lemma log2_ratio (n d a b : Z) :
  0 < n -> 0 < d -> 0 <= a -> 0 <= b ->
  n < 2 ^ a * d -> d <= 2 ^ b * n ->
  - b - 1 < Z.log2 n - Z.log2 d <= a.
Proof.
  intros Hn Hd Ha Hb H1 H2.
  pose proof (Z.log2_spec n Hn) as [N1 N2].
  pose proof (Z.log2_spec d Hd) as [D1 D2].
  pose proof (Z.log2_nonneg n). pose proof (Z.log2_nonneg d).
  split.
  - assert (Z.log2 d < Z.log2 n + b + 1); [|lia].
    apply Z.log2_lt_pow2; [lia|].
    replace (Z.log2 n + b + 1) with (b + Z.succ (Z.log2 n)) by lia.
    rewrite Z.pow_add_r by lia.
    pose proof (Z.pow_pos_nonneg 2 b ltac:(lia) Hb). nia.
  - assert (Z.log2 n < Z.log2 d + a + 1); [|lia].
    apply Z.log2_lt_pow2; [lia|].
    replace (Z.log2 d + a + 1) with (a + Z.succ (Z.log2 d)) by lia.
    rewrite Z.pow_add_r by lia.
    pose proof (Z.pow_pos_nonneg 2 a ltac:(lia) Ha). nia.
Qed.

Lemma above_range (x : Q) :
  (1 # 128 <= x)%Q -> (x < 17592186044416)%Q -> 0 <= JS.above x <= 15.
Proof.
  intros H1 H2. destruct x as [n d]. unfold JS.above. cbn [Qnum Qden].
  unfold Qle in H1. unfold Qlt in H2. cbn [Qnum Qden] in H1, H2.
  assert (L : - (7) - 1 < Z.log2 n - Z.log2 (Zpos d) <= 44).
  { apply (log2_ratio n (Zpos d) 44 7); lia. }
  set (l := Z.log2 n - Z.log2 (Zpos d)) in *.
  assert (-2 <= (l + 2) * 30103 / 100000 <= 13); [|lia].
  split.
  - apply Z.div_le_lower_bound; lia.
  - assert ((l + 2) * 30103 / 100000 < 14); [|lia].
    apply Z.div_lt_upper_bound; lia.
Qed.

Lemma pow10_grid (p : Z) :
  -2 <= p <= 15 ->
  (JS.pow10 p == inject_Z (10 ^ (p + 2)) * (1 # 100))%Q
  /\ (1 # 100 <= JS.pow10 p)%Q /\ (JS.pow10 p <= 1000000000000000)%Q.
Proof.
  intros H.
  assert (E : p = -2 \/ p = -1 \/ p = 0 \/ p = 1 \/ p = 2 \/ p = 3 \/ p = 4 \/ p = 5
              \/ p = 6 \/ p = 7 \/ p = 8 \/ p = 9 \/ p = 10 \/ p = 11 \/ p = 12
              \/ p = 13 \/ p = 14 \/ p = 15) by lia.
  repeat (destruct E as [->|E]; [repeat split; discriminate|]).
  subst p. repeat split; discriminate.
Qed.

Lemma Qopp_twice (x : Q) : Qopp (Qopp x) = x.
Proof. destruct x as [n d]. unfold Qopp. cbn. now rewrite Z.opp_involutive. Qed.

(** A positive text of two fractional digits and at most fifteen digits in
    all survives the conversion to a double and back. *)
Lemma render_hundredths (c : Z) :
  0 < c < 10 ^ 15 ->
  exists v, JS.render (JS.nearest_double (c # 100)) = v
            /\ JS.shortest 40 (JS.above (JS.nearest_double (c # 100))) (JS.nearest_double (c # 100)) = v
            /\ (v == c # 100)%Q /\ (0 < JS.nearest_double (c # 100))%Q.
Proof.
  intros Hc.
  set (q := c # 100). set (x := JS.nearest_double q).
  assert (Hq0 : (0 < q)%Q) by (unfold q, Qlt; cbn; lia).
  assert (Hq1 : (q < 10000000000000)%Q).
  { unfold q, Qlt. cbn. change (10 ^ 15) with 1000000000000000 in Hc. lia. }
  assert (Hq2 : (1 # 100 <= q)%Q) by (unfold q, Qle; cbn; lia).
  destruct (nearest_double_error q Hq0 ltac:(lra) ltac:(lra)) as [X1 X2]. fold x in X1, X2.
  assert (Hx0 : (0 < x)%Q) by lra.
  assert (Hxn : 0 < Qnum x) by (unfold Qlt in Hx0; cbn in Hx0; lia).
  pose proof (above_range x ltac:(lra) ltac:(lra)) as Ha.
  destruct (shortest_grid 40 (JS.above x) x c ltac:(reflexivity) ltac:(fold q; lra)
              ltac:(fold q; lra) ltac:(lia) ltac:(lia))
    as (s & p & Hp & E & Hn & Hs).
  exists (JS.shortest 40 (JS.above x) x).
  split.
  { unfold JS.render. destruct (Z.eqb_spec (Qnum x) 0); [lia|].
    destruct (Z.ltb_spec (Qnum x) 0); [lia|reflexivity]. }
  split; [reflexivity|]. split; [|exact Hx0].
  rewrite E.
  destruct (pow10_grid p ltac:(lia)) as (G1 & G2 & G3).
  pose proof (pow10_pos p) as G0.
  pose proof (Qfloor_le (x / JS.pow10 p)) as F1.
  pose proof (Qlt_floor (x / JS.pow10 p)) as F2.
  set (f := Qfloor (x / JS.pow10 p)) in *.
  assert (Hf0 : 0 <= f).
  { unfold f. change 0 with (Qfloor 0). apply Qfloor_resp_le.
    apply Qle_shift_div_l; [exact G0|lra]. }
  assert (Hs1 : 0 < s).
  { destruct (Z.ltb_spec 0 s) as [|Hs0]; [assumption|exfalso].
    assert (s = 0) by lia. subst s.
    assert (Z0 : (inject_Z 0 * JS.pow10 p == 0)%Q) by (unfold Qeq; cbn; lia).
    rewrite (nearest_double_compat _ _ Z0) in Hn.
    change (JS.nearest_double 0) with 0%Q in Hn. lra. }
  set (dd := (inject_Z s * JS.pow10 p)%Q) in *.
  assert (Hdx : (x / JS.pow10 p * JS.pow10 p == x)%Q) by (field; lra).
  assert (D1 : (JS.pow10 p <= dd)%Q).
  { unfold dd. assert (1 <= inject_Z s)%Q by (change 1%Q with (inject_Z 1); rewrite <- Zle_Qle; lia).
    nra. }
  assert (D2 : (dd <= x + JS.pow10 p)%Q).
  { unfold dd.
    assert (inject_Z s <= x / JS.pow10 p + 1)%Q.
    { destruct Hs as [->| ->]; [lra|]. rewrite inject_Z_plus. change (inject_Z 1) with 1%Q. lra. }
    nra. }
  destruct (nearest_double_error dd ltac:(lra) ltac:(lra) ltac:(lra)) as [Y1 Y2].
  rewrite Hn in Y1, Y2.
  assert (C1 : (dd - q < 1 # 100)%Q) by lra.
  assert (C2 : (q - dd < 1 # 100)%Q) by lra.
  unfold dd in C1, C2 |- *. rewrite G1 in C1, C2 |- *.
  set (t := 10 ^ (p + 2)) in *.
  assert (Et : (inject_Z s * (inject_Z t * (1 # 100)) == inject_Z (s * t) * (1 # 100))%Q)
    by (rewrite inject_Z_mult; ring).
  rewrite Et in C1, C2 |- *.
  assert (Eq : (q == inject_Z c * (1 # 100))%Q) by (unfold q, Qeq; cbn; lia).
  rewrite Eq in C1, C2 |- *.
  assert (B1 : (inject_Z (s * t) < inject_Z (c + 1))%Q)
    by (rewrite (inject_Z_plus c); change (inject_Z 1) with 1%Q; lra).
  assert (B2 : (inject_Z (c + -1) < inject_Z (s * t))%Q)
    by (rewrite (inject_Z_plus c); change (inject_Z (-1)) with (-1 # 1)%Q; lra).
  rewrite <- Zlt_Qlt in B1, B2.
  assert (s * t = c) by lia. now rewrite H.
Qed.

Lemma nearest_double_opp (c : Z) :
  0 < c -> JS.nearest_double (- c # 100) = Qopp (JS.nearest_double (c # 100)).
Proof.
  intros Hc. unfold JS.nearest_double.
  change (- c # 100) with (Qopp (c # 100)). rewrite Qred_opp.
  pose proof (Qred_correct (c # 100)) as Hr.
  destruct (Qred (c # 100)) as [n d].
  assert (Hn : 0 < n) by (unfold Qeq in Hr; cbn in Hr; lia).
  cbn [Qopp Qnum Qden].
  destruct (Z.eqb_spec (- n) 0); [lia|]. destruct (Z.eqb_spec n 0); [lia|].
  destruct (Z.ltb_spec (- n) 0); [|lia]. destruct (Z.ltb_spec n 0); [lia|].
  now rewrite Z.abs_opp.
Qed.

(** [JS.Number] of the text of a NUMERIC value of at most fifteen digits is the
    value the text denotes. *)
Lemma Number_hundredths (c : Z) :
  Z.abs c < 10 ^ 15 -> JS.Number (c # 100) = c # 100.
Proof.
  intros Hc. unfold JS.Number.
  destruct (Z.lt_trichotomy c 0) as [Hneg|[->|Hpos]].
  - replace c with (- - c) by lia.
    destruct (render_hundredths (- c) ltac:(lia)) as (v & _ & Hv & Ev & Hx).
    rewrite (nearest_double_opp (- c)) by lia.
    set (x := JS.nearest_double (- c # 100)) in *.
    assert (Hxn : 0 < Qnum x) by (unfold Qlt in Hx; cbn in Hx; lia).
    unfold JS.render.
    assert (Hno : Qnum (Qopp x) = - Qnum x) by (destruct x; reflexivity).
    rewrite Hno.
    destruct (Z.eqb_spec (- Qnum x) 0); [lia|]. destruct (Z.ltb_spec (- Qnum x) 0); [|lia].
    rewrite Qopp_twice, Hv.
    assert (E : Qeq_bool (- v) (- - c # 100) = true).
    { apply Qeq_bool_iff. rewrite Ev. unfold Qeq. cbn. lia. }
    now rewrite E.
  - reflexivity.
  - destruct (render_hundredths c ltac:(lia)) as (v & Hv & _ & Ev & _).
    rewrite Hv. apply Qeq_bool_iff in Ev. now rewrite Ev.
Qed.

Lemma insert_by_In (le : Z -> Z -> bool) (h x : histories.Row) (l : list histories.Row) :
  In x (Engine.insert_by le h l) <-> x = h \/ In x l.
Proof.
  induction l as [|y l IH]; simpl.
  - intuition congruence.
  - destruct (le _ _); simpl; [intuition congruence|]. rewrite IH. intuition congruence.
Qed.

Lemma insert_by_length (le : Z -> Z -> bool) (h : histories.Row) (l : list histories.Row) :
  List.length (Engine.insert_by le h l) = S (List.length l).
Proof.
  induction l as [|y l IH]; simpl; [reflexivity|].
  destruct (le _ _); simpl; [reflexivity|]. now rewrite IH.
Qed.

Lemma order_by_In (d : Direction) (x : histories.Row) (l : list histories.Row) :
  In x (Engine.order_by d l) <-> In x l.
Proof.
  unfold Engine.order_by. induction l as [|y l IH]; simpl; [reflexivity|].
  rewrite insert_by_In, IH. intuition congruence.
Qed.

Lemma order_by_length (d : Direction) (l : list histories.Row) :
  List.length (Engine.order_by d l) = List.length l.
Proof.
  unfold Engine.order_by. induction l as [|y l IH]; simpl; [reflexivity|].
  now rewrite insert_by_length, IH.
Qed.

(** Closes a case in which the handler did not answer 200. *)
Ltac refuted H Hs :=
  solve [ discriminate H
        | injection H as <- <-; discriminate Hs
        | injection H as <- <-; cbn in Hs; discriminate Hs ].

Section Properties.

Variable rt : Runtime.

(** *** The datetime validator *)

(** C8.  A string is accepted exactly when [new Date] reads an instant
    from it.  With an engine that reads nothing from [""] and
    ["not-a-date"] and whose zone offset is below a day, these two strings
    are refused and the full, the date-only and the zoneless form of
    2024-01-15 are accepted. *)
Theorem isValidDatetime_spec :
  legacy_parse rt "" = None ->
  legacy_parse rt "not-a-date" = None ->
  (forall t, Z.abs (UTC rt t - t) <= JS.msPerDay) ->
  (forall s t, new_Date_of rt s = Some t -> isValidDatetime rt s = true)
  /\ (forall s, new_Date_of rt s = None -> isValidDatetime rt s = false)
  /\ isValidDatetime rt "not-a-date" = false
  /\ isValidDatetime rt "" = false
  /\ isValidDatetime rt "2024-01-15T10:30:00.000Z" = true
  /\ isValidDatetime rt "2024-01-15" = true
  /\ isValidDatetime rt "2024-01-15T10:30:00" = true.
Proof.
  intros Hempty Hnad Hzone.
  unfold isValidDatetime, getTime, isNaN.
  split; [intros s t H; now rewrite H|].
  split; [intros s H; now rewrite H|].
  unfold new_Date_of, JS.Date_parse.
  split; [now rewrite Hnad|].
  split; [now rewrite Hempty|].
  split; [reflexivity|].
  split; [reflexivity|].
  replace (JS.parse_format (UTC rt) "2024-01-15T10:30:00")
    with (Some (JS.TimeClip (UTC rt 1705314600000)))
    by (cbv -[JS.TimeClip UTC]; reflexivity).
  unfold JS.TimeClip.
  specialize (Hzone 1705314600000). unfold JS.msPerDay in Hzone.
  destruct (Z.leb_spec (Z.abs (UTC rt 1705314600000)) JS.maxTime) as [_|Hbig];
    [reflexivity|].
  unfold JS.maxTime in Hbig. lia.
Qed.


(** *** The dispatcher *)

Lemma fail_run (msg : string) (st : Z) (s : State) :
  fail msg st s = Returned (Some (failure msg st (now (world s)))) s.
Proof. reflexivity. Qed.

Lemma succeed_run (d : Data) (st : Z) (s : State) :
  succeed d st s = Returned (Some (answer d st (now (world s)))) s.
Proof. reflexivity. Qed.

(** Whatever the handlers do, [compose] returns. *)
Lemma compose_returns (l : list Handler) (s : State) :
  exists s', Hono.compose onError Hono.notFoundHandler l s = Returned tt s'.
Proof.
  destruct l as [|h rest]; cbn [Hono.compose].
  - run. destruct (res (ctx s)); cbn; eexists; reflexivity.
  - unfold bind at 1. unfold try_catch. unfold bind at 1.
    destruct (h _ s) as [[r|] s1|e s1]; run.
    + destruct (res (ctx s1)); cbn; eexists; reflexivity.
    + eexists; reflexivity.
    + rewrite orb_true_r. eexists; reflexivity.
Qed.

Lemma dispatch_returns (l : list Handler) (s : State) :
  exists r s', Hono.dispatch onError l s = Returned r s'.
Proof.
  unfold Hono.dispatch, try_catch. unfold bind at 1.
  destruct (compose_returns l s) as [s1 ->].
  run. destruct (res (ctx s1)); cbn; do 2 eexists; reflexivity.
Qed.

(** [logger()] and [cors()] hand over to the rest of the chain. *)
Lemma compose_logger (rest : list Handler) (s : State) :
  Hono.compose onError Hono.notFoundHandler (Hono.logger :: rest) s
  = Hono.compose onError Hono.notFoundHandler rest s.
Proof.
  cbn [Hono.compose]. unfold Hono.logger. unfold bind at 1. unfold try_catch.
  unfold bind at 1. unfold bind at 1.
  destruct (compose_returns rest s) as [s1 ->]. reflexivity.
Qed.

Lemma compose_cors (rest : list Handler) (s : State) :
  Hono.compose onError Hono.notFoundHandler (Hono.cors :: rest) s
  = Hono.compose onError Hono.notFoundHandler rest s.
Proof. exact (compose_logger rest s). Qed.

(** A handler answers [r]: the handlers after it are not called. *)
Lemma compose_answer (h : Handler) (rest : list Handler) (s s1 : State) (r : Response) :
  h (Hono.compose onError Hono.notFoundHandler rest) s = Returned (Some r) s1 ->
  res (ctx s1) = None ->
  Hono.compose onError Hono.notFoundHandler (h :: rest) s = Returned tt (responded r s1).
Proof.
  intros Hh Hres.
  change (Hono.compose onError Hono.notFoundHandler (h :: rest))
    with (r <- try_catch
                 (r <- h (Hono.compose onError Hono.notFoundHandler rest) ;; ret (r, false))
                 (fun e => Hono.set_error e ;;; r <- onError e ;; ret (Some r, true)) ;;
          c <- context ;;
          match r with
          | (Some r, isError) =>
              if negb (Hono.finalized c) || isError then Hono.set_res r else ret tt
          | (None, _) => ret tt
          end).
  unfold bind at 1. unfold try_catch. unfold bind at 1. rewrite Hh. run.
  rewrite Hres. reflexivity.
Qed.

(** A handler throws [e]: the error is caught where the handler was called,
    and [compose] returns. *)
Lemma compose_throw (h : Handler) (rest : list Handler) (s s1 : State) (e : JS.Error) :
  h (Hono.compose onError Hono.notFoundHandler rest) s = Thrown e s1 ->
  Hono.compose onError Hono.notFoundHandler (h :: rest) s = Returned tt (caught e s1).
Proof.
  intros Hh.
  change (Hono.compose onError Hono.notFoundHandler (h :: rest))
    with (r <- try_catch
                 (r <- h (Hono.compose onError Hono.notFoundHandler rest) ;; ret (r, false))
                 (fun e => Hono.set_error e ;;; r <- onError e ;; ret (Some r, true)) ;;
          c <- context ;;
          match r with
          | (Some r, isError) =>
              if negb (Hono.finalized c) || isError then Hono.set_res r else ret tt
          | (None, _) => ret tt
          end).
  unfold bind at 1. unfold try_catch. unfold bind at 1. rewrite Hh. run.
  rewrite orb_true_r. reflexivity.
Qed.

(** The gate lets a verified, non-anonymous token through: the rest of the
    chain runs in the [admitted] state, inside the [try] of the middleware. *)
Lemma gate_admits (next : M unit) (s : State) (token : string) (d : DecodedIdToken.t) :
  bearer (req (ctx s)) token ->
  verified rt token d ->
  isAnonymousUser rt d = false ->
  firebaseAuthMiddleware rt next s
  = try_catch (next ;;; ret None)
      (fun _ => fail "Invalid or expired Firebase token" 401) (admitted rt d s).
Proof.
  intros (h & Hh & H0 & H1 & Htok) (Htest & Hver) Hanon.
  unfold firebaseAuthMiddleware. unfold bind at 1. unfold context. rewrite Hh.
  destruct h as [|a r]; [discriminate H0|].
  rewrite H0, H1. cbn [negb orb String.eqb].
  destruct (String.eqb_spec token "") as [->|_]; [congruence|].
  replace (("Bearer" =? "Bearer")%string) with true by reflexivity.
  cbn [negb orb].
  unfold try_catch at 1, verifyIdToken. rewrite Htest, Hver. unfold bind at 1.
  cbn [lift ret]. rewrite Hanon.
  reflexivity.
Qed.

(** Were [next()] to throw, the [catch] of the middleware would answer 401:
    the 500 of the error handler depends on [compose] catching the error of
    a handler before it reaches the middleware. *)
Lemma gate_catches_next (next : M unit) (s s1 : State) (token : string)
    (d : DecodedIdToken.t) (e : JS.Error) :
  bearer (req (ctx s)) token ->
  verified rt token d ->
  isAnonymousUser rt d = false ->
  next (admitted rt d s) = Thrown e s1 ->
  firebaseAuthMiddleware rt next s
  = Returned (Some (failure "Invalid or expired Firebase token" 401 (now (world s1)))) s1.
Proof.
  intros Hb Hv Ha Hn. rewrite (gate_admits next s token d Hb Hv Ha).
  unfold try_catch, bind. rewrite Hn. reflexivity.
Qed.

(** Behind the gate, the rest of the chain runs in the [admitted] state. *)
Lemma compose_gate (found : list Handler) (s : State) (token : string)
    (d : DecodedIdToken.t) :
  bearer (req (ctx s)) token ->
  verified rt token d ->
  isAnonymousUser rt d = false ->
  Hono.compose onError Hono.notFoundHandler (firebaseAuthMiddleware rt :: found) s
  = Hono.compose onError Hono.notFoundHandler found (admitted rt d s).
Proof.
  intros Hb Hv Ha.
  change (Hono.compose onError Hono.notFoundHandler (firebaseAuthMiddleware rt :: found))
    with (r <- try_catch
                 (r <- firebaseAuthMiddleware rt
                         (Hono.compose onError Hono.notFoundHandler found) ;;
                  ret (r, false))
                 (fun e => Hono.set_error e ;;; r <- onError e ;; ret (Some r, true)) ;;
          c <- context ;;
          match r with
          | (Some r, isError) =>
              if negb (Hono.finalized c) || isError then Hono.set_res r else ret tt
          | (None, _) => ret tt
          end).
  unfold bind at 1. unfold try_catch at 1. unfold bind at 1.
  rewrite (gate_admits _ s token d Hb Hv Ha).
  unfold try_catch at 1. unfold bind at 1.
  destruct (compose_returns found (admitted rt d s)) as [s' ->].
  reflexivity.
Qed.

(** What [fetch] returns once [compose] left a response in the context. *)
Lemma fetch_responded (found : list Handler) (rq : Request) (w : World)
    (s' : State) (r : Response) :
  Hono.compose onError Hono.notFoundHandler found
    {| ctx := Hono.new_Context rq; world := w |} = Returned tt s' ->
  res (ctx s') = Some r ->
  fetch found rq w = Returned r s'.
Proof.
  intros Hc Hr. unfold fetch, Hono.dispatch. unfold try_catch. unfold bind at 1.
  cbn [app]. rewrite compose_logger, compose_cors, Hc.
  unfold bind, context. rewrite Hr. reflexivity.
Qed.

(** C2.  Every request gets one response, whatever handlers the router
    finds.  When a handler throws, called first or behind the authentication
    middleware, the response is the 500 of the error handler, with the fixed
    message and no trace of the error; the error is kept in the context and
    logged.  Behind the middleware this holds because the dispatcher catches
    the error where the handler was called, so that the [next()] of the
    middleware returns. *)
Theorem unhandled_error_response :
  forall (h : Handler) (rest : list Handler) (rq : Request) (w : World),
    (forall found, exists resp s', fetch found rq w = Returned resp s')
    /\ (forall (s2 : State) (e : JS.Error),
          h (Hono.compose onError Hono.notFoundHandler rest)
            {| ctx := Hono.new_Context rq; world := w |} = Thrown e s2 ->
          fetch (h :: rest) rq w
          = Returned (failure "Internal server error" 500 (now (world s2))) (caught e s2))
    /\ (forall (token : string) (d : DecodedIdToken.t) (s2 : State) (e : JS.Error),
          bearer rq token ->
          verified rt token d ->
          isAnonymousUser rt d = false ->
          h (Hono.compose onError Hono.notFoundHandler rest)
            (admitted rt d {| ctx := Hono.new_Context rq; world := w |}) = Thrown e s2 ->
          fetch (firebaseAuthMiddleware rt :: h :: rest) rq w
          = Returned (failure "Internal server error" 500 (now (world s2))) (caught e s2)).
Proof.
  intros h rest rq w. split; [|split].
  - intros found. apply dispatch_returns.
  - intros s2 e Hh.
    eapply fetch_responded; [now apply compose_throw | reflexivity].
  - intros token d s2 e Hb Hv Ha Hh.
    eapply fetch_responded;
      [rewrite (compose_gate _ {| ctx := Hono.new_Context rq; world := w |} token d Hb Hv Ha);
       now apply compose_throw
      |reflexivity].
Qed.

(** *** Ownership *)

Lemma notAuthorized_other (c : Context) (uid : string) :
  userId (var c) = Some uid ->
  param_userId (req c) <> uid ->
  siteAdmin (var c) = Some false ->
  notAuthorized c = true.
Proof.
  intros Hu Hp Ha. unfold notAuthorized. rewrite Hu, Ha.
  destruct (String.eqb_spec (param_userId (req c)) uid); [contradiction|reflexivity].
Qed.

(** A request for another user's histories is refused before any statement
    is sent. *)
Lemma history_handler_forbidden (h : Handler) (next : M unit) (c : Context) (w : World) :
  In h (history_handlers rt) ->
  notAuthorized c = true ->
  h next {| ctx := c; world := w |}
  = Returned (Some (failure "Not authorized" 403 (now w))) {| ctx := c; world := w |}.
Proof.
  intros Hh Hn.
  destruct Hh as [<-|[<-|[<-|[<-|[]]]]];
    unfold historiesRouter_get, historiesRouter_post, historiesRouter_put,
      historiesRouter_delete;
    unfold bind at 1; unfold context; cbn [ctx]; rewrite Hn; reflexivity.
Qed.

(** The user handler and the create, update and delete handlers: what the
    router finds first behind the authentication middleware for a request
    to a user or history path. *)
Lemma guarded_forbidden (h : Handler) (next : M unit) (c : Context) (w : World) :
  In h [usersRouter_get; historiesRouter_post rt; historiesRouter_put rt;
        historiesRouter_delete rt] ->
  notAuthorized c = true ->
  exists msg,
    h next {| ctx := c; world := w |}
    = Returned (Some (failure msg 403 (now w))) {| ctx := c; world := w |}.
Proof.
  intros Hh Hn.
  destruct Hh as [<-|[<-|[<-|[<-|[]]]]]; eexists;
    unfold usersRouter_get, historiesRouter_post, historiesRouter_put,
      historiesRouter_delete;
    unfold bind at 1; unfold context; cbn [ctx]; rewrite Hn; reflexivity.
Qed.

(** C3.  The list, create, update and delete handlers answer 403 to a
    requester who is neither the user of the path nor a site administrator,
    in the state they were called in: nothing was read from the store or
    written to it.  Behind the authentication middleware, the handler that
    the router finds first for such a request (the user handler or the
    create, update or delete handler) answers 403 as well, the histories
    are as they were, and what reaches the store is the provisioning of the
    requester that the middleware started.  The total handler, first among
    the handlers of its path, answers every request, with or without an
    Authorization header, and leaves the store as it was. *)
Theorem forbidden_without_storage :
  (forall (h : Handler) (next : M unit) (c : Context) (w : World) (uid : string),
      In h (history_handlers rt) ->
      userId (var c) = Some uid ->
      param_userId (req c) <> uid ->
      siteAdmin (var c) = Some false ->
      h next {| ctx := c; world := w |}
      = Returned (Some (failure "Not authorized" 403 (now w))) {| ctx := c; world := w |})
  /\ (forall (h : Handler) (rest : list Handler) (rq : Request) (w : World)
             (token : string) (d : DecodedIdToken.t),
        In h [usersRouter_get; historiesRouter_post rt; historiesRouter_put rt;
              historiesRouter_delete rt] ->
        bearer rq token ->
        verified rt token d ->
        isAnonymousUser rt d = false ->
        param_userId rq <> DecodedIdToken.uid d ->
        isSiteAdmin rt (DecodedIdToken.email d) = false ->
        exists msg s',
          fetch (firebaseAuthMiddleware rt :: h :: rest) rq w
          = Returned (failure msg 403 (now w)) s'
          /\ histories_table (store (world s')) = histories_table (store w)
          /\ detached (world s')
             = (DecodedIdToken.uid d, DecodedIdToken.email d) :: detached w)
  /\ (forall (rest : list Handler) (rq : Request) (w : World),
        exists s',
          fetch (historiesTotalRouter_get :: rest) rq w
          = Returned
              (answer (DTotal (JS.Number (sum_of_values (store w) # 100))) 200 (now w)) s'
          /\ store (world s') = store w).
Proof.
  split; [|split].
  - intros h next c w uid Hh Hu Hp Ha.
    apply history_handler_forbidden; [assumption|].
    now apply (notAuthorized_other c uid).
  - intros h rest rq w token d Hh Hb Hv Ha Hp Hadm.
    set (s0 := {| ctx := Hono.new_Context rq; world := w |}).
    assert (Hn : notAuthorized (ctx (admitted rt d s0)) = true).
    { apply (notAuthorized_other _ (DecodedIdToken.uid d)); cbn;
        [reflexivity | assumption | now rewrite Hadm]. }
    destruct (guarded_forbidden h (Hono.compose onError Hono.notFoundHandler rest)
                (ctx (admitted rt d s0)) (world (admitted rt d s0)) Hh Hn)
      as (msg & Hrun).
    exists msg. eexists. split.
    + eapply fetch_responded;
        [rewrite (compose_gate _ s0 token d Hb Hv Ha);
         exact (compose_answer _ _ _ _ _ Hrun eq_refl)
        |reflexivity].
    + split; reflexivity.
  - intros rest rq w. eexists. split.
    + eapply fetch_responded;
        [apply compose_answer;
         [unfold historiesTotalRouter_get, select_total; run; reflexivity | reflexivity]
        |reflexivity].
    + reflexivity.
Qed.

(** *** The authentication middleware *)

(** C9.  Without an Authorization header the middleware answers 401.  With a
    header that is not [Bearer], a space and a non-empty token it answers
    401.  With a token that the verifier decodes to an anonymous principal it
    answers 403, which no 401 response equals.  With a token that the
    verifier decodes to any other principal it calls [next()] in a state
    whose context variables are the uid, the email or null, and the
    site-admin flag of that email. *)
Theorem auth_gate :
  forall (next : M unit) (s : State),
    (authorization (req (ctx s)) = None ->
     firebaseAuthMiddleware rt next s
     = Returned (Some (failure "Authorization header required" 401 (now (world s)))) s)
    /\ (forall h,
          authorization (req (ctx s)) = Some h ->
          (forall token, token <> "" -> h <> "Bearer " ++ token) ->
          exists msg,
            firebaseAuthMiddleware rt next s
            = Returned (Some (failure msg 401 (now (world s)))) s)
    /\ (forall token d,
          bearer (req (ctx s)) token ->
          verified rt token d ->
          isAnonymousUser rt d = true ->
          firebaseAuthMiddleware rt next s
          = Returned
              (Some (failure "Anonymous users cannot access this resource" 403
                       (now (world s)))) s
          /\ forall msg t,
               failure "Anonymous users cannot access this resource" 403 (now (world s))
               <> failure msg 401 t)
    /\ (forall token d,
          bearer (req (ctx s)) token ->
          verified rt token d ->
          isAnonymousUser rt d = false ->
          firebaseAuthMiddleware rt next s
          = try_catch (next ;;; ret None)
              (fun _ => fail "Invalid or expired Firebase token" 401) (admitted rt d s)
          /\ var (ctx (admitted rt d s))
             = {| firebaseUser := Some d;
                  userId := Some (DecodedIdToken.uid d);
                  userEmail := Some (DecodedIdToken.email d);
                  siteAdmin := Some (isSiteAdmin rt (DecodedIdToken.email d)) |}).
Proof.
  intros next s. split; [|split; [|split]].
  - intros Hh. unfold firebaseAuthMiddleware. unfold bind at 1. unfold context.
    rewrite Hh. reflexivity.
  - intros h Hh Hform.
    unfold firebaseAuthMiddleware. unfold bind at 1. unfold context. rewrite Hh.
    destruct h as [|a r]; [eexists; reflexivity|].
    destruct (nth_error (JS.split " " (String a r)) 0) as [type|] eqn:E0;
      [|eexists; reflexivity].
    destruct (nth_error (JS.split " " (String a r)) 1) as [token|] eqn:E1;
      [|eexists; reflexivity].
    destruct (String.eqb_spec type "Bearer") as [->|Hty]; [|eexists; reflexivity].
    destruct (String.eqb_spec token "") as [->|Htok]; [eexists; reflexivity|].
    destruct (bearer_form _ _ E0 E1 Htok) as (rest & Hrest & Heq).
    now destruct (Hform rest Hrest).
  - intros token d (h & Hh & H0 & H1 & Htok) (Htest & Hver) Hanon. split.
    + unfold firebaseAuthMiddleware. unfold bind at 1. unfold context. rewrite Hh.
      destruct h as [|a r]; [discriminate H0|].
      rewrite H0, H1. cbn [negb orb String.eqb].
      destruct (String.eqb_spec token "") as [->|_]; [congruence|].
      replace (("Bearer" =? "Bearer")%string) with true by reflexivity.
      cbn [negb orb].
      unfold try_catch at 1, verifyIdToken. rewrite Htest, Hver. unfold bind at 1.
      cbn [lift ret]. rewrite Hanon. reflexivity.
    + intros msg t E. discriminate E.
  - intros token d Hb Hv Hanon. split.
    + now apply (gate_admits next s token d).
    + reflexivity.
Qed.

(** *** Create *)

(** C10.  A create request whose [datetime] is the empty string is answered
    with the message of a missing field, whatever its [value] and whatever
    the engine's [Date.parse] makes of the empty string: the falsy test comes
    first.  Nothing is sent to the store. *)
Theorem create_empty_datetime_is_missing :
  forall (next : M unit) (c : Context) (w : World) (body : JS.json)
         (value : option JS.json),
    notAuthorized c = false ->
    json (req c) = inr body ->
    JS.prop body "datetime" = inr (Some (JS.JStr "")) ->
    JS.prop body "value" = inr value ->
    historiesRouter_post rt next {| ctx := c; world := w |}
    = Returned (Some (failure "datetime and value are required" 400 (now w)))
        {| ctx := c; world := w |}
    /\ "datetime and value are required"
       <> "datetime must be a valid ISO 8601 date string".
Proof.
  intros next c w body value Hn Hb Hd Hv. split; [|discriminate].
  unfold historiesRouter_post. unfold bind at 1. unfold context. cbn [ctx].
  rewrite Hn, Hb. unfold bind at 1. cbn [lift ret].
  rewrite Hd. unfold bind at 1. cbn [lift ret].
  rewrite Hv. unfold bind at 1. cbn [lift ret].
  reflexivity.
Qed.

(** *** Update and delete *)

Lemma delete_run (next : M unit) (c : Context) (w : World) (id : string) :
  notAuthorized c = false ->
  uuid_in rt (param_historyId (req c)) = Some id ->
  historiesRouter_delete rt next {| ctx := c; world := w |}
  = Returned
      (Some (match filter (Engine.matches id (param_userId (req c)))
                     (histories_table (store w)) with
             | [] => failure "History not found" 404 (now w)
             | _ :: _ => answer DNull 200 (now w)
             end))
      {| ctx := c;
         world :=
           after (Delete "histories")
             {| users_table := users_table (store w);
                histories_table :=
                  filter (fun h => negb (Engine.matches id (param_userId (req c)) h))
                    (histories_table (store w)) |} w |}.
Proof.
  intros Hn Hu.
  unfold historiesRouter_delete. unfold bind at 1. unfold context. cbn [ctx].
  rewrite Hn. unfold delete_history. run. rewrite Hu. cbn.
  destruct (filter _ _); reflexivity.
Qed.

(** A text that the engine does not read as a UUID: the statement fails and
    the handler throws. *)
Lemma delete_refused (next : M unit) (c : Context) (w : World) :
  notAuthorized c = false ->
  uuid_in rt (param_historyId (req c)) = None ->
  historiesRouter_delete rt next {| ctx := c; world := w |}
  = Thrown (Engine.error "invalid input syntax for type uuid")
      {| ctx := c; world := after (Delete "histories") (store w) w |}.
Proof.
  intros Hn Hu.
  unfold historiesRouter_delete. unfold bind at 1. unfold context. cbn [ctx].
  rewrite Hn. unfold delete_history. run. rewrite Hu. reflexivity.
Qed.

Lemma isValidDatetime_true (s : string) (t : Z) :
  new_Date_of rt s = Some t -> isValidDatetime rt s = true.
Proof. intros H. unfold isValidDatetime, getTime, isNaN. now rewrite H. Qed.

Lemma put_run (next : M unit) (c : Context) (w : World) (body : JS.json)
    (t : option Z) (v : option Q) (a : Engine.Assignments) (id : string) :
  notAuthorized c = false ->
  json (req c) = inr body ->
  datetime_field rt body t ->
  value_field body v ->
  (t <> None \/ v <> None) ->
  uuid_in rt (param_historyId (req c)) = Some id ->
  read_updates rt t
    {| updates_datetime := option_map Some t;
       updates_value := option_map JS.String_of_number v;
       updates_updated_at := Some (now w) |} = inr a ->
  historiesRouter_put rt next {| ctx := c; world := w |}
  = Returned
      (Some (match filter (Engine.matches id (param_userId (req c)))
                     (histories_table (store w)) with
             | [] => failure "History not found" 404 (now w)
             | h :: _ => answer (DHistory (serializeHistory (Engine.assign a h))) 200 (now w)
             end))
      {| ctx := c;
         world :=
           after (Update "histories")
             {| users_table := users_table (store w);
                histories_table :=
                  map (touched a id (param_userId (req c))) (histories_table (store w)) |} w |}.
Proof.
  intros Hn Hb Hd Hv Hkey Hu Hr.
  unfold historiesRouter_put. unfold bind at 1. unfold context. cbn [ctx].
  rewrite Hn, Hb. unfold bind at 1. cbn [lift ret].
  destruct t as [t|]; cbn [datetime_field] in Hd.
  - destruct Hd as (sd & Hd & Ht). rewrite Hd. unfold bind at 1. cbn [lift ret].
    rewrite (isValidDatetime_true sd t Ht). cbn [negb].
    destruct v as [q|]; cbn [value_field] in Hv.
    + destruct Hv as (Hv & Hq). apply Qle_bool_pos in Hq.
      rewrite Hv. unfold bind at 1. cbn [lift ret].
      rewrite Hq. cbn [keys_length updates_datetime updates_value updates_updated_at Nat.add Nat.eqb].
      unfold update_history. run. rewrite Ht. cbn. rewrite Hu. cbn.
      match goal with
      | |- context [read_updates rt ?x ?u] =>
          replace (read_updates rt x u) with (@inr JS.Error _ a) by (symmetry; exact Hr)
      end. cbn.
      destruct (filter _ _); reflexivity.
    + rewrite Hv. unfold bind at 1. cbn [lift ret].
      cbn [keys_length updates_datetime updates_value updates_updated_at Nat.add Nat.eqb].
      unfold update_history. run. rewrite Ht. cbn. rewrite Hu. cbn.
      match goal with
      | |- context [read_updates rt ?x ?u] =>
          replace (read_updates rt x u) with (@inr JS.Error _ a) by (symmetry; exact Hr)
      end. cbn.
      destruct (filter _ _); reflexivity.
  - rewrite Hd. unfold bind at 1. cbn [lift ret].
    destruct v as [q|]; cbn [value_field] in Hv.
    + destruct Hv as (Hv & Hq). apply Qle_bool_pos in Hq.
      rewrite Hv. unfold bind at 1. cbn [lift ret].
      rewrite Hq. cbn [keys_length updates_datetime updates_value updates_updated_at Nat.add Nat.eqb].
      unfold update_history. run. rewrite Hu. cbn.
      match goal with
      | |- context [read_updates rt ?x ?u] =>
          replace (read_updates rt x u) with (@inr JS.Error _ a) by (symmetry; exact Hr)
      end. cbn.
      destruct (filter _ _); reflexivity.
    + destruct Hkey; congruence.
Qed.


(** The statement of the PUT handler, once both fields are validated. *)
Lemma put_statement_success (c : Context) (w : World) (body : JS.json)
    (t : option Z) (v : option Q) (resp : Response) (s' : State) :
  (if (keys_length {| updates_datetime := option_map Some t;
                      updates_value := option_map JS.String_of_number v;
                      updates_updated_at := None |} =? 0)%nat
   then fail "No fields to update" 400
   else
     t0 <- new_Date ;;
     result <- update_history rt
                 {| updates_datetime := option_map Some t;
                    updates_value := option_map JS.String_of_number v;
                    updates_updated_at := Some t0 |}
                 (param_historyId (req c)) (param_userId (req c)) ;;
     match result with
     | [] => fail "History not found" 404
     | h :: _ => succeed (DHistory (serializeHistory h)) 200
     end) {| ctx := c; world := w |} = Returned (Some resp) s' ->
  status resp = 200 ->
  exists a h rest id,
    (t <> None \/ v <> None)
    /\ uuid_in rt (param_historyId (req c)) = Some id
    /\ read_updates rt t
         {| updates_datetime := option_map Some t;
            updates_value := option_map JS.String_of_number v;
            updates_updated_at := Some (now w) |} = inr a
    /\ filter (Engine.matches id (param_userId (req c)))
         (histories_table (store w)) = h :: rest.
Proof.
  intros H Hs.
  destruct (keys_length _ =? 0)%nat eqn:Hk; [refuted H Hs|].
  assert (Hkey : t <> None \/ v <> None).
  { destruct t, v; first [left; discriminate | right; discriminate | discriminate Hk]. }
  unfold bind at 1 in H. unfold new_Date in H. cbn [world] in H.
  unfold update_history in H. unfold bind at 1 in H. unfold bind at 1 in H.
  assert (Hdrv : (match updates_datetime
                          {| updates_datetime := option_map Some t;
                             updates_value := option_map JS.String_of_number v;
                             updates_updated_at := Some (now w) |} with
                  | Some d => t1 <- lift (driver_date d) ;; ret (Some t1)
                  | None => ret None
                  end) {| ctx := c; world := w |}
                 = Returned t {| ctx := c; world := w |})
    by (destruct t; reflexivity).
  rewrite Hdrv in H. clear Hdrv.
  unfold bind at 1 in H. unfold send in H. cbn [ctx world] in H.
  unfold bind at 1 in H. unfold get_world in H. cbn [ctx world] in H.
  destruct (uuid_in rt (param_historyId (req c))) as [id|] eqn:Hu;
    [|refuted H Hs].
  unfold bind at 1 in H.
  match type of H with
  | context [read_updates rt ?x ?u] => destruct (read_updates rt x u) as [e|a] eqn:Hr
  end; cbn [lift ret throw] in H; [refuted H Hs|].
  exists a.
  unfold bind at 1 in H. unfold set_world in H. cbn [ctx world store histories_table] in H.
  unfold ret in H.
  destruct (filter (Engine.matches id (param_userId (req c)))
              (histories_table (store w))) as [|h rest] eqn:Hf;
    cbn [map] in H; [refuted H Hs|].
  exists h, rest, id. auto.
Qed.

Lemma put_success (next : M unit) (c : Context) (w : World) (resp : Response) (s' : State) :
  historiesRouter_put rt next {| ctx := c; world := w |} = Returned (Some resp) s' ->
  status resp = 200 ->
  exists body t v a h rest id,
    notAuthorized c = false
    /\ json (req c) = inr body
    /\ datetime_field rt body t
    /\ value_field body v
    /\ (t <> None \/ v <> None)
    /\ uuid_in rt (param_historyId (req c)) = Some id
    /\ read_updates rt t
         {| updates_datetime := option_map Some t;
            updates_value := option_map JS.String_of_number v;
            updates_updated_at := Some (now w) |} = inr a
    /\ filter (Engine.matches id (param_userId (req c)))
         (histories_table (store w)) = h :: rest.
Proof.
  intros H Hs.
  unfold historiesRouter_put in H. unfold bind at 1 in H. unfold context in H. cbn [ctx] in H.
  destruct (notAuthorized c) eqn:Hn; [refuted H Hs|].
  destruct (json (req c)) as [e|body] eqn:Hb; unfold bind at 1 in H; cbn [lift ret throw] in H;
    [refuted H Hs|].
  exists body.
  destruct (JS.prop body "datetime") as [e|dt] eqn:Hd; unfold bind at 1 in H;
    cbn [lift ret throw] in H; [refuted H Hs|].
  assert (Hdt : exists t,
             datetime_field rt body t
             /\ (match dt with
                 | Some (JS.JStr s) =>
                     if negb (isValidDatetime rt s)
                     then inl "datetime must be a valid ISO 8601 date string"
                     else inr (Some (new_Date_of rt s))
                 | None => inr None
                 | _ => inl "datetime must be a valid ISO 8601 date string"
                 end) = (inr (option_map Some t) : string + option JS.Date)).
  { destruct dt as [[| | |sd| |]|]; try refuted H Hs.
    - unfold isValidDatetime, getTime, isNaN in *.
      destruct (new_Date_of rt sd) as [t|] eqn:Ht; cbn [negb] in *; [|refuted H Hs].
      exists (Some t). split; [exists sd; auto | reflexivity].
    - exists None. split; [exact Hd | reflexivity]. }
  destruct Hdt as (t & Hdf & Hdt). rewrite Hdt in H. clear Hdt. exists t.
  destruct (JS.prop body "value") as [e|bv] eqn:Hv; unfold bind at 1 in H;
    cbn [lift ret throw] in H; [refuted H Hs|].
  assert (Hval : exists v,
             value_field body v
             /\ (match bv with
                 | Some (JS.JNum v) =>
                     if Qle_bool v 0 then inl "value must be a positive number"
                     else inr (Some (JS.String_of_number v))
                 | None => inr None
                 | _ => inl "value must be a positive number"
                 end) = (inr (option_map JS.String_of_number v) : string + option JS.Decimal)).
  { destruct bv as [[| |q| | |]|]; try refuted H Hs.
    - destruct (Qle_bool q 0) eqn:Hq; [refuted H Hs|].
      exists (Some q). split; [split; [exact Hv | now apply Qle_bool_pos] | reflexivity].
    - exists None. split; [exact Hv | reflexivity]. }
  destruct Hval as (v & Hvf & Hval). rewrite Hval in H. clear Hval. exists v.
  destruct (put_statement_success c w body t v resp s' H Hs)
    as (a & h & rest & id & Hk & Hu & Hr & Hf).
  exists a, h, rest, id. auto 10.
Qed.


Lemma filter_existsb {A} (p : A -> bool) (l : list A) :
  existsb p l = match filter p l with [] => false | _ :: _ => true end.
Proof.
  induction l as [|x l IH]; [reflexivity|]. cbn. destruct (p x); [reflexivity | exact IH].
Qed.







(** C5.  An update whose body is the JSON value [null]: reading
    [body.datetime] throws a [TypeError] before anything is validated or
    sent to the store, and behind the authentication middleware the request
    of the owner or of a site administrator is answered with the 500 of the
    error handler, not with the 400 of a body without fields. *)
Theorem update_null_body :
  (forall (next : M unit) (c : Context) (w : World),
      notAuthorized c = false ->
      json (req c) = inr JS.JNull ->
      exists msg,
        historiesRouter_put rt next {| ctx := c; world := w |}
        = Thrown {| JS.name := "TypeError"; JS.message := msg |} {| ctx := c; world := w |})
  /\ (forall (rest : list Handler) (rq : Request) (w : World) (token : string)
             (d : DecodedIdToken.t),
        bearer rq token ->
        verified rt token d ->
        isAnonymousUser rt d = false ->
        param_userId rq = DecodedIdToken.uid d
        \/ isSiteAdmin rt (DecodedIdToken.email d) = true ->
        json rq = inr JS.JNull ->
        exists s',
          fetch (firebaseAuthMiddleware rt :: historiesRouter_put rt :: rest) rq w
          = Returned (failure "Internal server error" 500 (now w)) s'
          /\ histories_table (store (world s')) = histories_table (store w)).
Proof.
  assert (Hthrow : forall (next : M unit) (c : Context) (w : World),
             notAuthorized c = false ->
             json (req c) = inr JS.JNull ->
             historiesRouter_put rt next {| ctx := c; world := w |}
             = Thrown {| JS.name := "TypeError";
                         JS.message := "null is not an object (evaluating 'body.datetime')" |}
                 {| ctx := c; world := w |}).
  { intros next c w Hn Hb.
    unfold historiesRouter_put. unfold bind at 1. unfold context. cbn [ctx].
    rewrite Hn, Hb. reflexivity. }
  split.
  - intros next c w Hn Hb. eexists. now apply Hthrow.
  - intros rest rq w token d Hb Hv Ha Hown Hnull.
    set (s0 := {| ctx := Hono.new_Context rq; world := w |}).
    assert (Hn : notAuthorized (ctx (admitted rt d s0)) = false).
    { unfold notAuthorized. cbn.
      destruct Hown as [->| ->]; [rewrite String.eqb_refl; reflexivity|].
      now rewrite andb_false_r. }
    pose proof (Hthrow (Hono.compose onError Hono.notFoundHandler rest)
                  (ctx (admitted rt d s0)) (world (admitted rt d s0)) Hn Hnull) as Hrun.
    eexists. split.
    + eapply fetch_responded;
        [rewrite (compose_gate _ s0 token d Hb Hv Ha);
         exact (compose_throw _ _ _ _ _ Hrun)
        |reflexivity].
    + reflexivity.
Qed.

(** X26.  A body with neither [datetime] nor [value], whatever else it has,
    is answered 400 "No fields to update" in the state the handler was
    called in.  After an update that answered 200 for a body without
    [datetime], the records of the identifier and owner of the path differ
    from what they were in [value] and [updated_at] only, and every other
    record and the users are as before.  After any update that answered 200,
    such a record exists and each has the clock's reading in [updated_at]. *)
Theorem partial_update :
  forall (next : M unit) (c : Context) (w : World),
    (forall body,
        notAuthorized c = false ->
        json (req c) = inr body ->
        JS.prop body "datetime" = inr None ->
        JS.prop body "value" = inr None ->
        historiesRouter_put rt next {| ctx := c; world := w |}
        = Returned (Some (failure "No fields to update" 400 (now w)))
            {| ctx := c; world := w |})
    /\ (forall body resp s',
          json (req c) = inr body ->
          JS.prop body "datetime" = inr None ->
          historiesRouter_put rt next {| ctx := c; world := w |} = Returned (Some resp) s' ->
          status resp = 200 ->
          exists cents id,
            uuid_in rt (param_historyId (req c)) = Some id
            /\ store (world s')
               = {| users_table := users_table (store w);
                    histories_table :=
                      map (fun h =>
                             if addressed id (param_userId (req c)) h
                             then {| histories.id := histories.id h;
                                     histories.user_id := histories.user_id h;
                                     histories.datetime := histories.datetime h;
                                     histories.value := cents;
                                     histories.created_at := histories.created_at h;
                                     histories.updated_at := Some (now w) |}
                             else h)
                        (histories_table (store w)) |})
    /\ (forall resp s',
          historiesRouter_put rt next {| ctx := c; world := w |} = Returned (Some resp) s' ->
          status resp = 200 ->
          exists id,
            uuid_in rt (param_historyId (req c)) = Some id
            /\ (exists h,
                   In h (histories_table (store (world s')))
                   /\ histories.id h = id
                   /\ histories.user_id h = param_userId (req c))
            /\ forall h,
                 In h (histories_table (store (world s'))) ->
                 histories.id h = id ->
                 histories.user_id h = param_userId (req c) ->
                 histories.updated_at h = Some (now w)).
Proof.
  intros next c w. split; [|split].
  - intros body Hn Hb Hd Hv.
    unfold historiesRouter_put. unfold bind at 1. unfold context. cbn [ctx].
    rewrite Hn, Hb. unfold bind at 1. cbn [lift ret].
    rewrite Hd. unfold bind at 1. cbn [lift ret].
    rewrite Hv. reflexivity.
  - intros body resp s' Hb Hd H Hs.
    destruct (put_success next c w resp s' H Hs)
      as (body' & t & v & a & h0 & rest & id & Hn & Hb' & Hdf & Hvf & Hk & Hu & Hr & Hf).
    rewrite Hb in Hb'. injection Hb' as <-.
    destruct t as [t|].
    { destruct Hdf as (sd & Hd' & _). rewrite Hd in Hd'. discriminate Hd'. }
    destruct v as [q|]; [|destruct Hk; congruence].
    rewrite (put_run next c w body None (Some q) a id Hn Hb Hdf Hvf Hk Hu Hr) in H.
    injection H as _ <-.
    unfold read_updates in Hr. cbn [option_map updates_value updates_updated_at] in Hr.
    destruct (negb _) in Hr; [discriminate Hr|].
    destruct (Engine.numeric_12_2 (JS.String_of_number q)) as [cents|]; [|discriminate Hr].
    injection Hr as <-. exists cents, id. split; [exact Hu | reflexivity].
  - intros resp s' H Hs.
    destruct (put_success next c w resp s' H Hs)
      as (body & t & v & a & h0 & rest & id & Hn & Hb & Hdf & Hvf & Hk & Hu & Hr & Hf).
    rewrite (put_run next c w body t v a id Hn Hb Hdf Hvf Hk Hu Hr) in H.
    injection H as _ <-. cbn [world after store histories_table].
    assert (Ha : Engine.set_updated_at a = Some (now w)).
    { unfold read_updates in Hr. cbn [updates_value updates_updated_at] in Hr.
      destruct (negb _) in Hr; [discriminate Hr|].
      destruct (option_map JS.String_of_number v) as [d|];
        [destruct (Engine.numeric_12_2 d); [|discriminate Hr]|];
        injection Hr as <-; reflexivity. }
    exists id. split; [exact Hu|].
    assert (Hin : In h0 (filter (Engine.matches id (param_userId (req c)))
                           (histories_table (store w))))
      by (rewrite Hf; now left).
    apply filter_In in Hin. destruct Hin as [Hin Hm].
    split.
    + exists (touched a id (param_userId (req c)) h0).
      split; [now apply in_map|].
      unfold touched. rewrite Hm. cbn [Engine.assign histories.id histories.user_id].
      unfold Engine.matches in Hm. apply andb_true_iff in Hm. destruct Hm as [E1 E2].
      split; [now apply String.eqb_eq | now apply String.eqb_eq].
    + intros h Hh Ei Eu. apply in_map_iff in Hh. destruct Hh as (h1 & <- & Hh).
      unfold touched in *.
      destruct (Engine.matches id (param_userId (req c)) h1) eqn:E.
      * cbn [Engine.assign histories.updated_at]. now rewrite Ha.
      * unfold Engine.matches in E. rewrite <- Ei, <- Eu in E.
        now rewrite !String.eqb_refl in E.
Qed.

(** *** Create and list *)

Lemma post_run (next : M unit) (c : Context) (w : World) (body : JS.json)
    (sd : string) (t : Z) (q : Q) (cents : Z) :
  notAuthorized c = false ->
  json (req c) = inr body ->
  JS.prop body "datetime" = inr (Some (JS.JStr sd)) ->
  sd <> "" ->
  JS.prop body "value" = inr (Some (JS.JNum q)) ->
  (0 < q)%Q ->
  new_Date_of rt sd = Some t ->
  Engine.numeric_12_2 (JS.String_of_number q) = Some cents ->
  storable rt w (param_userId (req c)) t ->
  historiesRouter_post rt next {| ctx := c; world := w |}
  = Returned
      (Some (answer (DHistory (serializeHistory (inserted rt w (param_userId (req c)) t cents)))
               201 (now w)))
      {| ctx := c; world := after_insert w (inserted rt w (param_userId (req c)) t cents) |}.
Proof.
  intros Hn Hb Hd Hsd Hv Hq Ht Hnum (Hts & Hfk & Hpk).
  apply Qle_bool_pos in Hq.
  unfold historiesRouter_post. unfold bind at 1. unfold context. cbn [ctx].
  rewrite Hn, Hb. unfold bind at 1. cbn [lift ret].
  rewrite Hd. unfold bind at 1. cbn [lift ret].
  rewrite Hv. unfold bind at 1. cbn [lift ret].
  cbn [JS.falsy orb].
  destruct (String.eqb_spec sd "") as [E|_]; [contradiction|]. cbn [orb].
  rewrite Hq. rewrite (isValidDatetime_true sd t Ht). cbn [negb].
  unfold insert_history. rewrite Ht. run.
  rewrite Hts. cbn [negb]. rewrite Hnum. rewrite Hfk. cbn [negb]. rewrite Hpk.
  reflexivity.
Qed.

Lemma get_run (next : M unit) (c : Context) (w : World) :
  notAuthorized c = false ->
  offset_of (query (req c) "offset") <= Engine.max_bigint ->
  historiesRouter_get next {| ctx := c; world := w |}
  = Returned (Some (answer (DHistories (map serializeHistory (page c w))) 200 (now w)))
      {| ctx := c; world := after (Select "histories") (store w) w |}.
Proof.
  intros Hn Ho.
  unfold historiesRouter_get. unfold bind at 1. unfold context. cbn [ctx].
  rewrite Hn. unfold select_histories. run. unfold Engine.max_bigint in Ho.
  match goal with |- context [?a <? ?b] => destruct (Z.ltb_spec a b) end; [lia|].
  reflexivity.
Qed.

(** An offset that is no bigint: the statement fails and the handler
    throws. *)
Lemma get_refused (next : M unit) (c : Context) (w : World) :
  notAuthorized c = false ->
  Engine.max_bigint < offset_of (query (req c) "offset") ->
  historiesRouter_get next {| ctx := c; world := w |}
  = Thrown (Engine.error "value is out of range for type bigint")
      {| ctx := c; world := after (Select "histories") (store w) w |}.
Proof.
  intros Hn Ho.
  unfold historiesRouter_get. unfold bind at 1. unfold context. cbn [ctx].
  rewrite Hn. unfold select_histories. run. unfold Engine.max_bigint in Ho.
  match goal with |- context [?a <? ?b] => destruct (Z.ltb_spec a b) end; [|lia].
  reflexivity.
Qed.

(** C6, as the code has it.  For an authorized create request whose body has
    the properties [dt] and [v] for [datetime] and [value]: when [dt] is
    absent or falsy (null, the empty string, 0, false) or [v] is absent or
    null, the answer is 400 with the message of a missing field; otherwise,
    when [v] is not a number above zero, it is 400; otherwise, when [dt] is
    not a string that [new Date] reads, it is 400 with a message that differs
    from the one of a missing field; otherwise, when the engine takes the
    row, the row is inserted with the user of the path as its owner and the
    answer is 201 with that row serialized. *)
Theorem create_validation :
  forall (next : M unit) (c : Context) (w : World) (body : JS.json)
         (dt v : option JS.json),
    notAuthorized c = false ->
    json (req c) = inr body ->
    JS.prop body "datetime" = inr dt ->
    JS.prop body "value" = inr v ->
    (JS.falsy dt = true \/ v = None \/ v = Some JS.JNull ->
     historiesRouter_post rt next {| ctx := c; world := w |}
     = Returned (Some (failure "datetime and value are required" 400 (now w)))
         {| ctx := c; world := w |})
    /\ (JS.falsy dt = false ->
        forall j,
          v = Some j -> j <> JS.JNull ->
          (forall q, j = JS.JNum q -> (q <= 0)%Q) ->
          historiesRouter_post rt next {| ctx := c; world := w |}
          = Returned (Some (failure "value must be a positive number" 400 (now w)))
              {| ctx := c; world := w |})
    /\ (JS.falsy dt = false ->
        forall q,
          v = Some (JS.JNum q) -> (0 < q)%Q ->
          (forall sd, dt = Some (JS.JStr sd) -> isValidDatetime rt sd = false) ->
          historiesRouter_post rt next {| ctx := c; world := w |}
          = Returned
              (Some (failure "datetime must be a valid ISO 8601 date string" 400 (now w)))
              {| ctx := c; world := w |}
          /\ "datetime must be a valid ISO 8601 date string"
             <> "datetime and value are required")
    /\ (forall sd q t cents,
          dt = Some (JS.JStr sd) -> sd <> "" ->
          v = Some (JS.JNum q) -> (0 < q)%Q ->
          new_Date_of rt sd = Some t ->
          Engine.numeric_12_2 (JS.String_of_number q) = Some cents ->
          storable rt w (param_userId (req c)) t ->
          historiesRouter_post rt next {| ctx := c; world := w |}
          = Returned
              (Some (answer
                       (DHistory
                          (serializeHistory (inserted rt w (param_userId (req c)) t cents)))
                       201 (now w)))
              {| ctx := c;
                 world := after_insert w (inserted rt w (param_userId (req c)) t cents) |}
          /\ histories.user_id (inserted rt w (param_userId (req c)) t cents)
             = param_userId (req c)).
Proof.
  intros next c w body dt v Hn Hb Hd Hv.
  assert (Hstart :
            historiesRouter_post rt next {| ctx := c; world := w |}
            = (if JS.falsy dt
                  || match v with None | Some JS.JNull => true | Some _ => false end
               then fail "datetime and value are required" 400
               else
                 match v with
                 | Some (JS.JNum value) =>
                     if Qle_bool value 0 then fail "value must be a positive number" 400
                     else
                       match dt with
                       | Some (JS.JStr datetime) =>
                           if negb (isValidDatetime rt datetime) then
                             fail "datetime must be a valid ISO 8601 date string" 400
                           else
                             result <- insert_history rt (param_userId (req c))
                                         (new_Date_of rt datetime)
                                         (JS.String_of_number value) ;;
                             match result with
                             | h :: _ => succeed (DHistory (serializeHistory h)) 201
                             | [] =>
                                 throw {| JS.name := "TypeError";
                                          JS.message := "undefined is not an object (evaluating 'h.id')" |}
                             end
                       | _ => fail "datetime must be a valid ISO 8601 date string" 400
                       end
                 | _ => fail "value must be a positive number" 400
                 end) {| ctx := c; world := w |}).
  { unfold historiesRouter_post. unfold bind at 1. unfold context. cbn [ctx].
    rewrite Hn, Hb. unfold bind at 1. cbn [lift ret].
    rewrite Hd. unfold bind at 1. cbn [lift ret].
    rewrite Hv. unfold bind at 1. cbn [lift ret]. reflexivity. }
  split; [|split; [|split]].
  - intros Hmiss. rewrite Hstart.
    destruct Hmiss as [Hf|[->| ->]]; [rewrite Hf|..]; cbn [orb];
      rewrite ?orb_true_r; reflexivity.
  - intros Hf j -> Hj Hbad. rewrite Hstart, Hf. cbn [orb].
    destruct j as [| |q| | |]; try reflexivity; [congruence|].
    assert (Hq : Qle_bool q 0 = true) by (apply Qle_bool_iff; now apply Hbad).
    now rewrite Hq.
  - intros Hf q -> Hq Hbad. split; [|discriminate].
    rewrite Hstart, Hf. cbn [orb].
    apply Qle_bool_pos in Hq. rewrite Hq.
    destruct dt as [[| | |sd| |]|]; try reflexivity.
    now rewrite (Hbad sd eq_refl).
  - intros sd q t cents -> Hsd -> Hq Ht Hnum Hst. split; [|reflexivity].
    now apply (post_run next c w body sd t q cents).
Qed.

(** C7, as the code has it.  For a create request with a [value] above zero
    that has at most two fractional digits and fewer than ten integer
    digits, a [datetime] that [new Date] reads and a row the engine takes:
    the create answers 201, and a list request for the same user that
    starts at offset 0 and whose limit exceeds the number of records the
    user had answers 200 with a record whose [value] equals the input and
    whose [datetime] is the ISO rendering of the instant. *)
Theorem create_then_list :
  forall (next : M unit) (c c' : Context) (w : World) (body : JS.json)
         (sd : string) (t : Z) (q : Q) (cents : Z),
    notAuthorized c = false ->
    json (req c) = inr body ->
    JS.prop body "datetime" = inr (Some (JS.JStr sd)) ->
    sd <> "" ->
    JS.prop body "value" = inr (Some (JS.JNum q)) ->
    (0 < q)%Q ->
    (q == cents # 100)%Q ->
    cents < 10 ^ 12 ->
    new_Date_of rt sd = Some t ->
    storable rt w (param_userId (req c)) t ->
    notAuthorized c' = false ->
    param_userId (req c') = param_userId (req c) ->
    offset_of (query (req c') "offset") = 0 ->
    Z.of_nat (List.length
                (filter (fun h => String.eqb (histories.user_id h) (param_userId (req c)))
                   (histories_table (store w))))
    < limit_of (query (req c') "limit") ->
    exists (created : History.t) (s1 s2 : State) (l : list History.t),
      historiesRouter_post rt next {| ctx := c; world := w |}
      = Returned (Some (answer (DHistory created) 201 (now w))) s1
      /\ historiesRouter_get next {| ctx := c'; world := world s1 |}
         = Returned (Some (answer (DHistories l) 200 (now w))) s2
      /\ In created l
      /\ (History.value created == q)%Q
      /\ History.datetime created = JS.toISOString t.
Proof.
  intros next c c' w body sd t q cents Hn Hb Hd Hsd Hv Hq Hcents Hfit Ht Hst
         Hn' Huid Hoff Hlim.
  pose proof (numeric_hundredths q cents Hq Hcents Hfit) as Hnum.
  set (h := inserted rt w (param_userId (req c)) t cents).
  exists (serializeHistory h). do 2 eexists. exists (map serializeHistory (page c' (after_insert w h))).
  split; [exact (post_run next c w body sd t q cents Hn Hb Hd Hsd Hv Hq Ht Hnum Hst)|].
  split; [apply (get_run next c' (after_insert w h) Hn'); rewrite Hoff; discriminate|].
  split; [|split].
  - apply in_map. unfold page. rewrite Hoff, Huid. cbn [Z.to_nat skipn].
    cbn [after_insert store histories_table].
    rewrite firstn_all2.
    + apply order_by_In. apply filter_In. split.
      * apply in_or_app. right. now left.
      * cbn [h inserted histories.user_id]. apply String.eqb_refl.
    + rewrite order_by_length, filter_app, length_app. cbn [filter].
      cbn [h inserted histories.user_id]. rewrite String.eqb_refl.
      cbn [List.length]. lia.
  - cbn [serializeHistory History.value]. unfold histories.value_text.
    cbn [h inserted histories.value].
    assert (0 < cents) by (rewrite Hcents in Hq; unfold Qlt in Hq; cbn in Hq; lia).
    rewrite Number_hundredths by lia. now symmetry.
  - reflexivity.
Qed.

End Properties.

Lemma isValidDatetime_spec_witness :
  isValidDatetime Sample.runtime "2024-01-15T10:30:00" = true
  /\ isValidDatetime Sample.runtime "not-a-date" = false.
Proof.
  assert (Hzone : forall t, Z.abs (UTC Sample.runtime t - t) <= JS.msPerDay).
  { intros t. simpl. rewrite Z.sub_diag. unfold JS.msPerDay. simpl. lia. }
  pose proof (isValidDatetime_spec Sample.runtime eq_refl eq_refl Hzone) as H.
  split; [apply H | apply H].
Defined.

Lemma alice_bearer (uid hid : string) (q : string -> option string) (b : JS.json) :
  bearer (Sample.request (Some "Bearer alice-token") uid hid q b) "alice-token".
Proof.
  exists "Bearer alice-token". repeat split; discriminate.
Defined.

Lemma alice_verified : verified Sample.runtime "alice-token" Sample.alice.
Proof. split; reflexivity. Defined.

Lemma auth_gate_witness :
  var (ctx (admitted Sample.runtime Sample.alice
              {| ctx := Hono.new_Context
                          (Sample.request (Some "Bearer alice-token") "alice" ""
                             Sample.no_query JS.JNull);
                 world := Sample.world |}))
  = {| firebaseUser := Some Sample.alice;
       userId := Some "alice";
       userEmail := Some (Some "alice@example.com");
       siteAdmin := Some false |}.
Proof.
  exact (proj2 (proj2 (proj2 (proj2
           (auth_gate Sample.runtime (ret tt)
              {| ctx := Hono.new_Context
                          (Sample.request (Some "Bearer alice-token") "alice" ""
                             Sample.no_query JS.JNull);
                 world := Sample.world |}))) "alice-token" Sample.alice
           (alice_bearer _ _ _ _) alice_verified eq_refl)).
Defined.

Lemma create_empty_datetime_is_missing_witness :
  isValidDatetime Sample.lenient_runtime "" = true
  /\ historiesRouter_post Sample.lenient_runtime (ret tt)
       {| ctx := Sample.alice_context
                   (Sample.request (Some "Bearer alice-token") "alice" "" Sample.no_query
                      (Sample.fields (Some (JS.JStr "")) (Some (JS.JNum 5))));
          world := Sample.world |}
     = Returned (Some (failure "datetime and value are required" 400 (now Sample.world)))
         {| ctx := Sample.alice_context
                     (Sample.request (Some "Bearer alice-token") "alice" "" Sample.no_query
                        (Sample.fields (Some (JS.JStr "")) (Some (JS.JNum 5))));
            world := Sample.world |}.
Proof.
  split; [reflexivity|].
  apply (create_empty_datetime_is_missing Sample.lenient_runtime (ret tt) _ _
           (Sample.fields (Some (JS.JStr "")) (Some (JS.JNum 5))) (Some (JS.JNum 5)));
    reflexivity.
Defined.

Lemma unhandled_error_response_witness :
  exists s',
    fetch [firebaseAuthMiddleware Sample.runtime; historiesRouter_post Sample.runtime]
      (Sample.request (Some "Bearer alice-token") "alice" "" Sample.no_query JS.JNull)
      Sample.world
    = Returned (failure "Internal server error" 500 (now Sample.world)) s'.
Proof.
  pose (rq := Sample.request (Some "Bearer alice-token") "alice" "" Sample.no_query JS.JNull).
  pose (s1 := admitted Sample.runtime Sample.alice
                {| ctx := Hono.new_Context rq; world := Sample.world |}).
  pose (e := {| JS.name := "TypeError";
                JS.message := "null is not an object (evaluating 'body.datetime')" |}).
  exists (caught e s1).
  exact (proj2 (proj2 (unhandled_error_response Sample.runtime
                         (historiesRouter_post Sample.runtime) [] rq Sample.world))
           "alice-token" Sample.alice s1 e
           (alice_bearer _ _ _ _) alice_verified eq_refl eq_refl).
Defined.

Lemma forbidden_without_storage_witness :
  exists msg s',
    fetch [firebaseAuthMiddleware Sample.runtime; historiesRouter_delete Sample.runtime]
      (Sample.request (Some "Bearer alice-token") "bob" Sample.bob_id Sample.no_query
         JS.JNull)
      Sample.world
    = Returned (failure msg 403 (now Sample.world)) s'
    /\ histories_table (store (world s')) = histories_table (store Sample.world)
    /\ detached (world s')
       = (DecodedIdToken.uid Sample.alice, DecodedIdToken.email Sample.alice)
         :: detached Sample.world.
Proof.
  apply (proj1 (proj2 (forbidden_without_storage Sample.runtime))
           (historiesRouter_delete Sample.runtime) []
           (Sample.request (Some "Bearer alice-token") "bob" Sample.bob_id Sample.no_query
              JS.JNull)
           Sample.world "alice-token" Sample.alice).
  - right. right. right. left. reflexivity.
  - apply alice_bearer.
  - apply alice_verified.
  - reflexivity.
  - discriminate.
  - reflexivity.
Defined.



Lemma update_null_body_witness :
  exists s',
    fetch [firebaseAuthMiddleware Sample.runtime; historiesRouter_put Sample.runtime]
      (Sample.request (Some "Bearer alice-token") "alice" Sample.alice_id Sample.no_query
         JS.JNull)
      Sample.world
    = Returned (failure "Internal server error" 500 (now Sample.world)) s'
    /\ histories_table (store (world s')) = histories_table (store Sample.world).
Proof.
  exact (proj2 (update_null_body Sample.runtime) []
           (Sample.request (Some "Bearer alice-token") "alice" Sample.alice_id
              Sample.no_query JS.JNull)
           Sample.world "alice-token" Sample.alice
           (alice_bearer _ _ _ _) alice_verified eq_refl (or_introl eq_refl) eq_refl).
Defined.

Lemma partial_update_witness :
  exists resp s' cents,
    historiesRouter_put Sample.runtime (ret tt)
      {| ctx := Sample.alice_context
                  (Sample.request (Some "Bearer alice-token") "alice" Sample.alice_id Sample.no_query
                     (Sample.fields None (Some (JS.JNum 99))));
         world := Sample.world |}
    = Returned (Some resp) s'
    /\ status resp = 200
    /\ histories_table (store (world s'))
       = [Sample.bob_history;
          {| histories.id := Sample.alice_id; histories.user_id := "alice";
             histories.datetime := histories.datetime Sample.alice_history;
             histories.value := cents;
             histories.created_at := histories.created_at Sample.alice_history;
             histories.updated_at := Some (now Sample.world) |}].
Proof.
  assert (E : exists resp s',
             historiesRouter_put Sample.runtime (ret tt)
               {| ctx := Sample.alice_context
                           (Sample.request (Some "Bearer alice-token") "alice" Sample.alice_id
                              Sample.no_query (Sample.fields None (Some (JS.JNum 99))));
                  world := Sample.world |}
             = Returned (Some resp) s'
             /\ status resp = 200)
    by (do 2 eexists; split; [vm_compute; reflexivity | reflexivity]).
  destruct E as (resp & s' & E & Hs).
  destruct (proj1 (proj2
              (partial_update Sample.runtime (ret tt)
                 (Sample.alice_context
                    (Sample.request (Some "Bearer alice-token") "alice" Sample.alice_id
                       Sample.no_query (Sample.fields None (Some (JS.JNum 99)))))
                 Sample.world))
              (Sample.fields None (Some (JS.JNum 99))) resp s' eq_refl eq_refl E Hs)
    as (cents & id & Hid & Hc).
  exists resp, s', cents. split; [exact E|]. split; [exact Hs|].
  rewrite Hc. vm_compute in Hid. injection Hid as <-. reflexivity.
Defined.

Lemma create_validation_witness :
  exists s',
    historiesRouter_post Sample.runtime (ret tt)
      {| ctx := Sample.alice_context
                  (Sample.request (Some "Bearer alice-token") "alice" "" Sample.no_query
                     (Sample.fields (Some (JS.JStr "2024-01-15")) (Some (JS.JNum (425 # 10)))));
         world := Sample.world |}
    = Returned
        (Some (answer
                 (DHistory
                    {| History.id := "00000000-0000-4000-8000-000000000000"; History.user_id := "alice";
                       History.datetime := "2024-01-15T00:00:00.000Z";
                       History.value := 4250 # 100;
                       History.created_at := Some "2024-06-01T12:00:00.000Z";
                       History.updated_at := Some "2024-06-01T12:00:00.000Z" |})
                 201 (now Sample.world))) s'.
Proof.
  pose proof (create_validation Sample.runtime (ret tt)
                (Sample.alice_context
                   (Sample.request (Some "Bearer alice-token") "alice" "" Sample.no_query
                      (Sample.fields (Some (JS.JStr "2024-01-15"))
                         (Some (JS.JNum (425 # 10))))))
                Sample.world
                (Sample.fields (Some (JS.JStr "2024-01-15")) (Some (JS.JNum (425 # 10))))
                (Some (JS.JStr "2024-01-15")) (Some (JS.JNum (425 # 10)))
                eq_refl eq_refl eq_refl eq_refl) as H.
  destruct H as (_ & _ & _ & H).
  assert (Hsd : "2024-01-15" <> "") by discriminate.
  assert (Hq : (0 < 425 # 10)%Q) by reflexivity.
  assert (Hst : storable Sample.runtime Sample.world "alice" 1705276800000)
    by (repeat split).
  eexists.
  exact (proj1 (H "2024-01-15" (425 # 10) 1705276800000 4250
                  eq_refl Hsd eq_refl Hq eq_refl eq_refl Hst)).
Defined.

(** C6 as stated fails at the body [{datetime: "", value: 5}]: its
    [datetime] is present and is not a date string, and the answer carries
    the message of a missing field. *)
Lemma create_validation_counterexample :
  JS.prop (Sample.fields (Some (JS.JStr "")) (Some (JS.JNum 5))) "datetime"
  = inr (Some (JS.JStr ""))
  /\ isValidDatetime Sample.runtime "" = false
  /\ historiesRouter_post Sample.runtime (ret tt)
       {| ctx := Sample.alice_context
                   (Sample.request (Some "Bearer alice-token") "alice" "" Sample.no_query
                      (Sample.fields (Some (JS.JStr "")) (Some (JS.JNum 5))));
          world := Sample.world |}
     = Returned (Some (failure "datetime and value are required" 400 (now Sample.world)))
         {| ctx := Sample.alice_context
                     (Sample.request (Some "Bearer alice-token") "alice" "" Sample.no_query
                        (Sample.fields (Some (JS.JStr "")) (Some (JS.JNum 5))));
            world := Sample.world |}.
Proof. repeat split. Qed.

Lemma create_then_list_witness :
  exists created s1 s2 l,
    historiesRouter_post Sample.runtime (ret tt)
      {| ctx := Sample.alice_context
                  (Sample.request (Some "Bearer alice-token") "alice" "" Sample.no_query
                     (Sample.fields (Some (JS.JStr "2024-01-15T10:30:00.000Z"))
                        (Some (JS.JNum (425 # 10)))));
         world := Sample.world |}
    = Returned (Some (answer (DHistory created) 201 (now Sample.world))) s1
    /\ historiesRouter_get (ret tt)
         {| ctx := Sample.alice_context
                     (Sample.request (Some "Bearer alice-token") "alice" "" Sample.no_query
                        JS.JNull);
            world := world s1 |}
       = Returned (Some (answer (DHistories l) 200 (now Sample.world))) s2
    /\ In created l
    /\ (History.value created == 425 # 10)%Q
    /\ History.datetime created = JS.toISOString 1705314600000.
Proof.
  assert (Hsd : "2024-01-15T10:30:00.000Z" <> "") by discriminate.
  assert (Hq : (0 < 425 # 10)%Q) by reflexivity.
  assert (Hc : (425 # 10 == 4250 # 100)%Q) by reflexivity.
  assert (Hfit : 4250 < 10 ^ 12) by reflexivity.
  assert (Hst : storable Sample.runtime Sample.world "alice" 1705314600000)
    by (repeat split).
  assert (Hlim : Z.of_nat
                   (List.length
                      (filter (fun h => String.eqb (histories.user_id h) "alice")
                         (histories_table (store Sample.world))))
                 < limit_of (Sample.no_query "limit")) by reflexivity.
  exact (create_then_list Sample.runtime (ret tt)
           (Sample.alice_context
              (Sample.request (Some "Bearer alice-token") "alice" "" Sample.no_query
                 (Sample.fields (Some (JS.JStr "2024-01-15T10:30:00.000Z"))
                    (Some (JS.JNum (425 # 10))))))
           (Sample.alice_context
              (Sample.request (Some "Bearer alice-token") "alice" "" Sample.no_query
                 JS.JNull))
           Sample.world
           (Sample.fields (Some (JS.JStr "2024-01-15T10:30:00.000Z"))
              (Some (JS.JNum (425 # 10))))
           "2024-01-15T10:30:00.000Z" 1705314600000 (425 # 10) 4250
           eq_refl eq_refl eq_refl Hsd eq_refl Hq Hc Hfit eq_refl Hst
           eq_refl eq_refl eq_refl Hlim).
Defined.

(** C7 as stated fails at the value 0.001: the column keeps two fractional
    digits, the create answers 201 and the list that follows it returns the
    record with the value 0. *)
Lemma create_then_list_counterexample :
  (0 < 1 # 1000)%Q
  /\ isValidDatetime Sample.runtime "2024-01-15" = true
  /\ exists created s1 s2 l,
       historiesRouter_post Sample.runtime (ret tt)
         {| ctx := Sample.alice_context
                     (Sample.request (Some "Bearer alice-token") "alice" "" Sample.no_query
                        (Sample.fields (Some (JS.JStr "2024-01-15"))
                           (Some (JS.JNum (1 # 1000)))));
            world := Sample.world_of [] |}
       = Returned (Some (answer (DHistory created) 201 (now Sample.world))) s1
       /\ historiesRouter_get (ret tt)
            {| ctx := Sample.alice_context
                        (Sample.request (Some "Bearer alice-token") "alice" ""
                           Sample.no_query JS.JNull);
               world := world s1 |}
          = Returned (Some (answer (DHistories l) 200 (now Sample.world))) s2
       /\ l = [created]
       /\ (History.value created == 0)%Q
       /\ forall r, In r l -> ~ (History.value r == 1 # 1000)%Q.
Proof.
  split; [reflexivity|]. split; [reflexivity|].
  do 4 eexists.
  split; [cbv; reflexivity|]. split; [cbv; reflexivity|]. split; [reflexivity|].
  split; [reflexivity|].
  intros r [<-|[]] E. discriminate E.
Qed.

(* ================================================================== *)
(** ** The repository's tests, run on the model *)
(* ================================================================== *)

(** routes/histories.test.ts, "pagination logic". *)
Example pagination_tests :
  limit_of None = 50
  /\ offset_of None = 0
  /\ orderDirection_of None = desc
  /\ limit_of (Some "20") = 20
  /\ limit_of (Some "500") = 200
  /\ limit_of (Some "0") = DEFAULT_LIMIT
  /\ limit_of (Some "-5") = 1
  /\ offset_of (Some "100") = 100
  /\ offset_of (Some "-10") = 0
  /\ orderDirection_of (Some "asc") = asc
  /\ orderDirection_of (Some "invalid") = desc
  /\ limit_of (Some "abc") = DEFAULT_LIMIT
  /\ offset_of (Some "abc") = 0.
Proof. repeat split. Qed.

(** Numbers beyond what a double holds exactly: a numeral above 2^53 reads
    as the nearest double, a sum of sixteen digits comes back as the
    rendering of the nearest double, and an offset of 2^63 is refused by
    the engine. *)
Example number_tests :
  JS.parseInt "9007199254740993" = Some 9007199254740992
  /\ offset_of (Some "9223372036854775807") = 9223372036854775808
  /\ (JS.Number (9007199254740993 # 100) == 9007199254740994 # 100)%Q
  /\ JS.Number (999999999999999 # 100) = 999999999999999 # 100
  /\ (JS.Number (1 # 10) == 1 # 10)%Q
  /\ (exists e s,
        historiesRouter_get (ret tt)
          {| ctx := Sample.alice_context
                      (Sample.request (Some "Bearer alice-token") "alice" ""
                         (paging "10" "9223372036854775808") JS.JNull);
             world := Sample.world |}
        = Thrown e s).
Proof.
  repeat split; try (vm_compute; reflexivity).
  do 2 eexists. vm_compute. reflexivity.
Qed.

(** middleware/firebaseAuth.test.ts, "authorization header parsing". *)
Example header_tests :
  JS.split " " "Bearer abc123token" = ["Bearer"; "abc123token"]
  /\ JS.split " " "Basic abc123" = ["Basic"; "abc123"]
  /\ JS.split " " "Bearer" = ["Bearer"].
Proof. repeat split. Qed.

(** lib/serializers.test.ts, "serializeHistory" and "isValidDatetime", with
    the dates of the test read by [new Date]. *)
Example serializer_tests :
  new_Date_of Sample.runtime "2024-01-15T10:30:00.000Z" = Some 1705314600000
  /\ new_Date_of Sample.runtime "2024-01-15T11:00:00.000Z" = Some 1705316400000
  /\ serializeHistory
       {| histories.id := "uuid-1"; histories.user_id := "user-1";
          histories.datetime := 1705314600000; histories.value := 4250;
          histories.created_at := Some 1705314600000;
          histories.updated_at := Some 1705316400000 |}
     = {| History.id := "uuid-1"; History.user_id := "user-1";
          History.datetime := "2024-01-15T10:30:00.000Z";
          History.value := 4250 # 100;
          History.created_at := Some "2024-01-15T10:30:00.000Z";
          History.updated_at := Some "2024-01-15T11:00:00.000Z" |}
  /\ (4250 # 100 == 425 # 10)%Q
  /\ isValidDatetime Sample.runtime "2024-01-15T10:30:00.000Z" = true
  /\ isValidDatetime Sample.runtime "2024-01-15" = true
  /\ isValidDatetime Sample.runtime "2024-01-15T10:30:00" = true
  /\ isValidDatetime Sample.runtime "not-a-date" = false
  /\ isValidDatetime Sample.runtime "" = false
  /\ isValidDatetime Sample.runtime "hello world" = false.
Proof. repeat split. Qed.

(** The calendar of [toISOString] inverts [MakeDay] on every day from 1970
    to 2039 and around the turns of centuries, and the rendering of an
    instant parses back to it. *)
Example calendar_tests :
  JS.civil 25566 = (2039, 12, 31)
  /\ every_day (Z.to_nat 25567) 0
       (fun day =>
          let '(y, m, d) := JS.civil day in
          (JS.MakeDay y m d =? day) && (1 <=? m) && (m <=? 12)
          && (1 <=? d) && (d <=? JS.DaysInMonth y m)) = true
  /\ map JS.civil [-25509; -25508; 11016; 11017; 47540; 47541; -719528; -719529]
     = [(1900, 2, 28); (1900, 3, 1); (2000, 2, 29); (2000, 3, 1);
        (2100, 2, 28); (2100, 3, 1); (0, 1, 1); (-1, 12, 31)]
  /\ map (fun '(y, m, d) => JS.MakeDay y m d)
       [(1900, 2, 28); (1900, 3, 1); (2000, 2, 29); (2000, 3, 1);
        (2100, 2, 28); (2100, 3, 1); (0, 1, 1); (-1, 12, 31)]
     = [-25509; -25508; 11016; 11017; 47540; 47541; -719528; -719529]
  /\ map (fun t => JS.Date_parse (fun _ => None) (fun t => t) (JS.toISOString t))
       [0; -1; 1705314600000; 951782400000; -62198755200000; 8640000000000000;
        -8640000000000000]
     = map Some
         [0; -1; 1705314600000; 951782400000; -62198755200000; 8640000000000000;
          -8640000000000000].
Proof.
  split; [reflexivity|].
  split; [vm_compute; reflexivity|].
  repeat split.
Qed.

(** [GET /api/v1/histories/total] without an Authorization header. *)
Example total_is_public :
  exists s',
    fetch (total_route Sample.runtime)
      (Sample.request None "" "" Sample.no_query JS.JNull) Sample.world
    = Returned (answer (DTotal (14250 # 100)) 200 (now Sample.world)) s'.
Proof. eexists. reflexivity. Qed.

(* ================================================================== *)
(** ** Further properties of the handlers and of the configuration *)
(* ================================================================== *)

Section Gate.
Variable rt : Runtime.

(** *** The authentication middleware, for every request *)

Lemma gate_refuses (next : M unit) (s : State) (token : string) :
  bearer (req (ctx s)) token ->
  (isTestMode rt = true \/ exists e, cachedVerifier_verify rt token = inl e) ->
  firebaseAuthMiddleware rt next s
  = Returned (Some (failure "Invalid or expired Firebase token" 401 (now (world s)))) s.
Proof.
  intros (h & Hh & H0 & H1 & Htok) Hbad.
  unfold firebaseAuthMiddleware. unfold bind at 1. unfold context. rewrite Hh.
  destruct h as [|a r]; [discriminate H0|].
  rewrite H0, H1. cbn [negb orb String.eqb].
  destruct (String.eqb_spec token "") as [->|_]; [congruence|].
  replace (("Bearer" =? "Bearer")%string) with true by reflexivity.
  cbn [negb orb].
  unfold try_catch at 1, verifyIdToken.
  destruct (isTestMode rt) eqn:Htest.
  - reflexivity.
  - destruct Hbad as [Hbad|(e & He)]; [discriminate Hbad|].
    rewrite He. reflexivity.
Qed.

(** The middleware either admits the request or answers it with 401 or 403
    in the state it was called in, whatever [next] is. *)
Lemma gate_decides (s : State) :
  (exists token d,
      bearer (req (ctx s)) token /\ verified rt token d /\ isAnonymousUser rt d = false)
  \/ (exists msg st,
         (st = 401 \/ st = 403)
         /\ forall next,
              firebaseAuthMiddleware rt next s
              = Returned (Some (failure msg st (now (world s)))) s).
Proof.
  assert (Hfmt : forall h,
             authorization (req (ctx s)) = Some h ->
             (h = ""
              \/ nth_error (JS.split " " h) 0 = None
              \/ nth_error (JS.split " " h) 1 = None
              \/ (exists ty tok, nth_error (JS.split " " h) 0 = Some ty
                                 /\ nth_error (JS.split " " h) 1 = Some tok
                                 /\ (ty <> "Bearer" \/ tok = ""))) ->
             exists msg st,
               (st = 401 \/ st = 403)
               /\ forall next,
                    firebaseAuthMiddleware rt next s
                    = Returned (Some (failure msg st (now (world s)))) s).
  { intros h Hh Hbad.
    destruct h as [|a r].
    { exists "Authorization header required", 401. split; [now left|].
      intros next. unfold firebaseAuthMiddleware. unfold bind at 1. unfold context.
      now rewrite Hh. }
    exists "Invalid authorization format. Use: Bearer <token>", 401.
    split; [now left|]. intros next.
    unfold firebaseAuthMiddleware. unfold bind at 1. unfold context. rewrite Hh.
    destruct Hbad as [E|[E|[E|(ty & tok & E0 & E1 & Hor)]]].
    - discriminate E.
    - now rewrite E.
    - rewrite E. now destruct (nth_error _ 0).
    - rewrite E0, E1. destruct Hor as [Hty| ->].
      + destruct (String.eqb_spec ty "Bearer") as [E|_]; [contradiction|]. reflexivity.
      + now rewrite orb_true_r. }
  destruct (authorization (req (ctx s))) as [h|] eqn:Hh.
  2:{ right. exists "Authorization header required", 401. split; [now left|].
      intros next. unfold firebaseAuthMiddleware. unfold bind at 1. unfold context.
      now rewrite Hh. }
  destruct (nth_error (JS.split " " h) 0) as [type|] eqn:E0;
    [|right; apply (Hfmt h eq_refl); auto].
  destruct (nth_error (JS.split " " h) 1) as [token|] eqn:E1;
    [|right; apply (Hfmt h eq_refl); auto].
  destruct (String.eqb_spec type "Bearer") as [->|Hty];
    [|right; apply (Hfmt h eq_refl); do 3 right; exists type, token; auto].
  destruct (String.eqb_spec token "") as [->|Htok];
    [right; apply (Hfmt h eq_refl); do 3 right; exists "Bearer", ""; auto|].
  assert (Hb : bearer (req (ctx s)) token) by (exists h; auto).
  destruct (isTestMode rt) eqn:Htest.
  { right. exists "Invalid or expired Firebase token", 401. split; [now left|].
    intros next. apply (gate_refuses next s token Hb). now left. }
  destruct (cachedVerifier_verify rt token) as [e|d] eqn:Hver.
  { right. exists "Invalid or expired Firebase token", 401. split; [now left|].
    intros next. apply (gate_refuses next s token Hb). right. now exists e. }
  destruct (isAnonymousUser rt d) eqn:Hanon.
  - right. exists "Anonymous users cannot access this resource", 403. split; [now right|].
    intros next.
    unfold firebaseAuthMiddleware. unfold bind at 1. unfold context.
    rewrite Hh. destruct h as [|a r]; [discriminate E0|].
    rewrite E0, E1. cbn [negb orb String.eqb].
    destruct (String.eqb_spec token "") as [->|_]; [congruence|].
    replace (("Bearer" =? "Bearer")%string) with true by reflexivity.
    cbn [negb orb].
    unfold try_catch at 1, verifyIdToken. rewrite Htest, Hver. unfold bind at 1.
    cbn [lift ret]. rewrite Hanon. reflexivity.
  - left. exists token, d. split; [exact Hb|]. split; [now split|]. exact Hanon.
Qed.

(** The answer of the middleware is the answer of the request. *)
Lemma fetch_gate_answer (rest : list Handler) (rq : Request) (w : World) (r : Response) :
  firebaseAuthMiddleware rt (Hono.compose onError Hono.notFoundHandler rest)
    {| ctx := Hono.new_Context rq; world := w |}
  = Returned (Some r) {| ctx := Hono.new_Context rq; world := w |} ->
  fetch (firebaseAuthMiddleware rt :: rest) rq w
  = Returned r (responded r {| ctx := Hono.new_Context rq; world := w |}).
Proof.
  intros H. eapply fetch_responded; [|reflexivity].
  now apply compose_answer.
Qed.

(** X1.  A request whose token the verifier does not decode, or any request
    with a token while the service runs in test mode, is answered 401
    "Invalid or expired Firebase token": the handlers behind the middleware
    are not called, no context variable is set, no user provisioning is
    started and nothing is sent to the store. *)
Theorem rejected_token :
  forall (rq : Request) (w : World) (token : string),
    bearer rq token ->
    (isTestMode rt = true \/ exists e, cachedVerifier_verify rt token = inl e) ->
    (forall next,
        firebaseAuthMiddleware rt next {| ctx := Hono.new_Context rq; world := w |}
        = Returned (Some (failure "Invalid or expired Firebase token" 401 (now w)))
            {| ctx := Hono.new_Context rq; world := w |})
    /\ forall rest,
         exists s',
           fetch (firebaseAuthMiddleware rt :: rest) rq w
           = Returned (failure "Invalid or expired Firebase token" 401 (now w)) s'
           /\ world s' = w
           /\ var (ctx s') = var (Hono.new_Context rq).
Proof.
  intros rq w token Hb Hbad.
  assert (H : forall next,
             firebaseAuthMiddleware rt next {| ctx := Hono.new_Context rq; world := w |}
             = Returned (Some (failure "Invalid or expired Firebase token" 401 (now w)))
                 {| ctx := Hono.new_Context rq; world := w |})
    by (intros next;
        exact (gate_refuses next {| ctx := Hono.new_Context rq; world := w |} token Hb Hbad)).
  split; [exact H|].
  intros rest. eexists. split; [apply fetch_gate_answer; apply H|]. split; reflexivity.
Qed.

(** X2.  The middleware lets nothing else through.  A request either carries
    [Bearer] and a token that the verifier decodes to a principal that is
    not anonymous, or it is answered with 401 or 403 whatever handlers stand
    behind the middleware: none of them is called, and the world and the
    context variables are as they were. *)
Theorem gate_closed :
  forall (rq : Request) (w : World),
    (exists token d,
        bearer rq token /\ verified rt token d /\ isAnonymousUser rt d = false)
    \/ (exists msg st,
           (st = 401 \/ st = 403)
           /\ forall rest,
                exists s',
                  fetch (firebaseAuthMiddleware rt :: rest) rq w
                  = Returned (failure msg st (now w)) s'
                  /\ world s' = w
                  /\ var (ctx s') = var (Hono.new_Context rq)).
Proof.
  intros rq w.
  destruct (gate_decides {| ctx := Hono.new_Context rq; world := w |})
    as [Hok|(msg & st & Hst & H)]; [now left|].
  right. exists msg, st. split; [exact Hst|].
  intros rest. eexists. split; [apply fetch_gate_answer; apply H|]. split; reflexivity.
Qed.

End Gate.

(** Keeps the property of an outcome aside while the handler runs. *)
Ltac frame :=
  let o := fresh "o" in
  intros o; pattern o;
  match goal with |- ?P _ => remember P as Q eqn:HQ end;
  subst o.

Ltac quiet Hsame :=
  apply Hsame;
  [reflexivity
  |let E := fresh "E" in
   intros ? ? E; try discriminate E;
   rewrite ?fail_run in E; injection E as <- _; cbn; discriminate].

Ltac same :=
  match goal with
  | H : _ = (fun _ => _) |- _ => solve [rewrite H; left; reflexivity]
  end.

Lemma round_nonneg (q : Q) : (0 <= q)%Q -> 0 <= Engine.round q.
Proof.
  intros H. unfold Engine.round.
  assert (E : Qle_bool 0 q = true) by now apply Qle_bool_iff.
  rewrite E.
  assert (H1 : (inject_Z 0 <= q + (1 # 2))%Q).
  { apply Qle_trans with q; [exact H|].
    rewrite <- (Qplus_0_r q) at 1. apply Qplus_le_r. discriminate. }
  apply Qfloor_resp_le in H1. now rewrite Qfloor_Z in H1.
Qed.

Lemma numeric_nonneg (q : Q) (cents : Z) :
  (0 < q)%Q ->
  Engine.numeric_12_2 (JS.String_of_number q) = Some cents -> 0 <= cents < 10 ^ 12.
Proof.
  intros Hq H.
  unfold Engine.numeric_12_2, JS.String_of_number in H.
  destruct (Z.ltb_spec (Z.abs (Engine.round (q * 100))) (10 ^ 12)) as [Hr|];
    [|discriminate H].
  injection H as <-.
  assert (0 <= Engine.round (q * 100)).
  { apply round_nonneg. apply Qmult_le_0_compat; [now apply Qlt_le_weak | discriminate]. }
  lia.
Qed.

Section Frames.
Variable rt : Runtime.

(** *** What a handler can do to the store *)

Lemma get_store (next : M unit) (c : Context) (w : World) :
  store_after (historiesRouter_get next {| ctx := c; world := w |}) = store w.
Proof.
  unfold store_after, historiesRouter_get. unfold bind at 1. unfold context. cbn [ctx].
  destruct (notAuthorized c); [reflexivity|].
  unfold select_histories. run.
  match goal with |- context [?a <? ?b] => destruct (a <? b) end; reflexivity.
Qed.

Lemma delete_store (next : M unit) (c : Context) (w : World) :
  let o := historiesRouter_delete rt next {| ctx := c; world := w |} in
  store_after o = store w
  \/ exists id,
       store_after o
       = {| users_table := users_table (store w);
            histories_table :=
              filter (fun h => negb (Engine.matches id (param_userId (req c)) h))
                (histories_table (store w)) |}.
Proof.
  frame. unfold historiesRouter_delete. unfold bind at 1. unfold context. cbn [ctx].
  destruct (notAuthorized c); [same|].
  unfold delete_history. run.
  destruct (uuid_in rt _) as [id|]; cbn; [|same].
  destruct (filter (Engine.matches _ _) _); rewrite HQ; right; exists id; reflexivity.
Qed.

(** A create request ends in one of two ways: the store is as it was and
    the answer, if there is one, is not 201; or the body had a string that
    [new Date] reads and a number above zero, the engine took the row, and
    the answer is 201 with that row. *)
Lemma post_cases (next : M unit) (c : Context) (w : World) :
  let o := historiesRouter_post rt next {| ctx := c; world := w |} in
  (store_after o = store w /\ forall r s, o = Returned (Some r) s -> status r <> 201)
  \/ exists body sd t q cents,
       notAuthorized c = false
       /\ json (req c) = inr body
       /\ JS.prop body "datetime" = inr (Some (JS.JStr sd))
       /\ JS.prop body "value" = inr (Some (JS.JNum q))
       /\ (0 < q)%Q
       /\ new_Date_of rt sd = Some t
       /\ Engine.numeric_12_2 (JS.String_of_number q) = Some cents
       /\ storable rt w (param_userId (req c)) t
       /\ o = Returned
                (Some (answer
                         (DHistory (serializeHistory
                                      (inserted rt w (param_userId (req c)) t cents)))
                         201 (now w)))
                {| ctx := c;
                   world := after_insert w (inserted rt w (param_userId (req c)) t cents) |}.
Proof.
  frame.
  assert (Hsame : forall o : Outcome (option Response),
             store_after o = store w ->
             (forall r s, o = Returned (Some r) s -> status r <> 201) -> Q o).
  { intros o H1 H2. rewrite HQ. now left. }
  unfold historiesRouter_post. unfold bind at 1. unfold context. cbn [ctx].
  destruct (notAuthorized c) eqn:Hn;
    [quiet Hsame|].
  destruct (json (req c)) as [e|body] eqn:Hb; unfold bind at 1; cbn [lift ret throw];
    [quiet Hsame|].
  destruct (JS.prop body "datetime") as [e|dt] eqn:Hd; unfold bind at 1; cbn [lift ret throw];
    [quiet Hsame|].
  destruct (JS.prop body "value") as [e|v] eqn:Hv; unfold bind at 1; cbn [lift ret throw];
    [quiet Hsame|].
  destruct (JS.falsy dt || _);
    [quiet Hsame|].
  destruct v as [[| |q| | |]|];
    try (quiet Hsame).
  destruct (Qle_bool q 0) eqn:Hq;
    [quiet Hsame|].
  destruct dt as [[| | |sd| |]|];
    try (quiet Hsame).
  unfold isValidDatetime, getTime, isNaN.
  destruct (new_Date_of rt sd) as [t|] eqn:Ht; cbn [negb];
    [|quiet Hsame].
  unfold insert_history. run.
  destruct (timestamp_in rt t) eqn:Hts; cbn;
    [|quiet Hsame].
  destruct (Engine.numeric_12_2 (JS.String_of_number q)) as [cents|] eqn:Hnum; cbn;
    [|quiet Hsame].
  destruct (Engine.has_user (store w) (param_userId (req c))) eqn:Hfk; cbn;
    [|quiet Hsame].
  destruct (Engine.has_history (store w) (gen_random_uuid rt (drawn w))) eqn:Hpk; cbn;
    [quiet Hsame|].
  rewrite HQ. right. exists body, sd, t, q, cents.
  apply Qle_bool_pos in Hq. unfold storable. repeat split; assumption || reflexivity.
Qed.

Lemma put_store (next : M unit) (c : Context) (w : World) :
  let o := historiesRouter_put rt next {| ctx := c; world := w |} in
  store_after o = store w
  \/ exists a id,
       (forall v, Engine.set_value a = Some v -> 0 <= v < 10 ^ 12)
       /\ store_after o
          = {| users_table := users_table (store w);
               histories_table :=
                 map (touched a id (param_userId (req c))) (histories_table (store w)) |}.
Proof.
  frame.
  unfold historiesRouter_put. unfold bind at 1. unfold context. cbn [ctx].
  destruct (notAuthorized c); [same|].
  destruct (json (req c)) as [e|body]; unfold bind at 1; cbn [lift ret throw]; [same|].
  destruct (JS.prop body "datetime") as [e|dt]; unfold bind at 1; cbn [lift ret throw];
    [same|].
  set (dc := match dt with None => _ | Some _ => _ end).
  destruct dc as [msg|ud] eqn:Hdc; [same|].
  destruct (JS.prop body "value") as [e|v]; unfold bind at 1; cbn [lift ret throw];
    [same|].
  set (vc := match v with None => _ | Some _ => _ end).
  destruct vc as [msg|uv] eqn:Hvc; [same|].
  destruct (Nat.eqb _ 0); [same|].
  unfold update_history. cbn [updates_datetime].
  assert (Huv : forall d cents, uv = Some d -> Engine.numeric_12_2 d = Some cents ->
                                0 <= cents < 10 ^ 12).
  { intros d cents -> Hn. subst vc. destruct v as [[| |q| | |]|]; try discriminate Hvc.
    destruct (Qle_bool q 0) eqn:Hq; [discriminate Hvc|]. injection Hvc as <-.
    apply Qle_bool_pos in Hq. now apply (numeric_nonneg q). }
  clear Hdc Hvc.
  destruct ud as [[t|]|]; run; try same.
  all: destruct (uuid_in rt _) as [id|]; cbn; [|same].
  all: unfold read_updates; cbn [updates_updated_at updates_value].
  all: destruct (negb _); cbn; [same|].
  all: destruct uv as [d|]; [destruct (Engine.numeric_12_2 d) as [cents|] eqn:Hn|]; cbn;
    try same.
  all: destruct (filter (Engine.matches _ _) _); rewrite HQ; right; eexists; exists id;
    (split; [|reflexivity]); cbn;
    first [discriminate | intros v0 [= <-]; now apply (Huv d)].
Qed.

(** *** Other users' records, and the consistency of the store *)

Lemma touched_id (a : Engine.Assignments) (hid uid : string) (h : histories.Row) :
  histories.id (touched a hid uid h) = histories.id h.
Proof. unfold touched. now destruct (Engine.matches hid uid h). Qed.

Lemma touched_user_id (a : Engine.Assignments) (hid uid : string) (h : histories.Row) :
  histories.user_id (touched a hid uid h) = histories.user_id h.
Proof. unfold touched. now destruct (Engine.matches hid uid h). Qed.

Lemma matches_owner (hid uid : string) (h : histories.Row) :
  Engine.matches hid uid h = true -> String.eqb (histories.user_id h) uid = true.
Proof. unfold Engine.matches. intros H. now apply andb_true_iff in H. Qed.

Lemma others_touched (a : Engine.Assignments) (hid uid : string) (l : list histories.Row) :
  filter (fun h => negb (String.eqb (histories.user_id h) uid)) (map (touched a hid uid) l)
  = filter (fun h => negb (String.eqb (histories.user_id h) uid)) l.
Proof.
  induction l as [|x l IH]; [reflexivity|].
  cbn [map filter]. rewrite touched_user_id, IH.
  destruct (String.eqb (histories.user_id x) uid) eqn:E; cbn [negb]; [reflexivity|].
  f_equal. unfold touched.
  destruct (Engine.matches hid uid x) eqn:Em; [|reflexivity].
  apply matches_owner in Em. congruence.
Qed.

Lemma others_deleted (hid uid : string) (l : list histories.Row) :
  filter (fun h => negb (String.eqb (histories.user_id h) uid))
    (filter (fun h => negb (Engine.matches hid uid h)) l)
  = filter (fun h => negb (String.eqb (histories.user_id h) uid)) l.
Proof.
  induction l as [|x l IH]; [reflexivity|].
  cbn [filter].
  destruct (Engine.matches hid uid x) eqn:Em; cbn [negb filter].
  - apply matches_owner in Em. now rewrite Em.
  - now rewrite IH.
Qed.

Lemma has_user_users (st st' : Store) (uid : string) :
  users_table st' = users_table st -> Engine.has_user st' uid = Engine.has_user st uid.
Proof. unfold Engine.has_user. now intros ->. Qed.

Lemma has_history_In (st : Store) (hid : string) :
  Engine.has_history st hid = false -> ~ In hid (map histories.id (histories_table st)).
Proof.
  unfold Engine.has_history. intros H Hin.
  apply in_map_iff in Hin. destruct Hin as (h & <- & Hin).
  assert (E : existsb (fun h0 => String.eqb (histories.id h0) (histories.id h))
                (histories_table st) = true).
  { apply existsb_exists. exists h. split; [exact Hin | apply String.eqb_refl]. }
  congruence.
Qed.

(** A selection of rows keeps the primary key of [histories]. *)
Lemma selected_ids_distinct (rows : list histories.Row) (keep : histories.Row -> bool) :
  NoDup (map histories.id rows) -> NoDup (map histories.id (filter keep rows)).
Proof.
  induction rows as [|x rows IH]; cbn; [auto|].
  intros H. inversion H as [|? ? Hx Hl]; subst.
  destruct (keep x); cbn; [|auto].
  constructor; [|auto].
  intros Hin. apply Hx. apply in_map_iff in Hin. destruct Hin as (y & Hy & Hin).
  apply filter_In in Hin. apply in_map_iff. exists y. tauto.
Qed.

(** X3.  Whatever the request and however a history handler ends, returned
    or thrown, it leaves the users table as it was, and it leaves every
    record that does not belong to the user of the path as it was: list,
    create, update and delete reach the records of that one user only. *)
Theorem write_isolation :
  forall (h : Handler) (next : M unit) (c : Context) (w : World),
    In h (history_handlers rt) ->
    users_table (store_after (h next {| ctx := c; world := w |})) = users_table (store w)
    /\ others (param_userId (req c)) (store_after (h next {| ctx := c; world := w |}))
       = others (param_userId (req c)) (store w).
Proof.
  intros h next c w Hh. unfold others.
  destruct Hh as [<-|[<-|[<-|[<-|[]]]]].
  - rewrite get_store. auto.
  - destruct (post_cases next c w) as [[-> _]|(body & sd & t & q & cents & H)]; [auto|].
    decompose [and] H. clear H.
    match goal with E : historiesRouter_post _ _ _ = _ |- _ => rewrite E end.
    unfold store_after. cbn [final world after_insert store users_table histories_table].
    split; [reflexivity|].
    rewrite filter_app. cbn [filter inserted histories.user_id].
    rewrite String.eqb_refl. cbn [negb]. apply app_nil_r.
  - destruct (put_store next c w) as [->|(a & id & _ & ->)]; [auto|].
    cbn [users_table histories_table]. split; [reflexivity | apply others_touched].
  - destruct (delete_store next c w) as [->|(id & ->)]; [auto|].
    cbn [users_table histories_table]. split; [reflexivity | apply others_deleted].
Qed.

(** X4.  The history handlers keep the store consistent: if identifiers are
    unique, every record has its user and every value lies between 0 and the
    capacity of the column, then the same holds after the handler, however
    it ends. *)
Theorem consistency_kept :
  forall (h : Handler) (next : M unit) (c : Context) (w : World),
    In h (history_handlers rt) ->
    consistent (store w) ->
    consistent (store_after (h next {| ctx := c; world := w |})).
Proof.
  intros h next c w Hh Hc0. pose proof Hc0 as (Hid & Hfk & Hval).
  destruct Hh as [<-|[<-|[<-|[<-|[]]]]].
  - rewrite get_store. exact Hc0.
  - destruct (post_cases next c w) as [[-> _]|(body & sd & t & q & cents & H)];
      [exact Hc0|].
    decompose [and] H. clear H.
    match goal with E : historiesRouter_post _ _ _ = _ |- _ => rewrite E end.
    match goal with E : storable _ _ _ _ |- _ => destruct E as (_ & Hu & Hfresh) end.
    unfold store_after. cbn [final world after_insert store].
    assert (Hc : 0 <= cents < 10 ^ 12) by now apply (numeric_nonneg q).
    split; [|split]; cbn [histories_table].
    + rewrite map_app. cbn [map inserted histories.id].
      apply NoDup_app; [exact Hid | repeat constructor; intros [] |].
      intros x Hx [<-|[]]. now apply (has_history_In (store w) _ Hfresh).
    + intros x Hx. rewrite (has_user_users (store w)) by reflexivity.
      apply in_app_or in Hx. destruct Hx as [Hx|[<-|[]]]; [now apply Hfk | exact Hu].
    + intros x Hx. apply in_app_or in Hx.
      destruct Hx as [Hx|[<-|[]]]; [now apply Hval | exact Hc].
  - destruct (put_store next c w) as [->|(a & id & Ha & ->)]; [exact Hc0|].
    split; [|split]; cbn [histories_table].
    + rewrite map_map.
      rewrite (map_ext _ histories.id) by (intros x; apply touched_id). exact Hid.
    + intros x Hx. rewrite (has_user_users (store w)) by reflexivity.
      apply in_map_iff in Hx. destruct Hx as (y & <- & Hy).
      rewrite touched_user_id. now apply Hfk.
    + intros x Hx. apply in_map_iff in Hx. destruct Hx as (y & <- & Hy).
      unfold touched. destruct (Engine.matches _ _ y); [|now apply Hval].
      cbn [Engine.assign histories.value].
      destruct (Engine.set_value a) as [v|] eqn:Ev; [now apply Ha | now apply Hval].
  - destruct (delete_store next c w) as [->|(id & ->)]; [exact Hc0|].
    split; [|split]; cbn [histories_table].
    + now apply selected_ids_distinct.
    + intros x Hx. rewrite (has_user_users (store w)) by reflexivity.
      apply filter_In in Hx. now apply Hfk.
    + intros x Hx. apply filter_In in Hx. now apply Hval.
Qed.

End Frames.

(** *** Ordering and pages *)





Lemma In_firstn {A} (n : nat) (l : list A) (x : A) : In x (firstn n l) -> In x l.
Proof. intros H. rewrite <- (firstn_skipn n l). apply in_or_app. now left. Qed.

Lemma In_skipn {A} (n : nat) (l : list A) (x : A) : In x (skipn n l) -> In x l.
Proof. intros H. rewrite <- (firstn_skipn n l). apply in_or_app. now right. Qed.

Lemma limit_of_range (p : option string) : 1 <= limit_of p <= 200.
Proof. unfold limit_of, MAX_LIMIT. lia. Qed.



Lemma page_rows (c : Context) (w : World) (r : histories.Row) :
  In r (page c w) ->
  In r (histories_table (store w)) /\ histories.user_id r = param_userId (req c).
Proof.
  unfold page. intros H.
  apply In_firstn, In_skipn, order_by_In, filter_In in H.
  destruct H as [H E]. split; [exact H|]. now apply String.eqb_eq.
Qed.

Lemma page_length (c : Context) (w : World) :
  Z.of_nat (List.length (page c w)) <= limit_of (query (req c) "limit").
Proof.
  unfold page. pose proof (limit_of_range (query (req c) "limit")).
  rewrite length_firstn. lia.
Qed.

(** X5.  The list handler, for a requester who passes the ownership check
    and an offset below 2^63, answers 200 with records that are all rows of
    the store owned by the user of the path, at most as many as the
    effective limit and never more than 200; it sends one SELECT and leaves
    the store as it was.  An offset from 2^63 on is no bigint: the engine
    refuses the SELECT and the handler throws. *)
Theorem list_scope :
  forall (next : M unit) (c : Context) (w : World),
    notAuthorized c = false ->
    (offset_of (query (req c) "offset") < 2 ^ 63 ->
     exists rows,
       historiesRouter_get next {| ctx := c; world := w |}
       = Returned (Some (answer (DHistories (map serializeHistory rows)) 200 (now w)))
           {| ctx := c; world := after (Select "histories") (store w) w |}
       /\ (forall r, In r rows ->
                     In r (histories_table (store w))
                     /\ histories.user_id r = param_userId (req c))
       /\ Z.of_nat (List.length rows) <= limit_of (query (req c) "limit") <= 200)
    /\ (2 ^ 63 <= offset_of (query (req c) "offset") ->
        exists e,
          historiesRouter_get next {| ctx := c; world := w |}
          = Thrown e {| ctx := c; world := after (Select "histories") (store w) w |}).
Proof.
  intros next c w Hn. split.
  - intros Ho. exists (page c w).
    split; [apply get_run; [exact Hn | unfold Engine.max_bigint; lia]|].
    split; [apply page_rows|].
    split; [apply page_length | apply limit_of_range].
  - intros Ho. eexists. apply get_refused; [exact Hn | unfold Engine.max_bigint; lia].
Qed.








Lemma sum_app (l1 l2 : list histories.Row) :
  fold_right (fun h acc => histories.value h + acc) 0 (l1 ++ l2)%list
  = fold_right (fun h acc => histories.value h + acc) 0 l1
    + fold_right (fun h acc => histories.value h + acc) 0 l2.
Proof. induction l1 as [|x l1 IH]; cbn; [reflexivity|]. rewrite IH. lia. Qed.

Lemma sum_split (p : histories.Row -> bool) (l : list histories.Row) :
  fold_right (fun h acc => histories.value h + acc) 0 l
  = fold_right (fun h acc => histories.value h + acc) 0 (filter p l)
    + fold_right (fun h acc => histories.value h + acc) 0 (filter (fun h => negb (p h)) l).
Proof.
  induction l as [|x l IH]; cbn; [reflexivity|].
  destruct (p x); cbn; rewrite IH; lia.
Qed.

(** With unique identifiers one row at most has a given identifier. *)
Lemma matches_unique (hid uid : string) (l : list histories.Row) (h : histories.Row)
    (rest : list histories.Row) :
  NoDup (map histories.id l) ->
  filter (Engine.matches hid uid) l = h :: rest -> rest = [].
Proof.
  intros Hid Hf.
  assert (Hnd : NoDup (map histories.id (filter (Engine.matches hid uid) l)))
    by now apply selected_ids_distinct.
  rewrite Hf in Hnd. destruct rest as [|h' rest]; [reflexivity|].
  assert (Hin : forall x, In x (h :: h' :: rest) -> histories.id x = hid).
  { intros x Hx. rewrite <- Hf in Hx. apply filter_In in Hx. destruct Hx as [_ Hx].
    unfold Engine.matches in Hx. apply andb_true_iff in Hx. now apply String.eqb_eq. }
  cbn [map] in Hnd. inversion Hnd as [|? ? Hx _]; subst.
  exfalso. apply Hx. left.
  rewrite (Hin h) by now left. rewrite (Hin h') by (right; now left). reflexivity.
Qed.

Lemma round_near (x : Q) :
  (0 <= x)%Q -> (Qabs (inject_Z (Engine.round x) - x) <= 1 # 2)%Q.
Proof.
  intros H. unfold Engine.round.
  assert (E : Qle_bool 0 x = true) by now apply Qle_bool_iff.
  rewrite E.
  pose proof (Qfloor_le (x + (1 # 2))) as H1.
  pose proof (Qlt_floor (x + (1 # 2))) as H2.
  rewrite inject_Z_plus in H2. change (inject_Z 1) with 1%Q in H2.
  set (f := inject_Z (Qfloor (x + (1 # 2)))) in *. clearbody f.
  apply Qabs_case; intros _; lra.
Qed.

Section Totals.
Variable rt : Runtime.

(** *** routes/users.ts *)

(** X8.  The profile handler answers 403 to a requester who is neither the
    user of the path nor a site administrator, before anything is read; to
    any other requester it answers 404 when the users table has no row for
    the user of the path, and otherwise 200 with a row of that user
    serialized.  It sends one SELECT at most and never changes the store. *)
Theorem user_profile :
  forall (next : M unit) (c : Context) (w : World),
    (notAuthorized c = true ->
     usersRouter_get next {| ctx := c; world := w |}
     = Returned (Some (failure "Not authorized to view this user" 403 (now w)))
         {| ctx := c; world := w |})
    /\ (notAuthorized c = false ->
        Engine.has_user (store w) (param_userId (req c)) = false ->
        usersRouter_get next {| ctx := c; world := w |}
        = Returned (Some (failure "User not found" 404 (now w)))
            {| ctx := c; world := after (Select "users") (store w) w |})
    /\ (notAuthorized c = false ->
        Engine.has_user (store w) (param_userId (req c)) = true ->
        exists u,
          In u (users_table (store w))
          /\ users.firebase_uid u = param_userId (req c)
          /\ usersRouter_get next {| ctx := c; world := w |}
             = Returned (Some (answer (DUser (serializeUser u)) 200 (now w)))
                 {| ctx := c; world := after (Select "users") (store w) w |}).
Proof.
  intros next c w. split; [|split].
  - intros Hn. unfold usersRouter_get. unfold bind at 1. unfold context. cbn [ctx].
    now rewrite Hn.
  - intros Hn Hu. unfold usersRouter_get. unfold bind at 1. unfold context. cbn [ctx].
    rewrite Hn. unfold select_user. run.
    unfold Engine.has_user in Hu. rewrite filter_existsb in Hu.
    destruct (filter _ _); [reflexivity | discriminate Hu].
  - intros Hn Hu. unfold usersRouter_get. unfold bind at 1. unfold context. cbn [ctx].
    rewrite Hn. unfold select_user. run.
    unfold Engine.has_user in Hu. rewrite filter_existsb in Hu.
    destruct (filter _ _) as [|u l] eqn:Hf; [discriminate Hu|].
    exists u.
    assert (Hin : In u (filter (fun u0 => String.eqb (users.firebase_uid u0)
                                            (param_userId (req c)))
                          (users_table (store w)))) by (rewrite Hf; now left).
    apply filter_In in Hin. destruct Hin as [Hin Heq]. apply String.eqb_eq in Heq.
    auto.
Qed.

(** *** The public total, after a create and after a delete *)

Lemma total_run (next : M unit) (c : Context) (w : World) :
  historiesTotalRouter_get next {| ctx := c; world := w |}
  = Returned
      (Some (answer (DTotal (JS.Number (sum_of_values (store w) # 100))) 200 (now w)))
      {| ctx := c; world := after (Select "histories") (store w) w |}.
Proof. reflexivity. Qed.

Lemma sum_nonneg (l : list histories.Row) :
  (forall h, In h l -> 0 <= histories.value h) ->
  0 <= fold_right (fun h acc => histories.value h + acc) 0 l.
Proof.
  induction l as [|x l IH]; intros H; cbn [fold_right]; [lia|].
  pose proof (H x (or_introl eq_refl)).
  assert (0 <= fold_right (fun h acc => histories.value h + acc) 0 l)
    by (apply IH; intros h Hh; apply H; now right).
  lia.
Qed.

(** X9.  While the sum of the stored values has at most fifteen digits, a
    create that answers 201 raises the public total by the value that its
    answer reports: the total handler answers the sum before the create, and
    after it that sum plus the value of the new record. *)
Theorem total_after_create :
  forall (next next' : M unit) (c c' : Context) (w : World) (resp : Response) (s1 : State),
    Z.abs (sum_of_values (store w)) < 10 ^ 15 - 10 ^ 12 ->
    historiesRouter_post rt next {| ctx := c; world := w |} = Returned (Some resp) s1 ->
    status resp = 201 ->
    exists (created : History.t) (s0 s2 : State),
      resp = answer (DHistory created) 201 (now w)
      /\ historiesTotalRouter_get next' {| ctx := c'; world := w |}
         = Returned
             (Some (answer (DTotal (sum_of_values (store w) # 100)) 200 (now w))) s0
      /\ historiesTotalRouter_get next' {| ctx := c'; world := world s1 |}
         = Returned
             (Some (answer (DTotal (sum_of_values (store (world s1)) # 100)) 200 (now w))) s2
      /\ (sum_of_values (store (world s1)) # 100
          == (sum_of_values (store w) # 100) + History.value created)%Q.
Proof.
  intros next next' c c' w resp s1 Hsum H Hs.
  destruct (post_cases rt next c w) as [[_ Hno]|(body & sd & t & q & cents & Hc)].
  { now destruct (Hno resp s1 H). }
  decompose [and] Hc. clear Hc.
  match goal with E : historiesRouter_post _ _ _ = _ |- _ => rewrite E in H end.
  injection H as <- <-.
  assert (Hcents : 0 <= cents < 10 ^ 12) by now apply (numeric_nonneg q).
  assert (Hafter : sum_of_values
                     (store (after_insert w (inserted rt w (param_userId (req c)) t cents)))
                   = sum_of_values (store w) + cents).
  { unfold sum_of_values. cbn [after_insert store histories_table].
    rewrite sum_app. cbn [fold_right inserted histories.value]. lia. }
  do 3 eexists. split; [reflexivity|].
  split; [rewrite total_run, Number_hundredths by lia; reflexivity|].
  cbn [world].
  split; [rewrite total_run, Number_hundredths by lia; reflexivity|].
  rewrite Hafter.
  cbn [serializeHistory History.value]. unfold histories.value_text.
  cbn [inserted histories.value]. rewrite Number_hundredths by lia.
  unfold Qeq, Qplus. cbn [Qnum Qden]. lia.
Qed.

Lemma delete_success (next : M unit) (c : Context) (w : World) (resp : Response)
    (s1 : State) :
  historiesRouter_delete rt next {| ctx := c; world := w |} = Returned (Some resp) s1 ->
  status resp = 200 ->
  notAuthorized c = false /\ exists id, uuid_in rt (param_historyId (req c)) = Some id.
Proof.
  intros H Hs.
  unfold historiesRouter_delete in H. unfold bind at 1 in H. unfold context in H.
  cbn [ctx] in H.
  destruct (notAuthorized c); [refuted H Hs|].
  split; [reflexivity|].
  unfold delete_history in H. unfold bind at 1 in H. unfold bind at 1 in H.
  unfold send in H. cbn [ctx world] in H. unfold bind at 1 in H. unfold get_world in H.
  cbn [ctx world] in H.
  destruct (uuid_in rt (param_historyId (req c))) as [id|]; [now exists id|].
  refuted H Hs.
Qed.

(** X10.  In a consistent store whose values sum to at most fifteen digits, a
    delete that answers 200 removes one record, the one with the UUID of the
    path and the owner of the path, and lowers the public total by the
    value of that record. *)
Theorem total_after_delete :
  forall (next next' : M unit) (c c' : Context) (w : World) (resp : Response) (s1 : State),
    consistent (store w) ->
    sum_of_values (store w) < 10 ^ 15 ->
    historiesRouter_delete rt next {| ctx := c; world := w |} = Returned (Some resp) s1 ->
    status resp = 200 ->
    exists (h : histories.Row) (s0 s2 : State),
      In h (histories_table (store w))
      /\ uuid_in rt (param_historyId (req c)) = Some (histories.id h)
      /\ histories.user_id h = param_userId (req c)
      /\ ~ In h (histories_table (store (world s1)))
      /\ List.length (histories_table (store w))
         = S (List.length (histories_table (store (world s1))))
      /\ historiesTotalRouter_get next' {| ctx := c'; world := w |}
         = Returned
             (Some (answer (DTotal (sum_of_values (store w) # 100)) 200 (now w))) s0
      /\ historiesTotalRouter_get next' {| ctx := c'; world := world s1 |}
         = Returned
             (Some (answer (DTotal ((sum_of_values (store w) - histories.value h) # 100))
                      200 (now w))) s2.
Proof.
  intros next next' c c' w resp s1 (Hid & _ & Hval) Hsum H Hs.
  destruct (delete_success next c w resp s1 H Hs) as [Hn [id Hu]].
  rewrite (delete_run rt next c w id Hn Hu) in H.
  destruct (filter (Engine.matches id (param_userId (req c)))
              (histories_table (store w))) as [|h rest] eqn:Hf.
  { injection H as <- _. discriminate Hs. }
  injection H as _ <-.
  pose proof (matches_unique _ _ _ _ _ Hid Hf) as ->.
  assert (Hin : In h (filter (Engine.matches id (param_userId (req c)))
                        (histories_table (store w))))
    by (rewrite Hf; now left).
  apply filter_In in Hin. destruct Hin as [Hin Hm].
  pose proof Hm as Hm'. unfold Engine.matches in Hm'. apply andb_true_iff in Hm'.
  destruct Hm' as [E1 E2]. apply String.eqb_eq in E1, E2.
  pose proof (sum_split (Engine.matches id (param_userId (req c)))
                (histories_table (store w))) as Hsplit.
  rewrite Hf in Hsplit. cbn [fold_right] in Hsplit.
  assert (Hrest : 0 <= fold_right (fun h0 acc => histories.value h0 + acc) 0
                         (filter (fun h0 => negb (Engine.matches id (param_userId (req c)) h0))
                            (histories_table (store w)))).
  { apply sum_nonneg. intros x Hx. apply filter_In in Hx. now apply Hval. }
  pose proof (Hval h Hin) as Hh.
  fold (sum_of_values (store w)) in Hsplit.
  exists h. do 2 eexists.
  split; [exact Hin|]. split; [now rewrite E1|]. split; [exact E2|].
  cbn [world after store histories_table].
  split; [|split; [|split]].
  - intros Hx. apply filter_In in Hx. destruct Hx as [_ Hx]. now rewrite Hm in Hx.
  - pose proof (filter_length (Engine.matches id (param_userId (req c)))
                  (histories_table (store w))) as Hl.
    rewrite Hf in Hl. cbn [List.length] in Hl. lia.
  - rewrite total_run, Number_hundredths by lia. reflexivity.
  - rewrite total_run. cbn [after store now].
    unfold sum_of_values at 1. cbn [histories_table].
    replace (fold_right (fun h0 acc => histories.value h0 + acc) 0
               (filter (fun h0 => negb (Engine.matches id (param_userId (req c)) h0))
                  (histories_table (store w))))
      with (sum_of_values (store w) - histories.value h) by lia.
    rewrite Number_hundredths by lia. reflexivity.
Qed.

(** X11.  The value a create reports is the value of the body rounded to
    hundredths: it is a whole number of hundredths and differs from the
    number that was sent by half a hundredth at most. *)
Theorem create_rounds_to_cents :
  forall (next : M unit) (c : Context) (w : World) (body : JS.json) (q : Q)
         (resp : Response) (s1 : State),
    json (req c) = inr body ->
    JS.prop body "value" = inr (Some (JS.JNum q)) ->
    historiesRouter_post rt next {| ctx := c; world := w |} = Returned (Some resp) s1 ->
    status resp = 201 ->
    exists (created : History.t) (cents : Z),
      resp = answer (DHistory created) 201 (now w)
      /\ History.value created = cents # 100
      /\ (Qabs (History.value created - q) <= 1 # 200)%Q.
Proof.
  intros next c w body q resp s1 Hb Hv H Hs.
  destruct (post_cases rt next c w) as [[_ Hno]|(body' & sd & t & q' & cents & Hc)].
  { now destruct (Hno resp s1 H). }
  decompose [and] Hc. clear Hc.
  match goal with E : historiesRouter_post _ _ _ = _ |- _ => rewrite E in H end.
  injection H as <- _.
  match goal with E : json (req c) = inr body' |- _ => rewrite Hb in E; injection E as <- end.
  match goal with E : JS.prop body "value" = inr (Some (JS.JNum q')) |- _ =>
    rewrite Hv in E; injection E as <- end.
  exists (serializeHistory (inserted rt w (param_userId (req c)) t cents)), cents.
  match goal with E : Engine.numeric_12_2 _ = Some cents |- _ => rename E into Hnum end.
  pose proof (numeric_nonneg q cents ltac:(assumption) Hnum) as Hrange.
  split; [reflexivity|].
  split; [cbn [serializeHistory History.value]; unfold histories.value_text;
          cbn [inserted histories.value]; apply Number_hundredths; lia|].
  cbn [serializeHistory History.value]. unfold histories.value_text.
  cbn [inserted histories.value].
  rewrite Number_hundredths by lia.
  unfold Engine.numeric_12_2, JS.String_of_number in Hnum.
  destruct (_ <? _) in Hnum; [|discriminate Hnum]. injection Hnum as E.
  assert (Hx : (0 <= q * 100)%Q).
  { apply Qmult_le_0_compat; [now apply Qlt_le_weak | discriminate]. }
  pose proof (round_near (q * 100) Hx) as Hr. rewrite E in Hr.
  assert (Hc : (cents # 100 == inject_Z cents / 100)%Q).
  { unfold Qeq, Qdiv, Qmult, Qinv, inject_Z. cbn. lia. }
  rewrite Hc.
  apply Qabs_Qle_condition. apply Qabs_Qle_condition in Hr.
  destruct Hr as [Hr1 Hr2].
  set (z := inject_Z cents) in *. clearbody z.
  assert (Hdiv : (z / 100 == z * (1 # 100))%Q) by reflexivity.
  rewrite Hdiv. split; lra.
Qed.

End Totals.

(** *** Decimal numerals *)

Lemma digits_of_uint_acc (d : Decimal.uint) (acc : positive) :
  JS.digits (NilEmpty.string_of_uint d) (Some (Z.pos acc))
  = Some (Z.pos (Pos.of_uint_acc d acc)).
Proof.
  revert acc. induction d as [|d IH|d IH|d IH|d IH|d IH|d IH|d IH|d IH|d IH|d IH];
    intros acc; [reflexivity|..];
    cbn [NilEmpty.string_of_uint JS.digits Pos.of_uint_acc];
    change (JS.digit _) with (Some 0) || change (JS.digit _) with (Some 1)
    || change (JS.digit _) with (Some 2) || change (JS.digit _) with (Some 3)
    || change (JS.digit _) with (Some 4) || change (JS.digit _) with (Some 5)
    || change (JS.digit _) with (Some 6) || change (JS.digit _) with (Some 7)
    || change (JS.digit _) with (Some 8) || change (JS.digit _) with (Some 9);
    cbv iota beta; rewrite <- IH; f_equal; f_equal; lia.
Qed.

Lemma digits_of_uint (d : Decimal.uint) :
  JS.digits (NilEmpty.string_of_uint d) (Some 0) = Some (Z.of_N (Pos.of_uint d)).
Proof.
  induction d as [|d IH|d IH|d IH|d IH|d IH|d IH|d IH|d IH|d IH|d IH];
    [reflexivity | exact IH |..];
    cbn [NilEmpty.string_of_uint JS.digits Pos.of_uint];
    change (JS.digit _) with (Some 1)
    || change (JS.digit _) with (Some 2) || change (JS.digit _) with (Some 3)
    || change (JS.digit _) with (Some 4) || change (JS.digit _) with (Some 5)
    || change (JS.digit _) with (Some 6) || change (JS.digit _) with (Some 7)
    || change (JS.digit _) with (Some 8) || change (JS.digit _) with (Some 9);
    cbv iota beta; apply digits_of_uint_acc.
Qed.

(** The numeral of a positive number: its first character is a digit. *)
Lemma numeral_of_pos (p : positive) :
  exists c r,
    NilZero.string_of_uint (Pos.to_uint p) = String c r
    /\ JS.digit c <> None
    /\ JS.digits (String c r) None = Some (Z.pos p).
Proof.
  pose proof (DecimalPos.Unsigned.of_to p) as Hof.
  pose proof (digits_of_uint (Pos.to_uint p)) as Hd. rewrite Hof in Hd. cbn [Z.of_N] in Hd.
  destruct (Pos.to_uint p) as [|d|d|d|d|d|d|d|d|d|d] eqn:E;
    [discriminate Hof|..];
    cbn [NilZero.string_of_uint NilEmpty.string_of_uint] in *;
    do 2 eexists; (split; [reflexivity|]); (split; [discriminate|]); exact Hd.
Qed.

(** A string that starts with a printable ASCII character starts with no
    white space. *)
Lemma trimStart_printable (c : ascii) (r : string) :
  32 < JS.byte c < 128 -> JS.trimStart (String c r) = String c r.
Proof.
  intros H.
  cbn [JS.trimStart]. unfold JS.ws1, JS.ws2, JS.ws3.
  repeat match goal with
         | |- context [JS.byte c <=? ?k] =>
             destruct (Z.leb_spec (JS.byte c) k); try lia
         | |- context [?k <=? JS.byte c] =>
             destruct (Z.leb_spec k (JS.byte c)); try lia
         | |- context [JS.byte c =? ?k] =>
             destruct (Z.eqb_spec (JS.byte c) k); try lia
         end.
  cbn [andb orb]. destruct r as [|b [|d r]]; reflexivity.
Qed.

Lemma trimStart_digit (c : ascii) (r : string) :
  JS.digit c <> None -> JS.trimStart (String c r) = String c r.
Proof.
  unfold JS.digit. intros H.
  destruct ((48 <=? JS.byte c) && (JS.byte c <=? 57)) eqn:E; [|congruence].
  apply andb_true_iff in E. destruct E as [E1 E2].
  apply Z.leb_le in E1, E2. apply trimStart_printable. lia.
Qed.

Lemma digit_not_sign (c : ascii) :
  JS.digit c <> None -> c <> "-"%char /\ c <> "+"%char.
Proof. intros H. split; intros ->; now apply H. Qed.

(** [parseInt(String(n), 10)] is [n]. *)
Lemma to_double_exact (n : Z) : Z.abs n <= 2 ^ 53 -> JS.to_double n = n.
Proof.
  intros H. unfold JS.to_double.
  destruct (Z.ltb_spec (Z.abs n) (2 ^ 53)); [reflexivity|].
  assert (E : n = 2 ^ 53 \/ n = - 2 ^ 53) by lia.
  destruct E as [-> | ->]; reflexivity.
Qed.

Lemma parseInt_String (n : Z) :
  JS.parseInt (JS.String_of_int n) = Some (JS.to_double n).
Proof.
  unfold JS.String_of_int. destruct n as [|p|p]; [reflexivity|..];
    cbn [Z.to_int NilZero.string_of_int];
    destruct (numeral_of_pos p) as (c & r & -> & Hc & Hd).
  - unfold JS.parseInt. rewrite (trimStart_digit c r Hc).
    destruct (digit_not_sign c Hc) as [Hm Hp].
    assert (E : (let '(sign, t) :=
                   match String c r with
                   | String "-" r0 => (-1, r0)
                   | String "+" r0 => (1, r0)
                   | _ => (1, String c r)
                   end in
                 match JS.digits t None with
                 | Some m => Some (JS.to_double (sign * m))
                 | None => None
                 end)
                = match JS.digits (String c r) None with
                  | Some m => Some (JS.to_double (1 * m))
                  | None => None
                  end).
    { destruct c as [[] [] [] [] [] [] [] []]; try reflexivity; congruence. }
    rewrite E, Hd. f_equal.
  - unfold JS.parseInt.
    rewrite trimStart_printable by (cbv; split; reflexivity).
    cbv iota beta. rewrite Hd. f_equal.
Qed.

Lemma String_of_int_nonempty (n : Z) : JS.String_of_int n <> "".
Proof. intros E. pose proof (parseInt_String n) as H. rewrite E in H. discriminate H. Qed.

(** X12.  An offset that is absent, empty, that does not parse or that parses
    to a negative integer resolves to 0; an offset that parses to an integer
    from 0 up to 2^53, the integers a number holds exactly, resolves to that
    integer: unlike the limit, the offset has no cap. *)
Theorem offset_resolution :
  offset_of None = 0
  /\ offset_of (Some "") = 0
  /\ (forall s, JS.parseInt s = None -> offset_of (Some s) = 0)
  /\ (forall s n, JS.parseInt s = Some n -> n <= 0 -> offset_of (Some s) = 0)
  /\ (forall s n, JS.parseInt s = Some n -> 0 <= n <= 2 ^ 53 -> offset_of (Some s) = n).
Proof.
  assert (H : forall s n, JS.parseInt s = Some n ->
                          offset_of (Some s) = Z.max 0 (if n =? 0 then 0 else n)).
  { intros s n Hp. unfold offset_of.
    rewrite (str_or_nonempty s _ (parseInt_nonempty s n Hp)), Hp. reflexivity. }
  split; [reflexivity|]. split; [reflexivity|]. split; [|split].
  - intros s Hp. destruct s as [|a r]; [reflexivity|].
    unfold offset_of. rewrite str_or_nonempty by discriminate. now rewrite Hp.
  - intros s n Hp Hn. rewrite (H s n Hp). destruct (Z.eqb_spec n 0); lia.
  - intros s n Hp Hn. rewrite (H s n Hp). destruct (Z.eqb_spec n 0); lia.
Qed.

(** X13.  The decimal numeral of an integer up to 2^53 in magnitude, the
    integers a number holds exactly, reads back as that integer.  A limit
    written as the numeral of [n] resolves to [n] when [n] is between 1 and
    200, and an offset written as the numeral of [n] resolves to [n] when
    [n] is between 0 and 2^53. *)
Theorem numeral_parameters :
  (forall n, Z.abs n <= 2 ^ 53 -> JS.parseInt (JS.String_of_int n) = Some n)
  /\ (forall n, 1 <= n <= 200 -> limit_of (Some (JS.String_of_int n)) = n)
  /\ (forall n, 0 <= n <= 2 ^ 53 -> offset_of (Some (JS.String_of_int n)) = n).
Proof.
  assert (H : forall n, Z.abs n <= 2 ^ 53 -> JS.parseInt (JS.String_of_int n) = Some n)
    by (intros n Hn; now rewrite parseInt_String, to_double_exact).
  split; [exact H|]. split.
  - intros n Hn. rewrite (limit_of_parsed _ n (H n ltac:(lia))).
    destruct (Z.eqb_spec n 0); unfold MAX_LIMIT; lia.
  - intros n Hn. unfold offset_of.
    rewrite (str_or_nonempty _ _ (String_of_int_nonempty n)), H by lia.
    unfold JS.num_or. destruct (Z.eqb_spec n 0); lia.
Qed.

Lemma has_user_app (st : Store) (u : users.Row) (uid : string) :
  existsb (fun x => String.eqb (users.firebase_uid x) uid) (users_table st ++ [u])%list
  = Engine.has_user st uid || String.eqb (users.firebase_uid u) uid.
Proof. unfold Engine.has_user. rewrite existsb_app. cbn. now rewrite orb_false_r. Qed.

Section Provisioning.
Variable rt : Runtime.

(** *** User provisioning *)

(** X14.  [ensureUserExists], run on its own for an identifier and an email
    that fit their columns, returns and leaves a row for the user.  When the
    user has a row already it sends one SELECT and writes nothing, whatever
    the email: the stored email is not brought up to date.  Otherwise it
    appends one row with the identifier, the email and no display name.  The
    histories are never touched. *)
Theorem user_provisioning :
  forall (uid : string) (email : option string) (s : State),
    (String.length uid <= 128)%nat ->
    (forall e, email = Some e -> (String.length e <= 255)%nat) ->
    exists s',
      ensureUserExists uid email s = Returned tt s'
      /\ Engine.has_user (store (world s')) uid = true
      /\ histories_table (store (world s')) = histories_table (store (world s))
      /\ (Engine.has_user (store (world s)) uid = true ->
          store (world s') = store (world s)
          /\ statements (world s') = Select "users" :: statements (world s))
      /\ (Engine.has_user (store (world s)) uid = false ->
          users_table (store (world s'))
          = (users_table (store (world s))
             ++ [{| users.firebase_uid := uid; users.email := email;
                    users.display_name := None;
                    users.created_at := Some (now (world s));
                    users.updated_at := Some (now (world s)) |}])%list
          /\ statements (world s')
             = Insert "users" :: Select "users" :: statements (world s)).
Proof.
  intros uid email s _ _.
  unfold ensureUserExists, select_user. run.
  pose proof (filter_existsb (fun u => String.eqb (users.firebase_uid u) uid)
                (users_table (store (world s)))) as Hf.
  fold (Engine.has_user (store (world s)) uid) in Hf.
  destruct (filter _ _) as [|u l] eqn:E.
  - unfold insert_user. run. rewrite Hf. cbn.
    eexists. split; [reflexivity|]. cbn.
    split; [|split; [reflexivity|split; [discriminate|auto]]].
    unfold Engine.has_user. cbn [users_table].
    rewrite has_user_app. cbn. now rewrite String.eqb_refl, orb_true_r.
  - cbn. eexists. split; [reflexivity|]. cbn.
    split; [exact Hf|]. split; [reflexivity|]. split; [|congruence].
    intros _. split; [now destruct (store (world s))|reflexivity].
Qed.

End Provisioning.

(** *** The calendar *)

Lemma every_day_spec (n : nat) (day : Z) (f : Z -> bool) :
  every_day n day f = true ->
  forall k, 0 <= k < Z.of_nat n -> f (day + k) = true.
Proof.
  revert day. induction n as [|n IH]; intros day H k Hk; [lia|].
  cbn [every_day] in H. apply andb_true_iff in H. destruct H as [H0 H].
  destruct (Z.eq_dec k 0) as [->|Hne]; [now rewrite Z.add_0_r|].
  replace (day + k) with (day + 1 + (k - 1)) by lia. apply IH; [exact H|lia].
Qed.

Lemma era_checked : every_day (Z.to_nat 146097) (-719468) civil_ok = true.
Proof. vm_compute. reflexivity. Qed.

Lemma DayFromYear_era (y e : Z) :
  JS.DayFromYear (y + 400 * e) = JS.DayFromYear y + 146097 * e.
Proof.
  unfold JS.DayFromYear.
  replace (y + 400 * e - 1969) with (y - 1969 + (100 * e) * 4) by ring.
  replace (y + 400 * e - 1901) with (y - 1901 + (4 * e) * 100) by ring.
  replace (y + 400 * e - 1601) with (y - 1601 + e * 400) by ring.
  rewrite !Z.div_add by lia. ring.
Qed.

Lemma InLeapYear_era (y e : Z) : JS.InLeapYear (y + 400 * e) = JS.InLeapYear y.
Proof.
  unfold JS.InLeapYear.
  replace ((y + 400 * e) mod 4) with (y mod 4)
    by (replace (y + 400 * e) with (y + (100 * e) * 4) by ring; now rewrite Z.mod_add).
  replace ((y + 400 * e) mod 100) with (y mod 100)
    by (replace (y + 400 * e) with (y + (4 * e) * 100) by ring; now rewrite Z.mod_add).
  replace ((y + 400 * e) mod 400) with (y mod 400)
    by (replace (y + 400 * e) with (y + e * 400) by ring; now rewrite Z.mod_add).
  reflexivity.
Qed.

Lemma DaysInMonth_era (y e m : Z) : JS.DaysInMonth (y + 400 * e) m = JS.DaysInMonth y m.
Proof. unfold JS.DaysInMonth. now rewrite InLeapYear_era. Qed.

Lemma daysBefore_era (y e : Z) (m : nat) :
  JS.daysBefore (y + 400 * e) m = JS.daysBefore y m.
Proof.
  induction m as [|m IH]; [reflexivity|].
  destruct m as [|m]; [reflexivity|].
  change (JS.daysBefore (y + 400 * e) (S (S m)))
    with (JS.daysBefore (y + 400 * e) (S m) + JS.DaysInMonth (y + 400 * e) (Z.of_nat (S m))).
  change (JS.daysBefore y (S (S m)))
    with (JS.daysBefore y (S m) + JS.DaysInMonth y (Z.of_nat (S m))).
  now rewrite IH, DaysInMonth_era.
Qed.

Lemma MakeDay_era (y e m d : Z) :
  JS.MakeDay (y + 400 * e) m d = JS.MakeDay y m d + 146097 * e.
Proof. unfold JS.MakeDay. rewrite DayFromYear_era, daysBefore_era. ring. Qed.

(** The date of a day is the date of its day of the era, [e] eras on. *)
Lemma civil_era (day : Z) :
  let e := (day + 719468) / 146097 in
  let r := (day + 719468) mod 146097 in
  JS.civil day
  = let '(y0, m, d) := JS.civil (r - 719468) in (y0 + 400 * e, m, d).
Proof.
  intros e r. unfold JS.civil.
  replace (r - 719468 + 719468) with r by ring.
  assert (Hr : 0 <= r < 146097) by (apply Z.mod_pos_bound; lia).
  replace (r / 146097) with 0 by (symmetry; now apply Z.div_small).
  replace (r - 0 * 146097) with r by ring.
  replace (day + 719468 - (day + 719468) / 146097 * 146097) with r
    by (unfold r; rewrite Z.mod_eq by lia; ring).
  fold e. cbv zeta. f_equal. f_equal. ring.
Qed.

(** [civil] is the inverse of [MakeDay] on the days a time value reaches. *)
Lemma civil_inverse (day : Z) :
  -100000000 <= day <= 100000000 ->
  exists y m d,
    JS.civil day = (y, m, d)
    /\ 1 <= m <= 12
    /\ 1 <= d <= JS.DaysInMonth y m
    /\ JS.MakeDay y m d = day
    /\ -999999 <= y <= 999999.
Proof.
  intros Hday.
  pose proof (civil_era day) as Hera. cbv zeta in Hera.
  set (e := (day + 719468) / 146097) in *.
  set (r := (day + 719468) mod 146097) in *.
  assert (Hr : 0 <= r < 146097) by (apply Z.mod_pos_bound; lia).
  assert (Hz : day + 719468 = 146097 * e + r) by (apply Z.div_mod; lia).
  pose proof (every_day_spec _ _ _ era_checked r) as Hok.
  replace (-719468 + r) with (r - 719468) in Hok by ring.
  rewrite Z2Nat.id in Hok by lia. specialize (Hok Hr). unfold civil_ok in Hok.
  destruct (JS.civil (r - 719468)) as [[y0 m] d].
  repeat (apply andb_true_iff in Hok; destruct Hok as [Hok ?]).
  repeat match goal with
         | H : (_ <=? _) = true |- _ => apply Z.leb_le in H
         | H : (_ =? _) = true |- _ => apply Z.eqb_eq in H
         end.
  exists (y0 + 400 * e), m, d.
  split; [exact Hera|]. split; [lia|].
  split; [rewrite DaysInMonth_era; lia|].
  split; [rewrite MakeDay_era; lia|].
  assert (-700 <= e <= 700) by lia. lia.
Qed.

(** *** Numerals of fixed width *)

Lemma append_assoc (a b c : string) : (a ++ b) ++ c = a ++ (b ++ c).
Proof. induction a as [|x a IH]; cbn; [reflexivity | now rewrite IH]. Qed.

Lemma digit_of_char (k : Z) :
  0 <= k <= 9 -> JS.digit (ascii_of_N (Z.to_N (48 + k))) = Some k.
Proof.
  intros H.
  assert (E : k = 0 \/ k = 1 \/ k = 2 \/ k = 3 \/ k = 4 \/ k = 5 \/ k = 6 \/ k = 7
              \/ k = 8 \/ k = 9) by lia.
  repeat (destruct E as [->|E]; [reflexivity|]). now subst k.
Qed.

Lemma pad_front (w : nat) (n : Z) :
  JS.pad (S w) n
  = String (ascii_of_N (Z.to_N (48 + (n / 10 ^ Z.of_nat w) mod 10))) (JS.pad w n).
Proof.
  revert n. induction w as [|w IH]; intros n.
  - cbn [JS.pad append Z.of_nat]. now rewrite Z.pow_0_r, Z.div_1_r.
  - change (JS.pad (S (S w)) n)
      with (JS.pad (S w) (n / 10) ++ String (ascii_of_N (Z.to_N (48 + n mod 10))) "").
    rewrite IH. cbn [append].
    change (JS.pad w (n / 10) ++ String (ascii_of_N (Z.to_N (48 + n mod 10))) "")
      with (JS.pad (S w) n).
    rewrite Z.div_div by lia.
    replace (10 * 10 ^ Z.of_nat w) with (10 ^ Z.of_nat (S w))
      by (rewrite Nat2Z.inj_succ, Z.pow_succ_r by lia; reflexivity).
    reflexivity.
Qed.

Lemma read_pad (w : nat) (n : Z) (rest : string) (acc : Z) :
  JS.read_digits w (JS.pad w n ++ rest) acc
  = Some (acc * 10 ^ Z.of_nat w + n mod 10 ^ Z.of_nat w, rest).
Proof.
  revert acc. induction w as [|w IH]; intros acc.
  - cbn [JS.pad append JS.read_digits Z.of_nat]. rewrite Z.pow_0_r, Z.mod_1_r.
    do 2 f_equal. ring.
  - rewrite pad_front. cbn [append JS.read_digits].
    rewrite digit_of_char by (pose proof (Z.mod_pos_bound (n / 10 ^ Z.of_nat w) 10); lia).
    rewrite IH.
    replace (10 ^ Z.of_nat (S w)) with (10 ^ Z.of_nat w * 10)
      by (rewrite Nat2Z.inj_succ, Z.pow_succ_r by lia; ring).
    rewrite Z.rem_mul_r by lia.
    f_equal. f_equal. ring.
Qed.

Lemma read_pad_exact (w : nat) (n : Z) (rest : string) :
  0 <= n < 10 ^ Z.of_nat w ->
  JS.read_digits w (JS.pad w n ++ rest) 0 = Some (n, rest).
Proof. intros H. rewrite read_pad, Z.mod_small by exact H. reflexivity. Qed.

Lemma read_year_four (y : Z) (rest : string) :
  0 <= y <= 9999 -> JS.read_year (JS.pad 4 y ++ rest) = Some (y, rest).
Proof.
  intros H. rewrite <- (read_pad_exact 4 y rest) by (cbn; lia).
  rewrite pad_front. cbn [append].
  assert (Hk : 0 <= (y / 10 ^ Z.of_nat 3) mod 10 < 10) by (apply Z.mod_pos_bound; lia).
  set (k := (y / 10 ^ Z.of_nat 3) mod 10) in *.
  assert (E : k = 0 \/ k = 1 \/ k = 2 \/ k = 3 \/ k = 4 \/ k = 5 \/ k = 6 \/ k = 7
              \/ k = 8 \/ k = 9) by lia.
  clearbody k.
  repeat (destruct E as [->|E]; [reflexivity|]). now subst k.
Qed.

(** *** The rendering of an instant reads back *)

Lemma read_year_string (y : Z) (rest : string) :
  -999999 <= y <= 999999 ->
  JS.read_year
    ((if (0 <=? y) && (y <=? 9999) then JS.pad 4 y
      else (if y <? 0 then "-" else "+") ++ JS.pad 6 (Z.abs y)) ++ rest)
  = Some (y, rest).
Proof.
  intros H.
  destruct (Z.leb_spec 0 y) as [H0|H0]; cbn [andb].
  - destruct (Z.leb_spec y 9999) as [H1|H1].
    + apply read_year_four. lia.
    + destruct (Z.ltb_spec y 0); [lia|].
      cbn [append JS.read_year]. rewrite read_pad_exact by (cbn; lia).
      f_equal. f_equal. lia.
  - destruct (Z.ltb_spec y 0); [|lia].
    cbn [append JS.read_year]. rewrite read_pad_exact by (cbn; lia).
    destruct (Z.eqb_spec (Z.abs y) 0); [lia|]. f_equal. f_equal. lia.
Qed.

Lemma read_date_string (ystr : string) (y m d : Z) (rest : string) :
  (forall r, JS.read_year (ystr ++ r) = Some (y, r)) ->
  0 <= m < 100 -> 0 <= d < 100 ->
  JS.read_date (ystr ++ "-" ++ JS.pad 2 m ++ "-" ++ JS.pad 2 d ++ rest)
  = Some (y, m, d, rest).
Proof.
  intros Hy Hm Hd. unfold JS.read_date. rewrite Hy. cbn [append].
  rewrite read_pad_exact by (cbn; lia). cbn [append].
  rewrite read_pad_exact by (cbn; lia). reflexivity.
Qed.

Lemma read_time_string (h mi sec ms : Z) :
  0 <= h <= 23 -> 0 <= mi <= 59 -> 0 <= sec <= 59 -> 0 <= ms <= 999 ->
  JS.read_time
    (JS.pad 2 h ++ ":" ++ JS.pad 2 mi ++ ":" ++ JS.pad 2 sec ++ "." ++ JS.pad 3 ms ++ "Z")
  = Some (JS.MakeTime h mi sec ms, JS.Offset 0).
Proof.
  intros Hh Hmi Hsec Hms. unfold JS.read_time.
  rewrite read_pad_exact by (cbn; lia). cbn [append].
  rewrite read_pad_exact by (cbn; lia). cbn [append].
  rewrite read_pad_exact by (cbn; lia). cbn [append].
  rewrite read_pad_exact by (cbn; lia).
  destruct (Z.leb_spec h 23); [|lia].
  destruct (Z.leb_spec mi 59); [|lia].
  destruct (Z.leb_spec sec 59); [|lia].
  reflexivity.
Qed.

(** Every time value, rendered by [toISOString], is a string of the Date
    Time String Format that denotes that time value. *)
Lemma parse_toISOString (UTC : Z -> Z) (t : Z) :
  Z.abs t <= JS.maxTime ->
  JS.parse_format UTC (JS.toISOString t) = Some (Some t).
Proof.
  intros Ht. unfold JS.maxTime in Ht.
  assert (Hday : -100000000 <= t / JS.msPerDay <= 100000000).
  { unfold JS.msPerDay. split.
    - apply Z.div_le_lower_bound; lia.
    - apply Z.div_le_upper_bound; lia. }
  assert (Htime : 0 <= t mod JS.msPerDay < 86400000)
    by (apply Z.mod_pos_bound; reflexivity).
  assert (Hsplit : t = (t / JS.msPerDay) * JS.msPerDay + t mod JS.msPerDay)
    by (rewrite Z.mul_comm; apply Z.div_mod; discriminate).
  destruct (civil_inverse _ Hday) as (y & m & d & Hc & Hm & Hd & Hmk & Hy).
  unfold JS.toISOString. rewrite Hc.
  set (time := t mod JS.msPerDay) in *.
  set (day := t / JS.msPerDay) in *.
  assert (Hdim : JS.DaysInMonth y m <= 31).
  { unfold JS.DaysInMonth. repeat destruct (_ =? _); cbn; try lia.
    destruct (JS.InLeapYear y); lia. }
  unfold JS.parse_format.
  rewrite (read_date_string _ y m d) by (first [intros r; now apply read_year_string | lia]).
  destruct (Z.leb_spec 1 m); [|lia].
  destruct (Z.leb_spec m 12); [|lia].
  destruct (Z.leb_spec 1 d); [|lia].
  destruct (Z.leb_spec d (JS.DaysInMonth y m)); [|lia].
  cbn [andb].
  match goal with
  | |- context ["T" ++ ?x] => change ("T" ++ x) with (String "T" x)
  end.
  cbv iota beta.
  assert (Hu1 : 0 <= time / 3600000 <= 23).
  { split; [apply Z.div_pos; lia|].
    assert (time / 3600000 < 24) by (apply Z.div_lt_upper_bound; lia). lia. }
  assert (Hu2 : 0 <= time / 60000 mod 60 <= 59)
    by (pose proof (Z.mod_pos_bound (time / 60000) 60); lia).
  assert (Hu3 : 0 <= time / 1000 mod 60 <= 59)
    by (pose proof (Z.mod_pos_bound (time / 1000) 60); lia).
  assert (Hu4 : 0 <= time mod 1000 <= 999)
    by (pose proof (Z.mod_pos_bound time 1000); lia).
  rewrite read_time_string by assumption.
  assert (Hmt : JS.MakeTime (time / 3600000) (time / 60000 mod 60) (time / 1000 mod 60)
                  (time mod 1000) = time).
  { unfold JS.MakeTime. clear - Htime. Z.div_mod_to_equations. lia. }
  rewrite Hmt, Hmk. unfold JS.MakeDate.
  replace (day * JS.msPerDay + time - 0 * 60000) with t by lia.
  unfold JS.TimeClip, JS.maxTime.
  destruct (Z.leb_spec (Z.abs t) 8640000000000000); [reflexivity|lia].
Qed.

Section Rendering.
Variable rt : Runtime.

(** X16.  What the serializers emit, the validator accepts.  The ISO string
    of any instant within the range of a [Date] is a valid datetime for
    every engine and zone, and [new Date] reads from it the instant it came
    from; so the [datetime] of a serialized record, sent back in a create or
    an update, denotes the instant that is stored. *)
Theorem emitted_datetime_reads_back :
  (forall t,
      Z.abs t <= JS.maxTime ->
      new_Date_of rt (JS.toISOString t) = Some t
      /\ isValidDatetime rt (JS.toISOString t) = true)
  /\ (forall h,
        Z.abs (histories.datetime h) <= JS.maxTime ->
        new_Date_of rt (History.datetime (serializeHistory h)) = Some (histories.datetime h)
        /\ isValidDatetime rt (History.datetime (serializeHistory h)) = true).
Proof.
  assert (H : forall t,
             Z.abs t <= JS.maxTime ->
             new_Date_of rt (JS.toISOString t) = Some t
             /\ isValidDatetime rt (JS.toISOString t) = true).
  { intros t Ht.
    assert (E : new_Date_of rt (JS.toISOString t) = Some t).
    { unfold new_Date_of, JS.Date_parse. now rewrite parse_toISOString. }
    split; [exact E|]. unfold isValidDatetime, getTime, isNaN. now rewrite E. }
  split; [exact H|].
  intros h Hh. exact (H _ Hh).
Qed.

End Rendering.

(** *** Trimming *)

Lemma printable_byte (c : ascii) : printable c = true <-> 32 < JS.byte c < 127.
Proof.
  unfold printable. rewrite andb_true_iff, !Z.ltb_lt. tauto.
Qed.

Lemma blank_byte (c : ascii) :
  Ascii.eqb c " " || Ascii.eqb c "009" = true -> JS.ws1 (JS.byte c) = true.
Proof.
  intros H. apply orb_true_iff in H.
  destruct H as [H|H]; apply Ascii.eqb_eq in H; subst c; reflexivity.
Qed.

Lemma trimStart_blank (pre s : string) :
  blank pre = true -> JS.trimStart (pre ++ s) = JS.trimStart s.
Proof.
  induction pre as [|c pre IH]; intros H; [reflexivity|].
  cbn [blank] in H. apply andb_true_iff in H. destruct H as [Hc Hp].
  cbn [append]. cbn [JS.trimStart]. rewrite (blank_byte c Hc). now apply IH.
Qed.

Lemma trimStart_all_blank (s : string) : blank s = true -> JS.trimStart s = "".
Proof.
  induction s as [|c s IH]; intros H; [reflexivity|].
  cbn [blank] in H. apply andb_true_iff in H. destruct H as [Hc Hs].
  cbn [JS.trimStart]. rewrite (blank_byte c Hc). now apply IH.
Qed.

(** A string that [trimStart] empties has no visible ASCII character. *)
Lemma trimStart_empty (n : nat) (s : string) :
  (String.length s <= n)%nat ->
  JS.trimStart s = "" ->
  forall c, In c (list_ascii_of_string s) -> printable c = false.
Proof.
  revert s. induction n as [|n IH]; intros s Hlen H c Hc.
  { destruct s; [destruct Hc | cbn in Hlen; lia]. }
  destruct s as [|a r1]; [destruct Hc|].
  cbn [JS.trimStart] in H. cbn [String.length] in Hlen.
  assert (Hws1 : forall x, JS.ws1 (JS.byte x) = true -> printable x = false).
  { intros x Hx. unfold JS.ws1 in Hx. unfold printable.
    destruct (Z.ltb_spec 32 (JS.byte x)); [|reflexivity].
    destruct (Z.ltb_spec (JS.byte x) 127); [|reflexivity].
    apply orb_true_iff in Hx. destruct Hx as [Hx|Hx].
    - apply andb_true_iff in Hx. destruct Hx as [_ Hx]. apply Z.leb_le in Hx. lia.
    - apply Z.eqb_eq in Hx. lia. }
  assert (Hhigh : forall x, 127 <= JS.byte x -> printable x = false).
  { intros x Hx. unfold printable. destruct (Z.ltb_spec (JS.byte x) 127); [lia|].
    apply andb_false_r. }
  destruct (JS.ws1 (JS.byte a)) eqn:E1.
  { destruct Hc as [<-|Hc]; [now apply Hws1|].
    apply (IH r1); [lia | exact H | exact Hc]. }
  destruct r1 as [|b r2]; [discriminate H|].
  destruct (JS.ws2 (JS.byte a) (JS.byte b)) eqn:E2.
  { unfold JS.ws2 in E2. apply andb_true_iff in E2. destruct E2 as [Ea Eb].
    apply Z.eqb_eq in Ea, Eb.
    destruct Hc as [<-|[<-|Hc]]; [apply Hhigh; lia | apply Hhigh; lia|].
    cbn [String.length] in Hlen. apply (IH r2); [lia | exact H | exact Hc]. }
  destruct r2 as [|d r3]; [discriminate H|].
  destruct (JS.ws3 (JS.byte a) (JS.byte b) (JS.byte d)) eqn:E3; [|discriminate H].
  assert (Habd : 127 <= JS.byte a /\ 127 <= JS.byte b /\ 127 <= JS.byte d).
  { unfold JS.ws3 in E3.
    repeat match type of E3 with
           | (_ || _) = true => apply orb_true_iff in E3; destruct E3 as [E3|E3]
           end;
      repeat match goal with
             | H : (_ && _) = true |- _ => apply andb_true_iff in H; destruct H
             | H : (_ || _) = true |- _ => apply orb_true_iff in H; destruct H
             | H : (_ =? _) = true |- _ => apply Z.eqb_eq in H
             | H : (_ <=? _) = true |- _ => apply Z.leb_le in H
             end; lia. }
  destruct Hc as [<-|[<-|[<-|Hc]]]; try (apply Hhigh; lia).
  cbn [String.length] in Hlen. apply (IH r3); [lia | exact H | exact Hc].
Qed.

Lemma trimStart_visible (s : string) (c : ascii) :
  In c (list_ascii_of_string s) -> printable c = true -> JS.trimStart s <> "".
Proof.
  intros Hin Hc H.
  pose proof (trimStart_empty (String.length s) s (le_n _) H c Hin). congruence.
Qed.

Lemma trimEnd_blank (s : string) : blank s = true -> JS.trimEnd s = "".
Proof.
  intros H. destruct s as [|a r]; [reflexivity|].
  cbn [JS.trimEnd]. now rewrite (trimStart_all_blank _ H).
Qed.

Lemma in_append (c : ascii) (a b : string) :
  In c (list_ascii_of_string (a ++ b))
  <-> In c (list_ascii_of_string a) \/ In c (list_ascii_of_string b).
Proof.
  induction a as [|x a IH]; cbn; [tauto|]. rewrite IH. tauto.
Qed.

(** White space after a visible character is what [trimEnd] removes. *)
Lemma trimEnd_visible (s : string) (c : ascii) (post : string) :
  printable c = true -> blank post = true ->
  JS.trimEnd ((s ++ String c "") ++ post) = s ++ String c "".
Proof.
  intros Hc Hp. induction s as [|a s IH].
  - cbn [append]. cbn [JS.trimEnd].
    apply printable_byte in Hc.
    rewrite trimStart_printable by lia. now rewrite (trimEnd_blank _ Hp).
  - cbn [append]. cbn [JS.trimEnd].
    destruct (JS.trimStart (String a ((s ++ String c "") ++ post))) eqn:E.
    + exfalso. revert E. apply (trimStart_visible _ c); [|exact Hc].
      change (String a ((s ++ String c "") ++ post))
        with ((String a (s ++ String c "")) ++ post).
      apply in_append. left. right. apply in_append. right. now left.
    + now rewrite IH.
Qed.

Lemma last_char_split (s : string) (z : ascii) :
  last_char s = Some z -> exists s0, s = s0 ++ String z "".
Proof.
  induction s as [|a s IH]; [discriminate|].
  destruct s as [|b s].
  - intros [= <-]. now exists "".
  - intros H. destruct (IH H) as (s0 & E). exists (String a s0). cbn. now rewrite E.
Qed.

Lemma word_shape (s : string) :
  word s = true ->
  exists a r s0 z,
    s = String a r /\ s = s0 ++ String z "" /\ printable a = true /\ printable z = true.
Proof.
  unfold word. destruct s as [|a r]; [discriminate|].
  destruct (last_char (String a r)) as [z|] eqn:E; [|discriminate].
  intros H. apply andb_true_iff in H. destruct H as [Ha Hz].
  destruct (last_char_split _ _ E) as (s0 & Hs0).
  exists a, r, s0, z. auto.
Qed.

Lemma trim_word (pre s post : string) :
  blank pre = true -> blank post = true -> word s = true ->
  JS.trim (pre ++ s ++ post) = s.
Proof.
  intros Hpre Hpost Hw.
  destruct (word_shape s Hw) as (a & r & s0 & z & Ea & Ez & Ha & Hz).
  unfold JS.trim. rewrite (trimStart_blank _ _ Hpre).
  rewrite Ea. cbn [append].
  apply printable_byte in Ha. rewrite trimStart_printable by lia.
  change (String a (r ++ post)) with (String a r ++ post).
  rewrite <- Ea, Ez. now apply trimEnd_visible.
Qed.

Lemma trim_blank (s : string) : blank s = true -> JS.trim s = "".
Proof. intros H. unfold JS.trim. now rewrite (trimStart_all_blank _ H). Qed.

(** *** Cutting at the first equals sign *)

Lemma indexOf_range (c : ascii) (s : string) : -1 <= JS.indexOf c s.
Proof.
  induction s as [|y s IH]; cbn; [lia|].
  destruct (Ascii.eqb y c); [lia|].
  destruct (Z.eqb_spec (JS.indexOf c s) (-1)); lia.
Qed.

Lemma indexOf_append (c : ascii) (a b : string) :
  JS.indexOf c a = -1 ->
  JS.indexOf c (a ++ String c b) = Z.of_nat (String.length a).
Proof.
  induction a as [|x a IH]; intros H.
  - cbn. now rewrite Ascii.eqb_refl.
  - cbn [append JS.indexOf String.length] in *.
    destruct (Ascii.eqb x c); [discriminate H|].
    pose proof (indexOf_range c a) as Hr.
    destruct (Z.eqb_spec (JS.indexOf c a) (-1)) as [E|E]; [|lia].
    rewrite (IH E). destruct (Z.eqb_spec (Z.of_nat (String.length a)) (-1)); lia.
Qed.

Lemma indexOf_blank (s : string) : blank s = true -> JS.indexOf "=" s = -1.
Proof.
  induction s as [|c s IH]; [reflexivity|].
  cbn [blank JS.indexOf]. intros H. apply andb_true_iff in H. destruct H as [Hc Hs].
  apply orb_true_iff in Hc.
  destruct Hc as [Hc|Hc]; apply Ascii.eqb_eq in Hc; subst c; cbn; now rewrite (IH Hs).
Qed.

Lemma indexOf_app_none (c : ascii) (a b : string) :
  JS.indexOf c a = -1 -> JS.indexOf c b = -1 -> JS.indexOf c (a ++ b) = -1.
Proof.
  induction a as [|x a IH]; intros Ha Hb; [exact Hb|].
  cbn [append JS.indexOf] in *.
  destruct (Ascii.eqb x c); [discriminate Ha|].
  pose proof (indexOf_range c a) as Hr.
  destruct (Z.eqb_spec (JS.indexOf c a) (-1)) as [E|E]; [|lia].
  now rewrite (IH E Hb).
Qed.

Lemma substring_prefix (a b : string) : String.substring 0 (String.length a) (a ++ b) = a.
Proof. induction a as [|x a IH]; cbn; [now destruct b | now rewrite IH]. Qed.

Lemma substring_suffix (a b : string) :
  String.substring (String.length a) (String.length b) (a ++ b) = b.
Proof.
  induction a as [|x a IH]; cbn; [|exact IH].
  induction b as [|y b IHb]; cbn; [reflexivity | now rewrite IHb].
Qed.

Lemma length_append (a b : string) :
  String.length (a ++ b) = (String.length a + String.length b)%nat.
Proof. induction a as [|x a IH]; cbn; [reflexivity | now rewrite IH]. Qed.

Lemma slice_before (a b : string) :
  JS.slice (a ++ String "=" b) 0 (Some (Z.of_nat (String.length a))) = a.
Proof.
  unfold JS.slice. rewrite length_append. cbn [String.length].
  destruct (Z.ltb_spec (Z.of_nat (String.length a)) 0); [lia|].
  cbn [Z.ltb Z.compare].
  replace (Z.to_nat (Z.min 0 _)) with 0%nat by lia.
  replace (Z.to_nat (Z.max (Z.min (Z.of_nat (String.length a))
                              (Z.of_nat (String.length a + S (String.length b)))
                            - Z.min 0 (Z.of_nat (String.length a + S (String.length b)))) 0))
    with (String.length a) by lia.
  apply substring_prefix.
Qed.

Lemma slice_after (a b : string) :
  JS.slice (a ++ String "=" b) (Z.of_nat (String.length a) + 1) None = b.
Proof.
  unfold JS.slice. rewrite length_append. cbn [String.length].
  destruct (Z.ltb_spec (Z.of_nat (String.length a) + 1) 0); [lia|].
  replace (Z.to_nat (Z.min (Z.of_nat (String.length a) + 1)
                       (Z.of_nat (String.length a + S (String.length b)))))
    with (String.length (a ++ "="))%nat by (rewrite length_append; cbn; lia).
  replace (Z.to_nat (Z.max (Z.of_nat (String.length a + S (String.length b))
                            - Z.min (Z.of_nat (String.length a) + 1)
                                (Z.of_nat (String.length a + S (String.length b)))) 0))
    with (String.length b) by lia.
  replace (a ++ String "=" b) with ((a ++ "=") ++ b)
    by (rewrite append_assoc; reflexivity).
  apply substring_suffix.
Qed.

Lemma append_nil_r (s : string) : s ++ "" = s.
Proof. induction s as [|c s IH]; cbn; [reflexivity | now rewrite IH]. Qed.

Lemma last_char_append (a b : string) (z : ascii) :
  last_char b = Some z -> last_char (a ++ b) = Some z.
Proof.
  intros H. induction a as [|x a IH]; [exact H|].
  cbn [append]. cbn [last_char].
  destruct (a ++ b) eqn:E; [|exact IH].
  destruct a; [cbn in E; subst b; discriminate H | discriminate E].
Qed.

Lemma word_join (a m b : string) :
  word a = true -> word b = true -> word (a ++ m ++ b) = true.
Proof.
  intros Ha Hb.
  destruct (word_shape a Ha) as (x & r & _ & _ & Ea & _ & Hx & _).
  unfold word in Hb. destruct b as [|y b']; [discriminate|].
  destruct (last_char (String y b')) as [z|] eqn:Ez; [|discriminate].
  apply andb_true_iff in Hb. destruct Hb as [_ Hz].
  unfold word. rewrite Ea. cbn [append].
  change (String x (r ++ m ++ String y b')) with (String x r ++ m ++ String y b').
  rewrite (last_char_append (String x r) _ z (last_char_append m _ z Ez)).
  now rewrite Hx, Hz.
Qed.

Lemma unquoteEnd_mark (s : string) (c : ascii) :
  JS.quotation c = true -> JS.unquoteEnd (s ++ String c "") = s.
Proof.
  intros Hc. induction s as [|a s IH].
  - cbn. now rewrite Hc.
  - cbn [append]. cbn [JS.unquoteEnd].
    destruct (s ++ String c "") eqn:E; [destruct s; discriminate E|].
    now rewrite IH.
Qed.

Lemma unquoteEnd_plain (s : string) :
  (forall z, last_char s = Some z -> JS.quotation z = false) -> JS.unquoteEnd s = s.
Proof.
  induction s as [|a s IH]; intros H; [reflexivity|].
  cbn [JS.unquoteEnd]. destruct s as [|b s].
  - now rewrite (H a eq_refl).
  - f_equal. apply IH. intros z Hz. apply H. exact Hz.
Qed.

(** A line of a key, an equals sign and a value, with spaces or tabs around
    each. *)
Lemma parseLine_assignment (o : JS.Obj) (pre k mid1 mid2 v post : string) :
  blank pre = true -> blank mid1 = true -> blank mid2 = true -> blank post = true ->
  word k = true -> JS.startsWith "#" k = false -> JS.indexOf "=" k = -1 ->
  v = "" \/ word v = true ->
  env_helper.parseLine o (pre ++ k ++ mid1 ++ "=" ++ mid2 ++ v ++ post)
  = JS.set o k (JS.unquote v).
Proof.
  intros Hpre Hm1 Hm2 Hpost Hk Hhash Heq Hv.
  assert (Htrim : exists tail,
             JS.trim (pre ++ k ++ mid1 ++ "=" ++ mid2 ++ v ++ post)
             = (k ++ mid1) ++ String "=" tail
             /\ JS.trim tail = v).
  { destruct Hv as [->|Hv].
    - exists "". split; [|reflexivity].
      replace (pre ++ k ++ mid1 ++ "=" ++ mid2 ++ "" ++ post)
        with (pre ++ (k ++ mid1 ++ "=") ++ (mid2 ++ post))
        by (cbn [append]; now rewrite !append_assoc).
      rewrite trim_word.
      + now rewrite append_assoc.
      + exact Hpre.
      + clear - Hm2 Hpost. induction mid2 as [|c m IH]; [exact Hpost|].
        cbn [blank append] in *. apply andb_true_iff in Hm2. destruct Hm2 as [Hc Hm].
        rewrite Hc. now apply IH.
      + now apply word_join.
    - exists (mid2 ++ v). split.
      + replace (pre ++ k ++ mid1 ++ "=" ++ mid2 ++ v ++ post)
          with (pre ++ (k ++ (mid1 ++ "=" ++ mid2) ++ v) ++ post)
          by (cbn [append]; now rewrite !append_assoc).
        rewrite trim_word; [|exact Hpre | exact Hpost | now apply word_join].
        cbn [append]. now rewrite !append_assoc.
      + rewrite <- (append_nil_r v) at 1. now apply trim_word. }
  destruct Htrim as (tail & Ht & Hval).
  unfold env_helper.parseLine. rewrite Ht.
  destruct (word_shape k Hk) as (a & r & _ & _ & Ea & _ & Ha & _).
  assert (Hne : String.eqb ((k ++ mid1) ++ String "=" tail) "" = false)
    by (rewrite Ea; reflexivity).
  assert (Hsw : JS.startsWith "#" ((k ++ mid1) ++ String "=" tail) = false)
    by (rewrite Ea in *; exact Hhash).
  rewrite Hne, Hsw. cbn [orb].
  rewrite indexOf_append by (apply indexOf_app_none; [exact Heq | now apply indexOf_blank]).
  destruct (Z.eqb_spec (Z.of_nat (String.length (k ++ mid1))) (-1)); [lia|].
  rewrite slice_before, slice_after, Hval.
  replace (JS.trim (k ++ mid1)) with k; [reflexivity|].
  symmetry. change (k ++ mid1) with ("" ++ k ++ mid1). now apply trim_word.
Qed.

Lemma parseLine_comment (o : JS.Obj) (pre rest : string) :
  blank pre = true -> env_helper.parseLine o (pre ++ String "#" rest) = o.
Proof.
  intros Hpre. unfold env_helper.parseLine, JS.trim.
  rewrite (trimStart_blank _ _ Hpre).
  rewrite trimStart_printable by (cbv; split; reflexivity).
  cbn [JS.trimEnd]. rewrite trimStart_printable by (cbv; split; reflexivity).
  cbn [JS.startsWith]. now rewrite orb_true_r.
Qed.

Lemma parseLine_blank (o : JS.Obj) (s : string) :
  blank s = true -> env_helper.parseLine o s = o.
Proof. intros H. unfold env_helper.parseLine. now rewrite (trim_blank _ H). Qed.

Lemma get_set (o : JS.Obj) (k v : string) :
  k <> "__proto__" -> JS.get (JS.set o k v) k = Some (JS.VString v).
Proof.
  intros H. unfold JS.set.
  destruct (String.eqb_spec k "__proto__"); [contradiction|].
  unfold JS.get. cbn [JS.own]. now rewrite String.eqb_refl.
Qed.

(** X20.  The lines of [.env.local].  A line of a key, an equals sign and a
    value, with spaces or tabs before, between and after, sets the key to
    the value, from which one quotation mark at the start and one at the end
    are removed, whether or not they are of the same kind; the key has no
    equals sign, so that the value keeps any of its own.  A line of spaces
    and tabs and a line whose first visible character is [#] set nothing.
    The key [__proto__] is never set. *)
Theorem env_line :
  (forall o pre k mid1 mid2 v post,
      blank pre = true -> blank mid1 = true -> blank mid2 = true -> blank post = true ->
      word k = true -> JS.startsWith "#" k = false -> JS.indexOf "=" k = -1 ->
      v = "" \/ word v = true ->
      env_helper.parseLine o (pre ++ k ++ mid1 ++ "=" ++ mid2 ++ v ++ post)
      = JS.set o k (JS.unquote v)
      /\ (k <> "__proto__" ->
          JS.get (env_helper.parseLine o (pre ++ k ++ mid1 ++ "=" ++ mid2 ++ v ++ post)) k
          = Some (JS.VString (JS.unquote v))))
  /\ (forall c1 c2 s,
        JS.quotation c1 = true -> JS.quotation c2 = true ->
        JS.unquote (String c1 (s ++ String c2 "")) = s)
  /\ (forall a s,
        JS.quotation a = false ->
        (forall z, last_char (String a s) = Some z -> JS.quotation z = false) ->
        JS.unquote (String a s) = String a s)
  /\ (forall o s, blank s = true -> env_helper.parseLine o s = o)
  /\ (forall o pre rest, blank pre = true -> env_helper.parseLine o (pre ++ String "#" rest) = o)
  /\ (forall o line, JS.own "__proto__" o = None ->
                     JS.own "__proto__" (env_helper.parseLine o line) = None).
Proof.
  split; [|split; [|split; [|split; [|split]]]].
  - intros o pre k mid1 mid2 v post Hpre Hm1 Hm2 Hpost Hk Hhash Heq Hv.
    rewrite (parseLine_assignment o pre k mid1 mid2 v post) by assumption.
    split; [reflexivity | now apply get_set].
  - intros c1 c2 s H1 H2. cbn [JS.unquote]. rewrite H1. now apply unquoteEnd_mark.
  - intros a s Ha Hz. cbn [JS.unquote]. rewrite Ha. now apply unquoteEnd_plain.
  - exact parseLine_blank.
  - exact parseLine_comment.
  - intros o line Ho. unfold env_helper.parseLine.
    destruct (_ || _); [exact Ho|].
    destruct (_ =? _); [exact Ho|].
    unfold JS.set.
    match goal with |- context [String.eqb ?k "__proto__"] =>
      destruct (String.eqb_spec k "__proto__") as [E|E] end; [exact Ho|].
    cbn [JS.own].
    match goal with |- context [String.eqb "__proto__" ?k] =>
      destruct (String.eqb_spec "__proto__" k) as [E'|E'] end; [congruence | exact Ho].
Qed.

(** X21.  [getEnv] takes the value of [.env.local] when it has one that is
    not empty, else the value of the process environment when that is not
    empty, else the default: an empty value in either place counts as none
    and lets the next source through.  The only empty string [getEnv]
    returns is an empty default. *)
Theorem env_sources :
  forall (env : env_helper.Env) (key : string) (d : option string) (cache : env_helper.Cache),
    let local := JS.get (fst (env_helper.parseEnvLocal env cache)) key in
    let v := fst (env_helper.getEnv env key d cache) in
    (JS.given local = true -> v = local)
    /\ (JS.given local = false ->
        JS.given (env_helper.process_env env key) = true ->
        v = env_helper.process_env env key)
    /\ (JS.given local = false ->
        JS.given (env_helper.process_env env key) = false ->
        v = option_map JS.VString d)
    /\ (v = Some (JS.VString "") -> d = Some "").
Proof.
  intros env key d cache local v. subst local v. unfold env_helper.getEnv.
  destruct (env_helper.parseEnvLocal env cache) as [envLocal cache'].
  cbn [fst].
  destruct (JS.given (JS.get envLocal key)) eqn:E1; cbn [fst].
  - repeat split; try discriminate.
    intros E. rewrite E in E1. discriminate E1.
  - destruct (JS.given (env_helper.process_env env key)) eqn:E2; cbn [fst].
    + repeat split; try discriminate.
      intros E. rewrite E in E2. discriminate E2.
    + repeat split; try discriminate.
      destruct d as [[|a s]|]; [reflexivity | discriminate | discriminate].
Qed.

(** X22.  [.env.local] is read once.  After a first [getEnv] the cache is
    set and stays what it is, and what [getEnv] returns no longer depends on
    the file: a file that appears or changes later is not read, also when
    the first read failed and left the cache empty. *)
Theorem env_read_once :
  forall (env env1 env2 : env_helper.Env) (key key' : string) (d d' : option string)
         (cache : env_helper.Cache),
    let cache1 := snd (env_helper.getEnv env key d cache) in
    cache1 <> None
    /\ snd (env_helper.getEnv env1 key' d' cache1) = cache1
    /\ (env_helper.process_env env1 key' = env_helper.process_env env2 key' ->
        env_helper.getEnv env1 key' d' cache1 = env_helper.getEnv env2 key' d' cache1)
    /\ (cache = None ->
        (exists e, env_helper.readFileSync env = inl e) ->
        cache1 = Some []).
Proof.
  intros env env1 env2 key key' d d' cache cache1.
  assert (H : exists o, cache1 = Some o
                        /\ (cache = None ->
                            (exists e, env_helper.readFileSync env = inl e) -> o = [])).
  { subst cache1. unfold env_helper.getEnv, env_helper.parseEnvLocal.
    destruct cache as [o|].
    - exists o. split; [|discriminate].
      destruct (JS.given (JS.get o key)); [reflexivity|].
      destruct (JS.given _); reflexivity.
    - eexists. split.
      + destruct (JS.given (JS.get _ key)); [reflexivity|].
        destruct (JS.given _); reflexivity.
      + intros _ (e & ->). reflexivity. }
  destruct H as (o & -> & Hfail).
  split; [discriminate|]. split; [|split].
  - unfold env_helper.getEnv, env_helper.parseEnvLocal.
    destruct (JS.given (JS.get o key')); [reflexivity|].
    destruct (JS.given _); reflexivity.
  - intros E. unfold env_helper.getEnv, env_helper.parseEnvLocal. now rewrite E.
  - intros Hc He. now rewrite (Hfail Hc He).
Qed.

(** X23.  [getRequiredEnv] throws exactly when neither [.env.local] nor the
    process environment has a value that is not empty; the error names the
    variable.  What it returns is never the empty string. *)
Theorem required_env :
  forall (env : env_helper.Env) (key : string) (cache : env_helper.Cache),
    let local := JS.get (fst (env_helper.parseEnvLocal env cache)) key in
    (JS.given local = false /\ JS.given (env_helper.process_env env key) = false
     <-> fst (env_helper.getRequiredEnv env key cache)
         = inl {| JS.name := "Error";
                  JS.message := "Required environment variable " ++ key ++ " is not set" |})
    /\ (forall v, fst (env_helper.getRequiredEnv env key cache) = inr v ->
                  JS.given (Some v) = true
                  /\ (JS.given local = true -> Some v = local)).
Proof.
  intros env key cache local. subst local.
  unfold env_helper.getRequiredEnv, env_helper.getEnv.
  destruct (env_helper.parseEnvLocal env cache) as [envLocal cache'].
  cbn [fst].
  destruct (JS.given (JS.get envLocal key)) eqn:E1.
  - destruct (JS.get envLocal key) as [[[|a s]|n]|] eqn:Eg; try discriminate E1; cbn [fst];
      (split; [split; [intros [? _]; discriminate | discriminate]|]);
      intros v [= <-]; auto.
  - destruct (JS.given (env_helper.process_env env key)) eqn:E2.
    + destruct (env_helper.process_env env key) as [[[|a s]|n]|] eqn:Eg;
        try discriminate E2; cbn [fst];
        (split; [split; [intros [_ ?]; discriminate | discriminate]|]);
        intros v [= <-]; (split; [reflexivity | discriminate]).
    + cbn [option_map fst]. split; [split; auto|]. discriminate.
Qed.

Lemma getEnv_again (env : env_helper.Env) (k k0 : string) (d d0 : option string)
    (cache : env_helper.Cache) :
  fst (env_helper.getEnv env k d (snd (env_helper.getEnv env k0 d0 cache)))
  = fst (env_helper.getEnv env k d cache).
Proof.
  unfold env_helper.getEnv, env_helper.parseEnvLocal.
  destruct cache as [o|].
  - destruct (JS.given (JS.get o k0)); [reflexivity|].
    destruct (JS.given (env_helper.process_env env k0)); reflexivity.
  - set (o := match env_helper.readFileSync env with inr _ => _ | inl _ => _ end).
    destruct (JS.given (JS.get o k0)); [reflexivity|].
    destruct (JS.given (env_helper.process_env env k0)); reflexivity.
Qed.

(** X24.  The service runs in test mode exactly when [NODE_ENV] or [BUN_ENV]
    resolves to [test], [.env.local] first; in test mode a request with a
    token, whatever the token, is answered 401 and reaches no handler. *)
Theorem test_mode_locks_out :
  forall (env : env_helper.Env) (cache : env_helper.Cache),
    (fst (env_helper.isTestMode env cache) = true
     <-> fst (env_helper.getEnv env "NODE_ENV" None cache) = Some (JS.VString "test")
         \/ fst (env_helper.getEnv env "BUN_ENV" None cache) = Some (JS.VString "test"))
    /\ forall (rt : Runtime) (rest : list Handler) (rq : Request) (w : World) (token : string),
         isTestMode rt = fst (env_helper.isTestMode env cache) ->
         fst (env_helper.getEnv env "NODE_ENV" None cache) = Some (JS.VString "test")
         \/ fst (env_helper.getEnv env "BUN_ENV" None cache) = Some (JS.VString "test") ->
         bearer rq token ->
         exists s',
           fetch (firebaseAuthMiddleware rt :: rest) rq w
           = Returned (failure "Invalid or expired Firebase token" 401 (now w)) s'
           /\ world s' = w.
Proof.
  intros env cache.
  assert (His : forall v, JS.equals v "test" = true <-> v = Some (JS.VString "test")).
  { intros v. unfold JS.equals. destruct v as [[x|n]|]; try (split; discriminate).
    rewrite String.eqb_eq. split; [now intros -> | now intros [= ->]]. }
  assert (Hiff : fst (env_helper.isTestMode env cache) = true
                 <-> fst (env_helper.getEnv env "NODE_ENV" None cache)
                     = Some (JS.VString "test")
                     \/ fst (env_helper.getEnv env "BUN_ENV" None cache)
                        = Some (JS.VString "test")).
  { pose proof (getEnv_again env "BUN_ENV" "NODE_ENV" None None cache) as Hag.
    unfold env_helper.isTestMode.
    destruct (env_helper.getEnv env "NODE_ENV" None cache) as [node_env cache1].
    cbn [fst snd] in *.
    destruct (JS.equals node_env "test") eqn:E1.
    - cbn [fst]. apply His in E1. tauto.
    - destruct (env_helper.getEnv env "BUN_ENV" None cache1) as [bun_env cache2].
      cbn [fst] in *. rewrite <- Hag, <- !His. rewrite E1. intuition congruence. }
  split; [exact Hiff|].
  intros rt rest rq w token Hrt Hor Hb.
  apply Hiff in Hor. rewrite <- Hrt in Hor.
  eexists. split; [apply fetch_gate_answer|reflexivity].
  exact (gate_refuses rt _ {| ctx := Hono.new_Context rq; world := w |} token Hb
           (or_introl Hor)).
Qed.

(** Whatever was asked before, the cache holds the object of the first
    reading. *)
Lemma getEnv_cache (env : env_helper.Env) (k : string) (d : option string)
    (cache : env_helper.Cache) :
  snd (env_helper.getEnv env k d cache)
  = Some (fst (env_helper.parseEnvLocal env cache)).
Proof.
  unfold env_helper.getEnv, env_helper.parseEnvLocal.
  destruct cache as [o|]; cbn [fst].
  - destruct (JS.given (JS.get o k)); [reflexivity|].
    destruct (JS.given _); reflexivity.
  - set (o := match env_helper.readFileSync env with inr _ => _ | inl _ => _ end).
    destruct (JS.given (JS.get o k)); [reflexivity|].
    destruct (JS.given _); reflexivity.
Qed.

Lemma parseEnvLocal_cached (env : env_helper.Env) (cache : env_helper.Cache) :
  fst (env_helper.parseEnvLocal env (Some (fst (env_helper.parseEnvLocal env cache))))
  = fst (env_helper.parseEnvLocal env cache).
Proof. reflexivity. Qed.

Lemma getRequiredEnv_cache (env : env_helper.Env) (k : string) (cache : env_helper.Cache) :
  snd (env_helper.getRequiredEnv env k cache)
  = Some (fst (env_helper.parseEnvLocal env cache)).
Proof.
  pose proof (getEnv_cache env k None cache) as H.
  unfold env_helper.getRequiredEnv.
  destruct (env_helper.getEnv env k None cache) as [[[[|a s]|n]|] c']; exact H.
Qed.

Lemma isTestMode_cache (env : env_helper.Env) (cache : env_helper.Cache) :
  snd (env_helper.isTestMode env cache)
  = Some (fst (env_helper.parseEnvLocal env cache)).
Proof.
  pose proof (getEnv_cache env "NODE_ENV" None cache) as H1.
  unfold env_helper.isTestMode.
  destruct (env_helper.getEnv env "NODE_ENV" None cache) as [v c1]. cbn [snd] in H1.
  destruct (JS.equals v "test"); [exact H1|].
  pose proof (getEnv_cache env "BUN_ENV" None c1) as H2.
  destruct (env_helper.getEnv env "BUN_ENV" None c1) as [v2 c2]. cbn [snd] in *.
  rewrite H2, H1. reflexivity.
Qed.

Lemma getRequiredEnv_again (env : env_helper.Env) (k : string) (cache : env_helper.Cache) :
  fst (env_helper.getRequiredEnv env k
         (Some (fst (env_helper.parseEnvLocal env cache))))
  = fst (env_helper.getRequiredEnv env k cache).
Proof.
  unfold env_helper.getRequiredEnv, env_helper.getEnv.
  change (env_helper.parseEnvLocal env (Some (fst (env_helper.parseEnvLocal env cache))))
    with (fst (env_helper.parseEnvLocal env cache),
          Some (fst (env_helper.parseEnvLocal env cache))).
  destruct (env_helper.parseEnvLocal env cache) as [o c']. cbn [fst].
  destruct (JS.given (JS.get o k)).
  - destruct (JS.get o k) as [[[|a s]|n]|]; reflexivity.
  - destruct (JS.given (env_helper.process_env env k)).
    + destruct (env_helper.process_env env k) as [[[|a s]|n]|]; reflexivity.
    + reflexivity.
Qed.

(** X25.  The credentials of the service.  In test mode the module loads
    without reading a credential.  Otherwise it loads only when the project
    id, the client email and the private key each have a value that is not
    empty, in [.env.local] or in the process environment; when one has none,
    loading stops with the error that names the first of them, in this
    order, that has none. *)
Theorem firebase_credentials :
  forall (env : env_helper.Env) (cache : env_helper.Cache),
    let load := fst (env_helper.firebase_load env cache) in
    let required key := fst (env_helper.getRequiredEnv env key cache) in
    (fst (env_helper.isTestMode env cache) = true -> load = inr None)
    /\ (fst (env_helper.isTestMode env cache) = false ->
        (forall e, required "FIREBASE_PROJECT_ID" = inl e -> load = inl e)
        /\ (forall p e,
              required "FIREBASE_PROJECT_ID" = inr p ->
              required "FIREBASE_CLIENT_EMAIL" = inl e -> load = inl e)
        /\ (forall p c e,
              required "FIREBASE_PROJECT_ID" = inr p ->
              required "FIREBASE_CLIENT_EMAIL" = inr c ->
              required "FIREBASE_PRIVATE_KEY" = inl e -> load = inl e)
        /\ (forall p c k,
              required "FIREBASE_PROJECT_ID" = inr p ->
              required "FIREBASE_CLIENT_EMAIL" = inr c ->
              required "FIREBASE_PRIVATE_KEY" = inr k ->
              load
              = inr (Some {| env_helper.projectId := p; env_helper.clientEmail := c;
                             env_helper.privateKey := k;
                             env_helper.siteAdminEmails :=
                               fst (env_helper.getEnv env "SITEADMIN_EMAILS" None cache) |}))).
Proof.
  intros env cache load required. subst load required.
  unfold env_helper.firebase_load.
  pose proof (isTestMode_cache env cache) as Hc0.
  destruct (env_helper.isTestMode env cache) as [tm c0]. cbn [fst snd] in *. subst c0.
  split; [intros ->; reflexivity|]. intros ->.
  pose proof (getRequiredEnv_again env "FIREBASE_PROJECT_ID" cache) as Hp.
  pose proof (getRequiredEnv_cache env "FIREBASE_PROJECT_ID"
                (Some (fst (env_helper.parseEnvLocal env cache)))) as Hpc.
  destruct (env_helper.getRequiredEnv env "FIREBASE_PROJECT_ID"
              (Some (fst (env_helper.parseEnvLocal env cache)))) as [p c1].
  cbn [fst snd] in *. subst c1. rewrite <- Hp. clear Hp.
  destruct p as [e|p]; cbn [fst].
  { split; [now intros e0 [= ->]|]. repeat split; intros; discriminate. }
  pose proof (getRequiredEnv_again env "FIREBASE_CLIENT_EMAIL" cache) as Hc.
  pose proof (getRequiredEnv_cache env "FIREBASE_CLIENT_EMAIL"
                (Some (fst (env_helper.parseEnvLocal env cache)))) as Hcc.
  change (fst (env_helper.parseEnvLocal env
                 (Some (fst (env_helper.parseEnvLocal env cache)))))
    with (fst (env_helper.parseEnvLocal env cache)) in *.
  destruct (env_helper.getRequiredEnv env "FIREBASE_CLIENT_EMAIL"
              (Some (fst (env_helper.parseEnvLocal env cache)))) as [c c2].
  cbn [fst snd] in *. subst c2. rewrite <- Hc. clear Hc.
  destruct c as [e|c]; cbn [fst].
  { split; [discriminate|]. split; [now intros p0 e0 _ [= ->]|].
    split; intros; discriminate. }
  pose proof (getRequiredEnv_again env "FIREBASE_PRIVATE_KEY" cache) as Hk.
  pose proof (getRequiredEnv_cache env "FIREBASE_PRIVATE_KEY"
                (Some (fst (env_helper.parseEnvLocal env cache)))) as Hkc.
  change (fst (env_helper.parseEnvLocal env
                 (Some (fst (env_helper.parseEnvLocal env cache)))))
    with (fst (env_helper.parseEnvLocal env cache)) in *.
  destruct (env_helper.getRequiredEnv env "FIREBASE_PRIVATE_KEY"
              (Some (fst (env_helper.parseEnvLocal env cache)))) as [k c3].
  cbn [fst snd] in *. subst c3. rewrite <- Hk. clear Hk.
  destruct k as [e|k]; cbn [fst].
  { split; [discriminate|]. split; [discriminate|].
    split; [now intros p0 c0 e0 _ _ [= ->]|]. intros; discriminate. }
  pose proof (getEnv_again env "SITEADMIN_EMAILS" "NODE_ENV" None None cache) as Ha.
  rewrite getEnv_cache in Ha.
  destruct (env_helper.getEnv env "SITEADMIN_EMAILS" None
              (Some (fst (env_helper.parseEnvLocal env cache)))) as [a c4].
  cbn [fst] in *. subst a.
  split; [discriminate|]. split; [discriminate|]. split; [discriminate|].
  now intros p0 c0 k0 [= <-] [= <-] [= <-].
Qed.

Arguments new_Date_of : simpl never.
Arguments isValidDatetime : simpl never.
Arguments Engine.numeric_12_2 : simpl never.
Arguments read_updates : simpl never.
Arguments Engine.has_user : simpl never.
Arguments Engine.has_history : simpl never.
Arguments JS.prop : simpl never.
Arguments JS.falsy : simpl never.

Section Bodies.
Variable rt : Runtime.

(** *** index.ts: the public endpoints *)

(** X17.  The root and the health endpoint answer every request with 200 and
    their fixed payload, with or without an Authorization header and
    whatever the store holds: they read nothing from the store, so that the
    health check reports [ok] also when the store is out of reach. *)
Theorem public_endpoints :
  forall (rest : list Handler) (rq : Request) (w : World),
    (exists s',
        fetch (root :: rest) rq w
        = Returned
            (answer (DInfo [("name", "Starter API"); ("version", "1.0.0");
                            ("status", "healthy")]) 200 (now w)) s'
        /\ world s' = w)
    /\ (exists s',
           fetch (health :: rest) rq w
           = Returned (answer (DInfo [("status", "ok"); ("version", "1.0.0")]) 200 (now w)) s'
           /\ world s' = w).
Proof.
  intros rest rq w.
  split; eexists;
    (split;
     [eapply fetch_responded; [apply compose_answer; reflexivity | reflexivity]
     |reflexivity]).
Qed.

(** *** What a body can set *)

(** X18.  A create and an update read two properties of the body, [datetime]
    and [value], and nothing else: two requests of one requester for one
    path whose bodies agree on these two get the same answer and leave the
    same world.  The identifier, the owner and the timestamps of a record
    cannot be set from the body. *)
Theorem body_fields :
  forall (next : M unit) (c c' : Context) (w : World) (body body' : JS.json),
    var c = var c' ->
    param_userId (req c) = param_userId (req c') ->
    param_historyId (req c) = param_historyId (req c') ->
    json (req c) = inr body ->
    json (req c') = inr body' ->
    JS.prop body "datetime" = JS.prop body' "datetime" ->
    JS.prop body "value" = JS.prop body' "value" ->
    (result (historiesRouter_post rt next {| ctx := c; world := w |})
     = result (historiesRouter_post rt next {| ctx := c'; world := w |})
     /\ world (final (historiesRouter_post rt next {| ctx := c; world := w |}))
        = world (final (historiesRouter_post rt next {| ctx := c'; world := w |})))
    /\ (result (historiesRouter_put rt next {| ctx := c; world := w |})
        = result (historiesRouter_put rt next {| ctx := c'; world := w |})
        /\ world (final (historiesRouter_put rt next {| ctx := c; world := w |}))
           = world (final (historiesRouter_put rt next {| ctx := c'; world := w |}))).
Proof.
  intros next c c' w body body' Hvar Huid Hhid Hb Hb' Hd Hv.
  assert (Hn : notAuthorized c = notAuthorized c').
  { unfold notAuthorized. now rewrite Hvar, Huid. }
  split.
  - unfold historiesRouter_post. run. rewrite <- Hn, <- Huid, Hb, Hb'. cbn. rewrite <- Hd. cbn.
    destruct (notAuthorized c); [split; reflexivity|].
    destruct (JS.prop body "datetime") as [e|dt]; cbn; [split; reflexivity|].
    rewrite <- Hv.
    destruct (JS.prop body "value") as [e|v]; cbn; [split; reflexivity|].
    destruct (JS.falsy dt || _); [split; reflexivity|].
    destruct v as [[| |q| | |]|]; try (split; reflexivity).
    destruct (Qle_bool q 0); [split; reflexivity|].
    destruct dt as [[| | |sd| |]|]; try (split; reflexivity).
    destruct (negb (isValidDatetime rt sd)); [split; reflexivity|].
    unfold insert_history.
    destruct (new_Date_of rt sd) as [t|]; run; [|split; reflexivity].
    destruct (timestamp_in rt t); cbn; [|split; reflexivity].
    destruct (Engine.numeric_12_2 (JS.String_of_number q)); cbn; [|split; reflexivity].
    destruct (Engine.has_user (store w) (param_userId (req c))); cbn; [|split; reflexivity].
    destruct (Engine.has_history (store w) (gen_random_uuid rt (drawn w))); cbn;
      split; reflexivity.
  - unfold historiesRouter_put. run.
    rewrite <- Hn, <- Huid, <- Hhid, Hb, Hb'. cbn. rewrite <- Hd. cbn.
    destruct (notAuthorized c); [split; reflexivity|].
    destruct (JS.prop body "datetime") as [e|dt]; cbn; [split; reflexivity|].
    match goal with
    | |- context [match ?x with inl _ => _ | inr _ => _ end] =>
        destruct x as [msg|ud]; [split; reflexivity|]
    end.
    cbn. rewrite <- Hv.
    destruct (JS.prop body "value") as [e|v]; cbn; [split; reflexivity|].
    match goal with
    | |- context [match ?x with inl _ => _ | inr _ => _ end] =>
        destruct x as [msg|uv]; [split; reflexivity|]
    end.
    destruct (Nat.eqb _ 0); [split; reflexivity|].
    unfold update_history. cbn [updates_datetime].
    destruct ud as [[t|]|]; run; try (split; reflexivity).
    all: destruct (uuid_in rt _); cbn; [|split; reflexivity].
    all: match goal with
         | |- context [read_updates rt ?x ?u] => destruct (read_updates rt x u)
         end; cbn; [split; reflexivity|].
    all: destruct (filter (Engine.matches _ _) _); split; reflexivity.
Qed.

(** X19.  An update never adds or removes a record, and never changes the
    identifier, the owner or the creation time of one: however the handler
    ends, the store has the same records in the same places, each with these
    three columns as before. *)
Theorem update_keeps_identity :
  forall (next : M unit) (c : Context) (w : World),
    map (fun h => (histories.id h, histories.user_id h, histories.created_at h))
      (histories_table (store_after (historiesRouter_put rt next {| ctx := c; world := w |})))
    = map (fun h => (histories.id h, histories.user_id h, histories.created_at h))
        (histories_table (store w)).
Proof.
  intros next c w.
  destruct (put_store rt next c w) as [->|(a & id & _ & ->)]; [reflexivity|].
  cbn [histories_table]. rewrite map_map. apply map_ext.
  intros h. unfold touched. now destruct (Engine.matches _ _ h).
Qed.

End Bodies.

(** *** The properties at concrete requests *)

Lemma rejected_token_witness :
  exists s',
    fetch [firebaseAuthMiddleware Sample.runtime; historiesRouter_get]
      (Sample.request (Some "Bearer stale-token") "alice" "" Sample.no_query JS.JNull)
      Sample.world
    = Returned (failure "Invalid or expired Firebase token" 401 (now Sample.world)) s'
    /\ world s' = Sample.world
    /\ var (ctx s')
       = var (Hono.new_Context
                (Sample.request (Some "Bearer stale-token") "alice" "" Sample.no_query
                   JS.JNull)).
Proof.
  assert (Hb : bearer (Sample.request (Some "Bearer stale-token") "alice" ""
                         Sample.no_query JS.JNull) "stale-token")
    by (exists "Bearer stale-token"; repeat split; discriminate).
  assert (Hbad : isTestMode Sample.runtime = true
                 \/ exists e, cachedVerifier_verify Sample.runtime "stale-token" = inl e)
    by (right; eexists; reflexivity).
  exact (proj2 (rejected_token Sample.runtime _ Sample.world "stale-token" Hb Hbad)
           [historiesRouter_get]).
Defined.

Lemma write_isolation_witness :
  others "alice"
    (store_after
       (historiesRouter_delete Sample.runtime (ret tt)
          {| ctx := Sample.alice_context
                      (Sample.request (Some "Bearer alice-token") "alice" Sample.bob_id
                         Sample.no_query JS.JNull);
             world := Sample.world |}))
  = [Sample.bob_history].
Proof.
  exact (proj2 (write_isolation Sample.runtime (historiesRouter_delete Sample.runtime)
                  (ret tt)
                  (Sample.alice_context
                     (Sample.request (Some "Bearer alice-token") "alice" Sample.bob_id
                        Sample.no_query JS.JNull))
                  Sample.world
                  (or_intror (or_intror (or_intror (or_introl eq_refl)))))).
Defined.

Lemma sample_consistent : consistent (store Sample.world).
Proof.
  split; [|split].
  - repeat constructor; cbn; intuition discriminate.
  - intros h [<-|[<-|[]]]; reflexivity.
  - intros h [<-|[<-|[]]]; cbn; lia.
Defined.

Lemma consistency_kept_witness :
  consistent
    (store_after
       (historiesRouter_post Sample.runtime (ret tt)
          {| ctx := Sample.alice_context
                      (Sample.request (Some "Bearer alice-token") "alice" ""
                         Sample.no_query
                         (Sample.fields (Some (JS.JStr "2024-01-15"))
                            (Some (JS.JNum (425 # 10)))));
             world := Sample.world |})).
Proof.
  exact (consistency_kept Sample.runtime (historiesRouter_post Sample.runtime) (ret tt) _
           Sample.world (or_intror (or_introl eq_refl)) sample_consistent).
Defined.

Lemma list_scope_witness :
  exists rows,
    historiesRouter_get (ret tt)
      {| ctx := Sample.alice_context
                  (Sample.request (Some "Bearer alice-token") "alice" "" Sample.no_query
                     JS.JNull);
         world := Sample.world |}
    = Returned (Some (answer (DHistories (map serializeHistory rows)) 200 (now Sample.world)))
        {| ctx := Sample.alice_context
                    (Sample.request (Some "Bearer alice-token") "alice" "" Sample.no_query
                       JS.JNull);
           world := after (Select "histories") (store Sample.world) Sample.world |}
    /\ (forall r, In r rows ->
                  In r (histories_table (store Sample.world))
                  /\ histories.user_id r = "alice")
    /\ Z.of_nat (List.length rows) <= 50 <= 200.
Proof.
  exact (proj1 (list_scope (ret tt)
                  (Sample.alice_context
                     (Sample.request (Some "Bearer alice-token") "alice" ""
                        Sample.no_query JS.JNull))
                  Sample.world eq_refl) eq_refl).
Defined.



Lemma user_profile_witness :
  usersRouter_get (ret tt)
    {| ctx := Sample.alice_context
                (Sample.request (Some "Bearer alice-token") "carol" "" Sample.no_query
                   JS.JNull);
       world := Sample.world |}
  = Returned (Some (failure "Not authorized to view this user" 403 (now Sample.world)))
      {| ctx := Sample.alice_context
                  (Sample.request (Some "Bearer alice-token") "carol" "" Sample.no_query
                     JS.JNull);
         world := Sample.world |}.
Proof.
  exact (proj1 (user_profile (ret tt)
                  (Sample.alice_context
                     (Sample.request (Some "Bearer alice-token") "carol" ""
                        Sample.no_query JS.JNull))
                  Sample.world) eq_refl).
Defined.

Lemma total_after_create_witness :
  exists resp s1 created s2,
    historiesRouter_post Sample.runtime (ret tt)
      {| ctx := Sample.alice_context
                  (Sample.request (Some "Bearer alice-token") "alice" "" Sample.no_query
                     (Sample.fields (Some (JS.JStr "2024-01-15"))
                        (Some (JS.JNum (425 # 10)))));
         world := Sample.world |}
    = Returned (Some resp) s1
    /\ resp = answer (DHistory created) 201 (now Sample.world)
    /\ historiesTotalRouter_get (ret tt)
         {| ctx := Hono.new_Context
                     (Sample.request None "" "" Sample.no_query JS.JNull);
            world := world s1 |}
       = Returned
           (Some (answer (DTotal (sum_of_values (store (world s1)) # 100)) 200
                    (now Sample.world))) s2
    /\ (sum_of_values (store (world s1)) # 100
        == (14250 # 100) + History.value created)%Q.
Proof.
  assert (E : exists resp s1,
             historiesRouter_post Sample.runtime (ret tt)
               {| ctx := Sample.alice_context
                           (Sample.request (Some "Bearer alice-token") "alice" ""
                              Sample.no_query
                              (Sample.fields (Some (JS.JStr "2024-01-15"))
                                 (Some (JS.JNum (425 # 10)))));
                  world := Sample.world |}
             = Returned (Some resp) s1
             /\ status resp = 201)
    by (do 2 eexists; split; [vm_compute; reflexivity | reflexivity]).
  destruct E as (resp & s1 & E & Hs).
  destruct (total_after_create Sample.runtime (ret tt) (ret tt) _
              (Hono.new_Context (Sample.request None "" "" Sample.no_query JS.JNull))
              Sample.world resp s1 ltac:(vm_compute; reflexivity) E Hs)
    as (created & s0 & s2 & Hr & _ & Ht & Hq).
  exists resp, s1, created, s2. auto.
Defined.

Lemma total_after_delete_witness :
  exists resp s1 s2,
    historiesRouter_delete Sample.runtime (ret tt)
      {| ctx := Sample.alice_context
                  (Sample.request (Some "Bearer alice-token") "alice" Sample.alice_id Sample.no_query
                     JS.JNull);
         world := Sample.world |}
    = Returned (Some resp) s1
    /\ historiesTotalRouter_get (ret tt)
         {| ctx := Hono.new_Context
                     (Sample.request None "" "" Sample.no_query JS.JNull);
            world := world s1 |}
       = Returned (Some (answer (DTotal (10000 # 100)) 200 (now Sample.world))) s2.
Proof.
  assert (E : exists resp s1,
             historiesRouter_delete Sample.runtime (ret tt)
               {| ctx := Sample.alice_context
                           (Sample.request (Some "Bearer alice-token") "alice" Sample.alice_id
                              Sample.no_query JS.JNull);
                  world := Sample.world |}
             = Returned (Some resp) s1
             /\ status resp = 200)
    by (do 2 eexists; split; [vm_compute; reflexivity | reflexivity]).
  destruct E as (resp & s1 & E & Hs).
  destruct (total_after_delete Sample.runtime (ret tt) (ret tt) _
              (Hono.new_Context (Sample.request None "" "" Sample.no_query JS.JNull))
              Sample.world resp s1 sample_consistent ltac:(vm_compute; reflexivity) E Hs)
    as (h & s0 & s2 & Hin & Hid & _ & _ & _ & _ & Ht).
  exists resp, s1, s2. split; [exact E|].
  rewrite Ht. destruct Hin as [<-|[<-|[]]]; [vm_compute in Hid; discriminate Hid | reflexivity].
Defined.

Lemma create_rounds_to_cents_witness :
  exists resp s1 created,
    historiesRouter_post Sample.runtime (ret tt)
      {| ctx := Sample.alice_context
                  (Sample.request (Some "Bearer alice-token") "alice" "" Sample.no_query
                     (Sample.fields (Some (JS.JStr "2024-01-15"))
                        (Some (JS.JNum (12345 # 1000)))));
         world := Sample.world |}
    = Returned (Some resp) s1
    /\ resp = answer (DHistory created) 201 (now Sample.world)
    /\ (Qabs (History.value created - (12345 # 1000)) <= 1 # 200)%Q.
Proof.
  assert (E : exists resp s1,
             historiesRouter_post Sample.runtime (ret tt)
               {| ctx := Sample.alice_context
                           (Sample.request (Some "Bearer alice-token") "alice" ""
                              Sample.no_query
                              (Sample.fields (Some (JS.JStr "2024-01-15"))
                                 (Some (JS.JNum (12345 # 1000)))));
                  world := Sample.world |}
             = Returned (Some resp) s1
             /\ status resp = 201)
    by (do 2 eexists; split; [vm_compute; reflexivity | reflexivity]).
  destruct E as (resp & s1 & E & Hs).
  destruct (create_rounds_to_cents Sample.runtime (ret tt)
              (Sample.alice_context
                 (Sample.request (Some "Bearer alice-token") "alice" "" Sample.no_query
                    (Sample.fields (Some (JS.JStr "2024-01-15"))
                       (Some (JS.JNum (12345 # 1000))))))
              Sample.world
              (Sample.fields (Some (JS.JStr "2024-01-15")) (Some (JS.JNum (12345 # 1000))))
              (12345 # 1000) resp s1 eq_refl eq_refl E Hs)
    as (created & cents & Hr & _ & Hq).
  exists resp, s1, created. auto.
Defined.

Lemma offset_resolution_witness :
  JS.parseInt "-3" = Some (-3) /\ offset_of (Some "-3") = 0
  /\ JS.parseInt "1000" = Some 1000 /\ offset_of (Some "1000") = 1000.
Proof.
  destruct offset_resolution as (_ & _ & _ & Hneg & Hpos).
  split; [reflexivity|]. split; [apply (Hneg "-3" (-3)); [reflexivity | lia]|].
  split; [reflexivity|]. apply (Hpos "1000" 1000); [reflexivity | cbn; lia].
Defined.

Lemma numeral_parameters_witness :
  limit_of (Some (JS.String_of_int 20)) = 20
  /\ offset_of (Some (JS.String_of_int 40)) = 40.
Proof.
  destruct numeral_parameters as (_ & Hl & Ho).
  split; [apply Hl; lia | apply Ho; cbn; lia].
Defined.

Lemma user_provisioning_witness :
  exists s',
    ensureUserExists "carol" (Some "carol@example.com")
      {| ctx := Hono.new_Context (Sample.request None "" "" Sample.no_query JS.JNull);
         world := Sample.world |}
    = Returned tt s'
    /\ Engine.has_user (store (world s')) "carol" = true
    /\ histories_table (store (world s')) = histories_table (store Sample.world).
Proof.
  destruct (user_provisioning "carol" (Some "carol@example.com")
              {| ctx := Hono.new_Context (Sample.request None "" "" Sample.no_query JS.JNull);
                 world := Sample.world |})
    as (s' & H1 & H2 & H3 & _).
  - cbn. lia.
  - intros e [= <-]. cbn. lia.
  - exists s'. auto.
Defined.

Lemma emitted_datetime_reads_back_witness :
  new_Date_of Sample.runtime (JS.toISOString 1705314600000) = Some 1705314600000
  /\ isValidDatetime Sample.runtime (JS.toISOString 1705314600000) = true.
Proof.
  apply (proj1 (emitted_datetime_reads_back Sample.runtime)).
  unfold JS.maxTime. cbn. lia.
Defined.

Lemma body_fields_witness :
  result
    (historiesRouter_post Sample.runtime (ret tt)
       {| ctx := Sample.alice_context
                   (Sample.request (Some "Bearer alice-token") "alice" "" Sample.no_query
                      (JS.JObj [("id", JS.JStr "mine"); ("user_id", JS.JStr "bob");
                                ("datetime", JS.JStr "2024-01-15");
                                ("value", JS.JNum (425 # 10))]));
          world := Sample.world |})
  = result
      (historiesRouter_post Sample.runtime (ret tt)
         {| ctx := Sample.alice_context
                     (Sample.request (Some "Bearer alice-token") "alice" "" Sample.no_query
                        (Sample.fields (Some (JS.JStr "2024-01-15"))
                           (Some (JS.JNum (425 # 10)))));
            world := Sample.world |}).
Proof.
  exact (proj1 (proj1 (body_fields Sample.runtime (ret tt)
                         (Sample.alice_context
                            (Sample.request (Some "Bearer alice-token") "alice" ""
                               Sample.no_query
                               (JS.JObj [("id", JS.JStr "mine"); ("user_id", JS.JStr "bob");
                                         ("datetime", JS.JStr "2024-01-15");
                                         ("value", JS.JNum (425 # 10))])))
                         (Sample.alice_context
                            (Sample.request (Some "Bearer alice-token") "alice" ""
                               Sample.no_query
                               (Sample.fields (Some (JS.JStr "2024-01-15"))
                                  (Some (JS.JNum (425 # 10))))))
                         Sample.world _ _
                         eq_refl eq_refl eq_refl eq_refl eq_refl eq_refl eq_refl))).
Defined.

Lemma env_line_witness :
  env_helper.parseLine [] "  DATABASE_URL = 'postgres://db'  "
  = [("DATABASE_URL", "postgres://db")].
Proof.
  exact (proj1 (proj1 env_line [] "  " "DATABASE_URL" " " " " "'postgres://db'" "  "
                  eq_refl eq_refl eq_refl eq_refl eq_refl eq_refl eq_refl
                  (or_intror eq_refl))).
Defined.

(** A process environment that sets [NODE_ENV] and leaves [PORT] empty, and
    a [.env.local] of three lines. *)
Lemma env_sources_witness :
  fst (env_helper.getEnv
         {| env_helper.readFileSync := inr "NODE_ENV=test";
            env_helper.process_env := fun k =>
              if String.eqb k "NODE_ENV" then Some (JS.VString "production") else None |}
         "NODE_ENV" None None)
  = Some (JS.VString "test").
Proof.
  exact (proj1 (env_sources
                  {| env_helper.readFileSync := inr "NODE_ENV=test";
                     env_helper.process_env := fun k =>
                       if String.eqb k "NODE_ENV" then Some (JS.VString "production")
                       else None |}
                  "NODE_ENV" None None) eq_refl).
Defined.

Lemma env_read_once_witness :
  snd (env_helper.getEnv
         {| env_helper.readFileSync :=
              inl {| JS.name := "Error"; JS.message := "ENOENT" |};
            env_helper.process_env := fun _ => None |}
         "PORT" None None)
  = Some [].
Proof.
  apply (proj2 (proj2 (proj2
           (env_read_once
              {| env_helper.readFileSync :=
                   inl {| JS.name := "Error"; JS.message := "ENOENT" |};
                 env_helper.process_env := fun _ => None |}
              {| env_helper.readFileSync := inr "PORT=1";
                 env_helper.process_env := fun _ => None |}
              {| env_helper.readFileSync := inr "PORT=2";
                 env_helper.process_env := fun _ => None |}
              "PORT" "PORT" None None None)))).
  - reflexivity.
  - eexists. reflexivity.
Defined.

Lemma required_env_witness :
  fst (env_helper.getRequiredEnv
         {| env_helper.readFileSync := inr "DATABASE_URL=";
            env_helper.process_env := fun _ => None |}
         "DATABASE_URL" None)
  = inl {| JS.name := "Error";
           JS.message := "Required environment variable DATABASE_URL is not set" |}.
Proof.
  apply (proj1 (proj1 (required_env
                         {| env_helper.readFileSync := inr "DATABASE_URL=";
                            env_helper.process_env := fun _ => None |}
                         "DATABASE_URL" None))).
  split; reflexivity.
Defined.

Lemma test_mode_locks_out_witness :
  fst (env_helper.isTestMode
         {| env_helper.readFileSync := inr "BUN_ENV=test";
            env_helper.process_env := fun _ => None |} None)
  = true.
Proof.
  apply (proj1 (test_mode_locks_out
                  {| env_helper.readFileSync := inr "BUN_ENV=test";
                     env_helper.process_env := fun _ => None |} None)).
  right. reflexivity.
Defined.

Lemma firebase_credentials_witness :
  fst (env_helper.firebase_load
         {| env_helper.readFileSync := inr "FIREBASE_PROJECT_ID=demo";
            env_helper.process_env := fun _ => None |} None)
  = inl {| JS.name := "Error";
           JS.message := "Required environment variable FIREBASE_CLIENT_EMAIL is not set" |}.
Proof.
  apply (proj1 (proj2 (proj2 (firebase_credentials
                                {| env_helper.readFileSync := inr "FIREBASE_PROJECT_ID=demo";
                                   env_helper.process_env := fun _ => None |} None)
                         ltac:(vm_compute; reflexivity)))
           (JS.VString "demo"));
    vm_compute; reflexivity.
Defined.
